(** * Figma-to-HTML converter: the style resolution engine

    A shallow embedding of [FigmaToHtmlConverter] (converter.ts) and of the
    node types it reads (types.ts), with the properties of its markup and
    stylesheet output. The methods of the class are embedded, and of
    index.ts the function [extractFileKey]; the command line itself, which
    fetches the file and writes the result, is not.

    Modelling conventions.
    - JavaScript strings are [string]s of ASCII characters; [toLowerCase]
      lowers the letters A to Z.
    - JavaScript numbers are exact decimal numbers [mant / 10^dexp], the
      values a JSON document can denote; arithmetic is exact, so the
      rounding error of IEEE-754 doubles, NaN, the infinities and the
      exponent notation of very large or very small values are left out.
    - [Math.atan2] and [Math.PI] have no exact decimal value: the angle of a
      gradient line in degrees is a parameter of the development.
    - An optional field [f?: T] is an [option T]; [undefined] is [None]. The
      input is a tree of the declared types, so no property access fails and
      the functions are total.
    - The converter's private fields and the [nodeStyles] array that the
      traversal fills are threaded explicitly. *)

From Stdlib Require Import ZArith String Ascii List Bool Lia.
From Stdlib Require Import DecimalString DecimalFacts DecimalNat DecimalN.
From stdpp Require Import gmap strings.
Import ListNotations.
Local Open Scope string_scope.
Local Open Scope list_scope.
Local Open Scope Z_scope.
Local Open Scope nat_scope.

#[local] Arguments String.append !s1 s2 : simpl nomatch.
#[local] Arguments Ascii.eqb !a !b : simpl nomatch.

(** ** JavaScript strings *)

Module Js.

(** [s.startsWith(p)]. *)
Fixpoint startsWith (p s : string) : bool :=
  match p, s with
  | EmptyString, _ => true
  | String a p', String b s' => if Ascii.eqb a b then startsWith p' s' else false
  | String _ _, EmptyString => false
  end.

(** [s.includes(sub)]. *)
Fixpoint includes (sub s : string) : bool :=
  if startsWith sub s then true
  else match s with
       | EmptyString => false
       | String _ s' => includes sub s'
       end.

(** [s.repeat(n)]. *)
Fixpoint repeat (s : string) (n : nat) : string :=
  match n with
  | O => EmptyString
  | S n' => s +:+ repeat s n'
  end.

(** [parts.join(sep)]. *)
Definition join (sep : string) (parts : list string) : string :=
  String.concat sep parts.

(** One character of [s.toLowerCase()]. *)
Definition lower_char (c : ascii) : ascii :=
  let n := nat_of_ascii c in
  if andb (Nat.leb 65 n) (Nat.leb n 90) then ascii_of_nat (n + 32) else c.

(** [s.toLowerCase()]. *)
Fixpoint toLowerCase (s : string) : string :=
  match s with
  | EmptyString => EmptyString
  | String c s' => String (lower_char c) (toLowerCase s')
  end.

(** Whether the character [c] occurs in [s]. *)
Fixpoint has_char (c : ascii) (s : string) : bool :=
  match s with
  | EmptyString => false
  | String d s' => if Ascii.eqb c d then true else has_char c s'
  end.

(** [arr.find(p)]. *)
Definition find {A} (p : A -> bool) (arr : list A) : option A := List.find p arr.

(** [arr.findIndex(p)], with [None] for the result -1. *)
Fixpoint findIndex {A} (p : A -> bool) (arr : list A) : option nat :=
  match arr with
  | [] => None
  | x :: arr' => if p x then Some O else option_map S (findIndex p arr')
  end.

(** [arr.indexOf(x)] on an array of strings, with [None] for -1. *)
Definition indexOf (x : string) (arr : list string) : option nat :=
  findIndex (String.eqb x) arr.

(** [arr.some(p)]. *)
Definition some {A} (p : A -> bool) (arr : list A) : bool := existsb p arr.

(** [arr.splice(start, deleteCount, ...items)] for [start <= arr.length]:
    the array after the call. *)
Definition splice {A} (start deleteCount : nat) (items arr : list A) : list A :=
  firstn start arr ++ items ++ skipn (start + deleteCount) arr.

(** [arr.unshift(x)]. *)
Definition unshift {A} (x : A) (arr : list A) : list A := x :: arr.

(** [arr.push(x)]. *)
Definition push {A} (x : A) (arr : list A) : list A := arr ++ [x].

(** The text of one double quote. *)
Definition dquote : string := String "034" EmptyString.

(** [String(n)] for a natural number [n]. *)
Definition string_of_nat (n : nat) : string :=
  NilZero.string_of_uint (Nat.to_uint n).

(** Truthiness of an optional string: present and not empty. *)
Definition truthy_str (s : option string) : bool :=
  match s with
  | Some (String _ _) => true
  | _ => false
  end.

End Js.

(** ** JavaScript numbers, as exact decimals *)

Module Num.

Record num : Type := mkNum { mant : Z; dexp : nat }.

Definition pow10 (e : nat) : Z := (10 ^ Z.of_nat e)%Z.

Definition of_Z (z : Z) : num := mkNum z 0.

Definition zero : num := of_Z 0.
Definition one : num := of_Z 1.

(** [a - b]. *)
Definition sub (a b : num) : num :=
  mkNum (mant a * pow10 (dexp b) - mant b * pow10 (dexp a))%Z (dexp a + dexp b).

(** [a + b]. *)
Definition add (a b : num) : num :=
  mkNum (mant a * pow10 (dexp b) + mant b * pow10 (dexp a))%Z (dexp a + dexp b).

(** [a * b]. *)
Definition mul (a b : num) : num :=
  mkNum (mant a * mant b)%Z (dexp a + dexp b).

(** [a / 100]. *)
Definition div100 (a : num) : num := mkNum (mant a) (dexp a + 2).

(** [Math.round(a)]: the nearest integer, ties towards +infinity. *)
Definition round (a : num) : num :=
  of_Z ((2 * mant a + pow10 (dexp a)) / (2 * pow10 (dexp a)))%Z.

(** [Math.round(a * 100) / 100]. *)
Definition round2 (a : num) : num := div100 (round (mul a (of_Z 100))).

(** Numeric comparison of the two values. *)
Definition compare (a b : num) : comparison :=
  (mant a * pow10 (dexp b) ?= mant b * pow10 (dexp a))%Z.

(** [a === b]. *)
Definition eqb (a b : num) : bool :=
  match compare a b with Eq => true | _ => false end.

(** [a < b]. *)
Definition ltb (a b : num) : bool :=
  match compare a b with Lt => true | _ => false end.

(** [a > b]. *)
Definition gtb (a b : num) : bool :=
  match compare a b with Gt => true | _ => false end.

(** Truthiness of a number: it is not zero. *)
Definition truthy (a : num) : bool := negb (mant a =? 0)%Z.

(** Removal of the trailing zeros of the fraction. *)
Fixpoint strip (e : nat) (m : Z) : Z * nat :=
  match e with
  | O => (m, O)
  | S e' => if (m mod 10 =? 0)%Z then strip e' (m / 10)%Z else (m, e)
  end.

(** The decimal numeral of a natural number, without leading zeros. *)
Definition dec (z : Z) : string := NilZero.string_of_uint (N.to_uint (Z.to_N z)).

Definition digit (z : Z) : ascii := ascii_of_nat (48 + Z.to_nat (z mod 10)%Z).

(** The last [k] decimal digits of [z]. *)
Fixpoint digits_fixed (k : nat) (z : Z) : string :=
  match k with
  | O => EmptyString
  | S k' => digits_fixed k' (z / 10)%Z +:+ String (digit z) EmptyString
  end.

(** [String(a)], the text a template literal inserts for a number. *)
Definition toString (a : num) : string :=
  let '(m, e) := strip (dexp a) (Z.abs (mant a)) in
  (if (mant a <? 0)%Z then "-" else "") +:+
  dec (m / pow10 e)%Z +:+
  match e with
  | O => ""
  | S _ => "." +:+ digits_fixed e (m mod pow10 e)%Z
  end.

(** The value of a decimal literal [i.f] with [k] digits of fraction. *)
Definition decimal (m : Z) (k : nat) : num := mkNum m k.

End Num.

Abbreviation num := Num.num.

#[local] Arguments Num.digit : simpl never.
#[local] Arguments Num.dec : simpl never.
#[local] Arguments Num.pow10 : simpl never.
#[local] Arguments Num.toString : simpl never.
#[local] Arguments Num.round : simpl never.
#[local] Arguments Num.round2 : simpl never.

(** ** Regular expressions

    The regular expressions of the converter use anchors, literals, one
    character of a class, greedy repetition of a class, an optional group and
    capture groups. The matcher backtracks in the order of a JavaScript
    engine: a greedy repetition takes as much as it can and gives back one
    character at a time, and the first success is the result. *)

Module Regex.

#[local] Set Warnings "-register-all".

Inductive re : Type :=
| Bol                          (* ^ *)
| Eol                          (* $ *)
| Lit (s : string)
| Cls (p : ascii -> bool)      (* one character of a class *)
| Star (p : ascii -> bool)     (* class* *)
| Plus (p : ascii -> bool)     (* class+ *)
| Opt (rs : list re)           (* (?: ... )? *)
| Grp (rs : list re).          (* ( ... ) *)

(** The continuation of a match: position, rest of the input, captures. *)
Definition cont : Type := nat -> string -> list string -> option (list string).

Fixpoint lit (l s : string) : option string :=
  match l, s with
  | EmptyString, _ => Some s
  | String a l', String b s' => if Ascii.eqb a b then lit l' s' else None
  | String _ _, EmptyString => None
  end.

Fixpoint star (p : ascii -> bool) (pos : nat) (s : string)
    (k : nat -> string -> option (list string)) : option (list string) :=
  match s with
  | String c s' =>
      if p c then
        match star p (S pos) s' k with
        | Some r => Some r
        | None => k pos s
        end
      else k pos s
  | EmptyString => k pos s
  end.

Fixpoint take (n : nat) (s : string) : string :=
  match n, s with
  | S n', String c s' => String c (take n' s')
  | _, _ => EmptyString
  end.

Fixpoint matchOne (r : re) (pos : nat) (s : string) (caps : list string)
    (k : cont) {struct r} : option (list string) :=
  let matchSeq :=
    fix matchSeq (rs : list re) (pos : nat) (s : string) (caps : list string)
        (k : cont) {struct rs} : option (list string) :=
      match rs with
      | [] => k pos s caps
      | r' :: rs' =>
          matchOne r' pos s caps (fun pos' s' caps' => matchSeq rs' pos' s' caps' k)
      end in
  match r with
  | Bol => if Nat.eqb pos 0 then k pos s caps else None
  | Eol => match s with EmptyString => k pos s caps | String _ _ => None end
  | Lit l =>
      match lit l s with
      | Some s' => k (pos + String.length l) s' caps
      | None => None
      end
  | Cls p =>
      match s with
      | String c s' => if p c then k (S pos) s' caps else None
      | EmptyString => None
      end
  | Star p => star p pos s (fun pos' s' => k pos' s' caps)
  | Plus p =>
      match s with
      | String c s' => if p c then star p (S pos) s' (fun pos' s' => k pos' s' caps) else None
      | EmptyString => None
      end
  | Opt rs =>
      match matchSeq rs pos s caps k with
      | Some r => Some r
      | None => k pos s caps
      end
  | Grp rs =>
      matchSeq rs pos s caps
        (fun pos' s' caps' => k pos' s' (caps' ++ [take (pos' - pos) s]))
  end.

Fixpoint matchSeq (rs : list re) (pos : nat) (s : string) (caps : list string)
    (k : cont) : option (list string) :=
  match rs with
  | [] => k pos s caps
  | r :: rs' => matchOne r pos s caps (fun pos' s' caps' => matchSeq rs' pos' s' caps' k)
  end.

(** [s.match(re)] without the g flag: the captures of the leftmost match. *)
Fixpoint search (rs : list re) (pos : nat) (s : string) : option (list string) :=
  match matchSeq rs pos s [] (fun _ _ caps => Some caps) with
  | Some caps => Some caps
  | None =>
      match s with
      | String _ s' => search rs (S pos) s'
      | EmptyString => None
      end
  end.

Definition exec (rs : list re) (s : string) : option (list string) := search rs 0 s.

(** Truthiness of [s.match(re)]. *)
Definition test (rs : list re) (s : string) : bool :=
  match exec rs s with Some _ => true | None => false end.

(** Character classes. *)
Definition is_char (c : ascii) : ascii -> bool := Ascii.eqb c.
Definition digit (c : ascii) : bool :=
  let n := nat_of_ascii c in andb (Nat.leb 48 n) (Nat.leb n 57).
Definition space (c : ascii) : bool :=
  let n := nat_of_ascii c in
  orb (Nat.eqb n 32) (orb (andb (Nat.leb 9 n) (Nat.leb n 13)) (Nat.eqb n 160)).
Definition digit_or_dot (c : ascii) : bool := orb (digit c) (Ascii.eqb c ".").
Definition not_zero (c : ascii) : bool := negb (Ascii.eqb c "0").
Definition not_zero_or_space (c : ascii) : bool := andb (not_zero c) (negb (space c)).
Definition dot (c : ascii) : bool :=
  let n := nat_of_ascii c in negb (orb (Nat.eqb n 10) (Nat.eqb n 13)).

End Regex.

#[local] Arguments Regex.digit !c /.
#[local] Arguments Regex.space !c /.
#[local] Arguments Regex.digit_or_dot !c /.
#[local] Arguments Regex.not_zero !c /.
#[local] Arguments Regex.not_zero_or_space !c /.
#[local] Arguments Regex.dot !c /.

(** ** The node types of types.ts

    Each interface is a record in a module of its name. Of [FigmaNode] the
    fields the converter reads are kept, together with the two it reads
    through [(node as any)]: [rectangleCornerRadii] and [clipsContent]. *)

Module FigmaColor.
Record t : Type := mk { r : num; g : num; b : num; a : num }.
End FigmaColor.

Module BoundingBox.
Record t : Type := mk { x : num; y : num; width : num; height : num }.
End BoundingBox.

Module Vector.
Record t : Type := mk { x : num; y : num }.
End Vector.

Module ColorStop.
Record t : Type := mk { position : num; color : FigmaColor.t }.
End ColorStop.

Module Paint.
Record t : Type := mk {
  type : string;
  color : option FigmaColor.t;
  opacity : option num;
  visible : option bool;
  gradientHandlePositions : option (list Vector.t);
  gradientStops : option (list ColorStop.t)
}.
End Paint.

Module TypeStyle.
Record t : Type := mk {
  fontFamily : string;
  fontWeight : num;
  fontSize : num;
  letterSpacing : option num;
  lineHeightPx : option num;
  lineHeightPercent : option num;
  textAlignHorizontal : option string;
  textAlignVertical : option string
}.
End TypeStyle.

Module Effect.
Record t : Type := mk {
  type : string;
  visible : option bool;
  radius : option num;
  color : option FigmaColor.t;
  offset : option Vector.t
}.
End Effect.

Module FigmaNode.

#[local] Set Warnings "-register-all".

Inductive t : Type := mk {
  id : string;
  name : string;
  type : string;
  children : option (list t);
  absoluteBoundingBox : option BoundingBox.t;
  fills : option (list Paint.t);
  strokes : option (list Paint.t);
  strokeWeight : option num;
  strokeAlign : option string;
  cornerRadius : option num;
  rectangleCornerRadii : option (list num);
  characters : option string;
  style : option TypeStyle.t;
  effects : option (list Effect.t);
  opacity : option num;
  layoutMode : option string;
  itemSpacing : option num;
  paddingLeft : option num;
  paddingRight : option num;
  paddingTop : option num;
  paddingBottom : option num;
  primaryAxisAlignItems : option string;
  counterAxisAlignItems : option string;
  clipsContent : option bool;
  visible : option bool
}.

(** A node with the given id and type and no optional field. *)
Definition bare (i ty : string) : t :=
  mk i "" ty None None None None None None None None None None None None None
     None None None None None None None None None.

(** The height of the tree below a node. *)
Fixpoint depth (n : t) : nat :=
  match children n with
  | Some cs => S (fold_right (fun c acc => Nat.max (depth c) acc) O cs)
  | None => O
  end.

End FigmaNode.

(** ** The converter *)

(** The private fields of a [FigmaToHtmlConverter]. *)
Record Converter : Type := mkConverter {
  cssClasses : gmap string string;
  classCounter : nat
}.

(** [new FigmaToHtmlConverter()]. *)
Definition newConverter : Converter := mkConverter ∅ 0.

(** An element of the [nodeStyles] array. *)
Record StyleEntry : Type := mkEntry {
  className : string;
  node : FigmaNode.t;
  parent : option FigmaNode.t
}.

(** The mutable state of one traversal: the converter and [nodeStyles]. *)
Record Run : Type := mkRun {
  converter : Converter;
  nodeStyles : list StyleEntry
}.

(** The result of [convertWithStyles]. *)
Record Output : Type := mkOutput { html : string; css : string }.

(** [v || 0] for an optional number. *)
Definition or_zero (v : option num) : num :=
  match v with
  | Some n => if Num.truthy n then n else Num.zero
  | None => Num.zero
  end.

(** Truthiness of an optional number. *)
Definition truthy_num (v : option num) : bool :=
  match v with
  | Some n => Num.truthy n
  | None => false
  end.

(** [flag !== false]. *)
Definition not_false (flag : option bool) : bool :=
  match flag with
  | Some false => false
  | _ => true
  end.

(** The text of [Math.round(v * 100) / 100] in a template literal. *)
Definition px2 (v : num) : string := Num.toString (Num.round2 v).

(** [getClassName]: the class of a node id, created on first use. *)
Definition getClassName (n : FigmaNode.t) (c : Converter) : string * Converter :=
  match cssClasses c !! FigmaNode.id n with
  | Some cls => (cls, c)
  | None =>
      let cls := "figma-node-" +:+ Js.string_of_nat (classCounter c) in
      (cls, mkConverter (<[FigmaNode.id n := cls]> (cssClasses c)) (S (classCounter c)))
  end.

(** [escapeHtml]. *)
Fixpoint escapeHtml (text : string) : string :=
  match text with
  | EmptyString => EmptyString
  | String c rest =>
      (if Ascii.eqb c "&" then "&amp;"
       else if Ascii.eqb c "<" then "&lt;"
       else if Ascii.eqb c ">" then "&gt;"
       else if Ascii.eqb c "034" then "&quot;"
       else if Ascii.eqb c "'" then "&#039;"
       else String c EmptyString) +:+ escapeHtml rest
  end.

(** [rgbaToString]. *)
Definition rgbaToString (color : FigmaColor.t) (opacity : option num) : string :=
  let r := Num.round (Num.mul (FigmaColor.r color) (Num.of_Z 255)) in
  let g := Num.round (Num.mul (FigmaColor.g color) (Num.of_Z 255)) in
  let b := Num.round (Num.mul (FigmaColor.b color) (Num.of_Z 255)) in
  let a := match opacity with Some o => o | None => FigmaColor.a color end in
  if Num.eqb a Num.one then
    "rgb(" +:+ Num.toString r +:+ ", " +:+ Num.toString g +:+ ", " +:+ Num.toString b +:+ ")"
  else
    "rgba(" +:+ Num.toString r +:+ ", " +:+ Num.toString g +:+ ", " +:+ Num.toString b
      +:+ ", " +:+ Num.toString a +:+ ")".

(** The regular expressions of [generateNodeStyles]. *)
Module Patterns.
Import Regex.

(** [/^[^0][0-9.]*px [^0][0-9.]*px 0px 0px$/] *)
Definition topOnly : list re :=
  [Bol; Cls not_zero; Star digit_or_dot; Lit "px "; Cls not_zero; Star digit_or_dot;
   Lit "px 0px 0px"; Eol].

(** [/^0px 0px [^0][0-9.]*px [^0][0-9.]*px$/] *)
Definition bottomOnly : list re :=
  [Bol; Lit "0px 0px "; Cls not_zero; Star digit_or_dot; Lit "px "; Cls not_zero;
   Star digit_or_dot; Lit "px"; Eol].

(** [/^\s*border:\s*\d/] *)
Definition borderLine : list re :=
  [Bol; Star space; Lit "border:"; Star space; Cls digit].

(** [/border-radius:\s*[^0\s][0-9.]*px\s+[^0\s][0-9.]*px\s+0px\s+0px/] *)
Definition radiusTopOnly : list re :=
  [Lit "border-radius:"; Star space; Cls not_zero_or_space; Star digit_or_dot; Lit "px";
   Plus space; Cls not_zero_or_space; Star digit_or_dot; Lit "px"; Plus space; Lit "0px";
   Plus space; Lit "0px"].

(** [/border:\s*(\d+(?:\.\d+)?px)\s+solid\s+(.+);/] *)
Definition borderParts : list re :=
  [Lit "border:"; Star space; Grp [Plus digit; Opt [Lit "."; Plus digit]; Lit "px"];
   Plus space; Lit "solid"; Plus space; Grp [Plus dot]; Lit ";"].

End Patterns.

(** [borderRadiusInfo] of [generateNodeStyles]. *)
Record RadiusInfo : Type := mkRadiusInfo {
  hasTopRadius : bool;
  hasBottomRadius : bool;
  radiiString : string
}.

Section Converter.

(** [atan2_degrees dy dx] is [Math.atan2(dy, dx) * (180 / Math.PI)]. *)
Variable atan2_degrees : num -> num -> num.

(** [generateLinearGradient]. *)
Definition generateLinearGradient (fill : Paint.t) : string :=
  match Paint.gradientStops fill, Paint.gradientHandlePositions fill with
  | Some gradientStops, Some handles =>
      let angle :=
        match handles with
        | h0 :: h1 :: _ =>
            let dx := Num.sub (Vector.x h1) (Vector.x h0) in
            let dy := Num.sub (Vector.y h1) (Vector.y h0) in
            Num.add (atan2_degrees dy dx) (Num.of_Z 90)
        | _ => Num.of_Z 90
        end in
      let stops :=
        Js.join ", "
          (map (fun stop =>
                  let color := rgbaToString (ColorStop.color stop) None in
                  let position :=
                    Num.round (Num.mul (ColorStop.position stop) (Num.of_Z 100)) in
                  color +:+ " " +:+ Num.toString position +:+ "%")
               gradientStops) in
      "linear-gradient(" +:+ Num.toString angle +:+ "deg, " +:+ stops +:+ ")"
  | _, _ => "transparent"
  end.

(** *** [generateNodeStyles], block by block

    Each block of the function body is a function from the [styles] array
    before the block to the array after it. *)

(** "Position and size". *)
Definition positionAndSize (n : FigmaNode.t) (parent : option FigmaNode.t)
    (styles : list string) : list string :=
  match FigmaNode.absoluteBoundingBox n with
  | Some box =>
      (* the locals [left] and [top] *)
      let offset :=
        match parent with
        | Some p =>
            match FigmaNode.absoluteBoundingBox p with
            | Some parentBox =>
                let x := Num.sub (BoundingBox.x box) (BoundingBox.x parentBox) in
                let y := Num.sub (BoundingBox.y box) (BoundingBox.y parentBox) in
                let x :=
                  match FigmaNode.paddingLeft p with
                  | Some pl => if Num.truthy pl then Num.sub x pl else x
                  | None => x
                  end in
                let y :=
                  match FigmaNode.paddingTop p with
                  | Some pt => if Num.truthy pt then Num.sub y pt else y
                  | None => y
                  end in
                (x, y)
            | None => (BoundingBox.x box, BoundingBox.y box)
            end
        | None => (BoundingBox.x box, BoundingBox.y box)
        end in
      let styles :=
        match parent with
        | None => Js.push "  position: relative;" styles
        | Some p =>
            if Js.truthy_str (FigmaNode.layoutMode p) then
              Js.push "  position: relative;" styles
            else
              let styles := Js.push "  position: absolute;" styles in
              let styles := Js.push ("  left: " +:+ px2 (fst offset) +:+ "px;") styles in
              Js.push ("  top: " +:+ px2 (snd offset) +:+ "px;") styles
        end in
      let styles :=
        Js.push ("  width: " +:+ px2 (BoundingBox.width box) +:+ "px;") styles in
      if negb (String.eqb (FigmaNode.type n) "TEXT") then
        Js.push ("  height: " +:+ px2 (BoundingBox.height box) +:+ "px;") styles
      else
        Js.push ("  min-height: " +:+ px2 (BoundingBox.height box) +:+ "px;") styles
  | None => styles
  end.

(** "Background color and fills". *)
Definition backgroundFill (n : FigmaNode.t) (styles : list string) : list string :=
  match FigmaNode.fills n with
  | Some (fill :: _) =>
      if not_false (Paint.visible fill) then
        match String.eqb (Paint.type fill) "SOLID", Paint.color fill with
        | true, Some color =>
            Js.push ("  background-color: " +:+ rgbaToString color (Paint.opacity fill) +:+ ";")
                    styles
        | _, _ =>
            match String.eqb (Paint.type fill) "GRADIENT_LINEAR", Paint.gradientStops fill with
            | true, Some _ =>
                Js.push ("  background: " +:+ generateLinearGradient fill +:+ ";") styles
            | _, _ => styles
            end
        end
      else styles
  | _ => styles
  end.

(** "Border radius - check FIRST to determine border strategy", with the
    "force-check" of the pattern that follows it. *)
Definition borderRadius (n : FigmaNode.t) : RadiusInfo :=
  let info :=
    match FigmaNode.rectangleCornerRadii n with
    | Some radii =>
        match map Num.round2 radii with
        | [tl; tr; br; bl] =>
            mkRadiusInfo
              (Num.gtb tl Num.zero || Num.gtb tr Num.zero)
              (Num.gtb br Num.zero || Num.gtb bl Num.zero)
              (if negb (Num.eqb tl tr) || negb (Num.eqb tr br) || negb (Num.eqb br bl)
                  || negb (Num.eqb tl Num.zero)
               then Num.toString tl +:+ "px " +:+ Num.toString tr +:+ "px "
                      +:+ Num.toString br +:+ "px " +:+ Num.toString bl +:+ "px"
               else "")
        | _ => mkRadiusInfo false false ""
        end
    | None =>
        match FigmaNode.cornerRadius n with
        | Some cornerRadius =>
            if Num.gtb cornerRadius Num.zero then
              mkRadiusInfo true true (Num.toString (Num.round2 cornerRadius) +:+ "px")
            else mkRadiusInfo false false ""
        | None => mkRadiusInfo false false ""
        end
    end in
  match radiiString info with
  | EmptyString => info
  | String _ _ =>
      if Regex.test Patterns.topOnly (radiiString info) then
        mkRadiusInfo true false (radiiString info)
      else if Regex.test Patterns.bottomOnly (radiiString info) then
        mkRadiusInfo false true (radiiString info)
      else info
  end.

(** [node.strokeAlign || 'INSIDE'] *)
Definition strokeAlignOrInside (n : FigmaNode.t) : string :=
  if Js.truthy_str (FigmaNode.strokeAlign n)
  then default "" (FigmaNode.strokeAlign n) else "INSIDE".

(** "Strokes (borders)". *)
Definition strokeBorders (n : FigmaNode.t) (info : RadiusInfo)
    (styles : list string) : list string :=
  match FigmaNode.strokes n with
  | Some (stroke :: _) =>
      if truthy_num (FigmaNode.strokeWeight n) then
        match not_false (Paint.visible stroke), Paint.color stroke with
        | true, Some strokeColor =>
            let color := rgbaToString strokeColor (Paint.opacity stroke) in
            let weight := px2 (or_zero (FigmaNode.strokeWeight n)) in
            let align := strokeAlignOrInside n in
            if String.eqb align "INSIDE" then
              let styles := Js.push "  box-sizing: border-box;" styles in
              if hasTopRadius info && negb (hasBottomRadius info) then
                let styles :=
                  Js.push ("  border-left: " +:+ weight +:+ "px solid " +:+ color +:+ ";") styles in
                let styles :=
                  Js.push ("  border-right: " +:+ weight +:+ "px solid " +:+ color +:+ ";") styles in
                Js.push ("  border-top: " +:+ weight +:+ "px solid " +:+ color +:+ ";") styles
              else if negb (hasTopRadius info) && hasBottomRadius info then
                let styles :=
                  Js.push ("  border-left: " +:+ weight +:+ "px solid " +:+ color +:+ ";") styles in
                let styles :=
                  Js.push ("  border-right: " +:+ weight +:+ "px solid " +:+ color +:+ ";") styles in
                Js.push ("  border-bottom: " +:+ weight +:+ "px solid " +:+ color +:+ ";") styles
              else
                Js.push ("  border: " +:+ weight +:+ "px solid " +:+ color +:+ ";") styles
            else if String.eqb align "CENTER" then
              Js.push ("  border: " +:+ weight +:+ "px solid " +:+ color +:+ ";") styles
            else
              Js.push ("  box-shadow: 0 0 0 " +:+ weight +:+ "px " +:+ color +:+ ";") styles
        | _, _ => styles
        end
      else styles
  | _ => styles
  end.

(** "Apply border radius". *)
Definition applyBorderRadius (info : RadiusInfo) (styles : list string) : list string :=
  match radiiString info with
  | EmptyString => styles
  | String _ _ => Js.push ("  border-radius: " +:+ radiiString info +:+ ";") styles
  end.

(** "Opacity". *)
Definition nodeOpacity (n : FigmaNode.t) (styles : list string) : list string :=
  match FigmaNode.opacity n with
  | Some opacity =>
      if Num.ltb opacity Num.one
      then Js.push ("  opacity: " +:+ Num.toString opacity +:+ ";") styles
      else styles
  | None => styles
  end.

(** [styles.some(s => s.includes('display: flex'))] *)
Definition hasDisplayFlex (styles : list string) : bool :=
  Js.some (Js.includes "display: flex") styles.

(** "Text styles", statement by statement: the font. *)
Definition textFont (textStyle : TypeStyle.t) (styles : list string) : list string :=
  let styles :=
    Js.push ("  font-family: " +:+ Js.dquote +:+ TypeStyle.fontFamily textStyle +:+ Js.dquote +:+ ", sans-serif;")
            styles in
  let styles :=
    Js.push ("  font-size: " +:+ px2 (TypeStyle.fontSize textStyle) +:+ "px;") styles in
  Js.push ("  font-weight: " +:+ Num.toString (TypeStyle.fontWeight textStyle) +:+ ";") styles.

(** [if (textStyle.letterSpacing) ...] *)
Definition textLetterSpacing (textStyle : TypeStyle.t) (styles : list string) : list string :=
  if truthy_num (TypeStyle.letterSpacing textStyle) then
    Js.push ("  letter-spacing: " +:+ px2 (or_zero (TypeStyle.letterSpacing textStyle)) +:+ "px;")
            styles
  else styles.

(** [if (textStyle.lineHeightPx) ... else if (textStyle.lineHeightPercent) ...] *)
Definition textLineHeight (textStyle : TypeStyle.t) (styles : list string) : list string :=
  if truthy_num (TypeStyle.lineHeightPx textStyle) then
    Js.push ("  line-height: " +:+ px2 (or_zero (TypeStyle.lineHeightPx textStyle)) +:+ "px;")
            styles
  else if truthy_num (TypeStyle.lineHeightPercent textStyle) then
    Js.push ("  line-height: "
               +:+ Num.toString
                     (Num.div100 (Num.round (or_zero (TypeStyle.lineHeightPercent textStyle))))
               +:+ ";") styles
  else styles.

(** [if (textStyle.textAlignHorizontal) ...] *)
Definition textAlignHorizontal (textStyle : TypeStyle.t) (styles : list string)
    : list string :=
  if Js.truthy_str (TypeStyle.textAlignHorizontal textStyle) then
    let align := Js.toLowerCase (default "" (TypeStyle.textAlignHorizontal textStyle)) in
    let styles := Js.push ("  text-align: " +:+ align +:+ ";") styles in
    if String.eqb align "center" then
      let styles :=
        if negb (hasDisplayFlex styles) then Js.push "  display: flex;" styles
        else styles in
      Js.push "  justify-content: center;" styles
    else styles
  else styles.

(** [if (textStyle.textAlignVertical) ...] *)
Definition textAlignVertical (textStyle : TypeStyle.t) (styles : list string)
    : list string :=
  if Js.truthy_str (TypeStyle.textAlignVertical textStyle) then
    let vAlign := default "" (TypeStyle.textAlignVertical textStyle) in
    let styles :=
      if negb (hasDisplayFlex styles) then Js.push "  display: flex;" styles
      else styles in
    if String.eqb vAlign "TOP" then Js.push "  align-items: flex-start;" styles
    else if String.eqb vAlign "CENTER" then Js.push "  align-items: center;" styles
    else if String.eqb vAlign "BOTTOM" then Js.push "  align-items: flex-end;" styles
    else styles
  else styles.

(** "Text color from fills". *)
Definition textColor (n : FigmaNode.t) (styles : list string) : list string :=
  match FigmaNode.fills n with
  | Some (fill :: _) =>
      match String.eqb (Paint.type fill) "SOLID", Paint.color fill with
      | true, Some fillColor =>
          let color := rgbaToString fillColor (Paint.opacity fill) in
          let styles := Js.push ("  color: " +:+ color +:+ ";") styles in
          match Js.findIndex (Js.includes "background-color") styles with
          | Some bgIndex => Js.splice bgIndex 1 [] styles
          | None => styles
          end
      | _, _ => styles
      end
  | _ => styles
  end.

(** "Prevent text from wrapping if it doesn't in Figma". *)
Definition textWrapping (styles : list string) : list string :=
  let styles := Js.push "  white-space: pre-wrap;" styles in
  Js.push "  word-wrap: break-word;" styles.

(** "Text styles". *)
Definition textStyles (n : FigmaNode.t) (styles : list string) : list string :=
  match String.eqb (FigmaNode.type n) "TEXT", FigmaNode.style n with
  | true, Some textStyle =>
      let styles := textFont textStyle styles in
      let styles := textLetterSpacing textStyle styles in
      let styles := textLineHeight textStyle styles in
      let styles := textAlignHorizontal textStyle styles in
      let styles := textAlignVertical textStyle styles in
      let styles := textColor n styles in
      textWrapping styles
  | _, _ => styles
  end.

(** [alignMap[key] || 'flex-start'] for the map of [primaryAxisAlignItems].
    The keys are the values of Figma's enumeration; the properties every
    JavaScript object inherits are not keys of this model. *)
Definition primaryAlign (key : string) : string :=
  if String.eqb key "MIN" then "flex-start"
  else if String.eqb key "CENTER" then "center"
  else if String.eqb key "MAX" then "flex-end"
  else if String.eqb key "SPACE_BETWEEN" then "space-between"
  else "flex-start".

(** [alignMap[key] || 'flex-start'] for the map of [counterAxisAlignItems]. *)
Definition counterAlign (key : string) : string :=
  if String.eqb key "MIN" then "flex-start"
  else if String.eqb key "CENTER" then "center"
  else if String.eqb key "MAX" then "flex-end"
  else "flex-start".

(** "Layout (Flexbox for auto-layout frames)", statement by statement: the
    display and the direction. *)
Definition flexDirection (layoutMode : string) (styles : list string) : list string :=
  let styles := Js.push "  display: flex;" styles in
  if String.eqb layoutMode "HORIZONTAL" then Js.push "  flex-direction: row;" styles
  else if String.eqb layoutMode "VERTICAL" then Js.push "  flex-direction: column;" styles
  else styles.

(** [if (node.itemSpacing) ...] *)
Definition flexGap (n : FigmaNode.t) (styles : list string) : list string :=
  if truthy_num (FigmaNode.itemSpacing n) then
    Js.push ("  gap: " +:+ px2 (or_zero (FigmaNode.itemSpacing n)) +:+ "px;") styles
  else styles.

(** [if (node.paddingLeft || node.paddingRight || node.paddingTop ||
    node.paddingBottom) ...] *)
Definition flexPadding (n : FigmaNode.t) (styles : list string) : list string :=
  if truthy_num (FigmaNode.paddingLeft n) || truthy_num (FigmaNode.paddingRight n)
     || truthy_num (FigmaNode.paddingTop n) || truthy_num (FigmaNode.paddingBottom n)
  then
    let pl := px2 (or_zero (FigmaNode.paddingLeft n)) in
    let pr := px2 (or_zero (FigmaNode.paddingRight n)) in
    let pt := px2 (or_zero (FigmaNode.paddingTop n)) in
    let pb := px2 (or_zero (FigmaNode.paddingBottom n)) in
    Js.push ("  padding: " +:+ pt +:+ "px " +:+ pr +:+ "px " +:+ pb +:+ "px " +:+ pl +:+ "px;")
            styles
  else styles.

(** [if (node.primaryAxisAlignItems) ...] and [if (node.counterAxisAlignItems) ...] *)
Definition flexAlignment (n : FigmaNode.t) (styles : list string) : list string :=
  let styles :=
    if Js.truthy_str (FigmaNode.primaryAxisAlignItems n) then
      Js.push ("  justify-content: "
                 +:+ primaryAlign (default "" (FigmaNode.primaryAxisAlignItems n)) +:+ ";")
              styles
    else styles in
  if Js.truthy_str (FigmaNode.counterAxisAlignItems n) then
    Js.push ("  align-items: "
               +:+ counterAlign (default "" (FigmaNode.counterAxisAlignItems n)) +:+ ";")
            styles
  else styles.

(** "Make this container a positioning context for any absolutely-positioned
    children". *)
Definition positioningContext (n : FigmaNode.t) (parent : option FigmaNode.t)
    (styles : list string) : list string :=
  match parent with
  | None => styles
  | Some p =>
      match Js.findIndex (Js.includes "position:") styles with
      | Some _ => styles
      | None =>
          let styles := Js.unshift "  position: absolute;" styles in
          match FigmaNode.absoluteBoundingBox n, FigmaNode.absoluteBoundingBox p with
          | Some box, Some parentBox =>
              let x := Num.round2 (Num.sub (BoundingBox.x box) (BoundingBox.x parentBox)) in
              let y := Num.round2 (Num.sub (BoundingBox.y box) (BoundingBox.y parentBox)) in
              let styles :=
                if negb (Num.eqb x Num.zero)
                then Js.splice 1 0 ["  left: " +:+ Num.toString x +:+ "px;"] styles
                else styles in
              if negb (Num.eqb y Num.zero)
              then Js.splice (if negb (Num.eqb x Num.zero) then 2 else 1) 0
                             ["  top: " +:+ Num.toString y +:+ "px;"] styles
              else styles
          | _, _ => styles
          end
      end
  end.

(** "Layout (Flexbox for auto-layout frames)". *)
Definition autoLayout (n : FigmaNode.t) (parent : option FigmaNode.t)
    (styles : list string) : list string :=
  if Js.truthy_str (FigmaNode.layoutMode n) then
    let styles := flexDirection (default "" (FigmaNode.layoutMode n)) styles in
    let styles := flexGap n styles in
    let styles := flexPadding n styles in
    let styles := flexAlignment n styles in
    positioningContext n parent styles
  else styles.

(** One turn of the loop over [node.effects]. *)
Definition shadowOf (effect : Effect.t) (shadows : list string) : list string :=
  if not_false (Effect.visible effect) then
    match Effect.offset effect, Effect.color effect with
    | Some offset, Some effectColor =>
        let offsetX := px2 (or_zero (Some (Vector.x offset))) in
        let offsetY := px2 (or_zero (Some (Vector.y offset))) in
        let radius := px2 (or_zero (Effect.radius effect)) in
        let color := rgbaToString effectColor None in
        if String.eqb (Effect.type effect) "DROP_SHADOW" then
          Js.push (offsetX +:+ "px " +:+ offsetY +:+ "px " +:+ radius +:+ "px " +:+ color) shadows
        else if String.eqb (Effect.type effect) "INNER_SHADOW" then
          Js.push ("inset " +:+ offsetX +:+ "px " +:+ offsetY +:+ "px " +:+ radius +:+ "px "
                     +:+ color) shadows
        else shadows
    | _, _ => shadows
    end
  else shadows.

(** "Effects (shadows, blurs)". *)
Definition effectShadows (n : FigmaNode.t) (styles : list string) : list string :=
  match FigmaNode.effects n with
  | Some ((_ :: _) as effects) =>
      let shadows := fold_left (fun shadows effect => shadowOf effect shadows) effects [] in
      match shadows with
      | [] => styles
      | _ :: _ => Js.push ("  box-shadow: " +:+ Js.join ", " shadows +:+ ";") styles
      end
  | _ => styles
  end.

(** "Clipping and overflow". *)
Definition clipping (n : FigmaNode.t) (styles : list string) : list string :=
  match FigmaNode.clipsContent n with
  | Some true => Js.push "  overflow: hidden;" styles
  | _ => styles
  end.

(** "Post-process: Fix double borders in stacked elements". The branch for
    the bottom-only pattern has an empty body and is left out. *)
Definition fixDoubleBorders (styles : list string) : list string :=
  let borderRadiusLine := Js.find (Js.includes "border-radius:") styles in
  let borderLine := Js.find (Regex.test Patterns.borderLine) styles in
  match borderRadiusLine, borderLine with
  | Some borderRadiusLine, Some borderLine =>
      if Regex.test Patterns.radiusTopOnly borderRadiusLine then
        match Regex.exec Patterns.borderParts borderLine with
        | Some [weight; color] =>
            match Js.indexOf borderLine styles with
            | Some borderIndex =>
                Js.splice borderIndex 1
                  ["  border-left: " +:+ weight +:+ " solid " +:+ color +:+ ";";
                   "  border-right: " +:+ weight +:+ " solid " +:+ color +:+ ";";
                   "  border-top: " +:+ weight +:+ " solid " +:+ color +:+ ";"]
                  styles
            | None => styles
            end
        | _ => styles
        end
      else styles
  | _, _ => styles
  end.

(** The [styles] array of [generateNodeStyles] when the post-processing step
    starts. *)
Definition stylesBeforeFix (n : FigmaNode.t) (parent : option FigmaNode.t) : list string :=
  let styles := [] in
  let styles := positionAndSize n parent styles in
  let styles := backgroundFill n styles in
  let borderRadiusInfo := borderRadius n in
  let styles := strokeBorders n borderRadiusInfo styles in
  let styles := applyBorderRadius borderRadiusInfo styles in
  let styles := nodeOpacity n styles in
  let styles := textStyles n styles in
  let styles := autoLayout n parent styles in
  let styles := effectShadows n styles in
  clipping n styles.

(** The [styles] array of [generateNodeStyles] just before it is joined. *)
Definition nodeStyleLines (n : FigmaNode.t) (parent : option FigmaNode.t) : list string :=
  fixDoubleBorders (stylesBeforeFix n parent).

(** [generateNodeStyles]. *)
Definition generateNodeStyles (n : FigmaNode.t) (parent : option FigmaNode.t) : string :=
  Js.join (String "010" EmptyString) (nodeStyleLines n parent).

(** *** The traversal *)

(** The kinds that [generateHtmlWithStyles] emits as a container. *)
Definition isContainerType (ty : string) : bool :=
  existsb (String.eqb ty)
    ["RECTANGLE"; "ELLIPSE"; "VECTOR"; "FRAME"; "GROUP"; "INSTANCE"; "COMPONENT"].

(** [getClassName(node)] followed by [nodeStyles.push({className, node, parent})]. *)
Definition pushStyle (n : FigmaNode.t) (parent : option FigmaNode.t) (st : Run)
    : string * Run :=
  let '(cls, c) := getClassName n (converter st) in
  (cls, mkRun c (Js.push (mkEntry cls n parent) (nodeStyles st))).

(** [generateHtmlWithStyles]. The array [nodeStyles] and the converter are
    the state [st]; [children.map(...)] runs the calls from left to right. *)
Fixpoint generateHtmlWithStyles (n : FigmaNode.t) (depth : nat)
    (parent : option FigmaNode.t) (st : Run) {struct n} : string * Run :=
  let mapChildren :=
    fix mapChildren (cs : list FigmaNode.t) (depth : nat) (parent : option FigmaNode.t)
        (st : Run) {struct cs} : list string * Run :=
      match cs with
      | [] => ([], st)
      | child :: cs' =>
          let '(h, st) := generateHtmlWithStyles child depth parent st in
          let '(hs, st) := mapChildren cs' depth parent st in
          (h :: hs, st)
      end in
  if negb (not_false (FigmaNode.visible n)) then ("", st)
  else
    let indent := Js.repeat "  " depth in
    let ty := FigmaNode.type n in
    if String.eqb ty "DOCUMENT" || String.eqb ty "CANVAS" then
      match FigmaNode.children n with
      | Some ((_ :: _) as children) =>
          let '(hs, st) := mapChildren children depth None st in
          (Js.join (String "010" EmptyString) hs, st)
      | _ => ("", st)
      end
    else if String.eqb ty "TEXT" then
      let '(className, st) := pushStyle n parent st in
      let text := default "" (FigmaNode.characters n) in
      (indent +:+ "<div class=" +:+ Js.dquote +:+ className +:+ Js.dquote +:+ ">" +:+ escapeHtml text +:+ "</div>", st)
    else if isContainerType ty then
      let '(divClass, st) := pushStyle n parent st in
      let html := indent +:+ "<div class=" +:+ Js.dquote +:+ divClass +:+ Js.dquote +:+ ">" in
      match FigmaNode.children n with
      | Some ((_ :: _) as children) =>
          let '(hs, st) := mapChildren children (S depth) (Some n) st in
          (html +:+ String "010" EmptyString
             +:+ Js.join (String "010" EmptyString) hs
             +:+ (String "010" EmptyString +:+ indent) +:+ "</div>", st)
      | _ => (html +:+ "</div>", st)
      end
    else
      match FigmaNode.children n with
      | Some ((_ :: _) as children) =>
          let '(hs, st) := mapChildren children depth parent st in
          (Js.join (String "010" EmptyString) hs, st)
      | _ => ("", st)
      end.

(** [node.children.map(child => this.generateHtmlWithStyles(child, depth,
    nodeStyles, parent))]. *)
Fixpoint mapChildren (cs : list FigmaNode.t) (depth : nat) (parent : option FigmaNode.t)
    (st : Run) : list string * Run :=
  match cs with
  | [] => ([], st)
  | child :: cs' =>
      let '(h, st) := generateHtmlWithStyles child depth parent st in
      let '(hs, st) := mapChildren cs' depth parent st in
      (h :: hs, st)
  end.

(** The two fixed rules that open the stylesheet. *)
Definition cssPreamble : string :=
  "/* Generated CSS from Figma */" +:+ String "010" (String "010" EmptyString)
  +:+ "* {" +:+ String "010" "  box-sizing: border-box;" +:+ String "010" "}"
  +:+ String "010" (String "010" EmptyString)
  +:+ "body {" +:+ String "010" "  margin: 0;" +:+ String "010" "  padding: 0;"
  +:+ String "010" ("  font-family: -apple-system, BlinkMacSystemFont, " +:+ Js.dquote +:+ "Segoe UI"
                      +:+ Js.dquote +:+ ", Roboto, sans-serif;")
  +:+ String "010" "  display: flex;" +:+ String "010" "  justify-content: center;"
  +:+ String "010" "  align-items: center;" +:+ String "010" "  min-height: 100vh;"
  +:+ String "010" "  background-color: #f5f5f5;" +:+ String "010" "}"
  +:+ String "010" (String "010" EmptyString).

(** One turn of the loop of [generateCssFromNodes]. *)
Definition appendRule (css : string) (e : StyleEntry) : string :=
  let styles := generateNodeStyles (node e) (parent e) in
  match styles with
  | EmptyString => css
  | String _ _ =>
      css +:+ "." +:+ className e +:+ " {" +:+ String "010" styles +:+ "}"
      +:+ String "010" (String "010" EmptyString)
  end.

(** [generateCssFromNodes]. *)
Definition generateCssFromNodes (entries : list StyleEntry) : string :=
  fold_left appendRule entries cssPreamble.

(** [convertWithStyles]: the result and the converter after the call. The
    fields of the converter are reset before the traversal. *)
Definition convertWithStyles (c : Converter) (n : FigmaNode.t) : Output * Converter :=
  let c := mkConverter ∅ 0 in
  let '(html, st) := generateHtmlWithStyles n 0 None (mkRun c []) in
  let css := generateCssFromNodes (nodeStyles st) in
  (mkOutput html css, converter st).

End Converter.

(** * Vocabulary of the properties *)

Module NumText.
Import Num.

(** Every character of [s] is in the class [p]. *)
Fixpoint all_chars (p : ascii -> bool) (s : string) : bool :=
  match s with
  | EmptyString => true
  | String c s' => p c && all_chars p s'
  end.

(** The characters of the text of a number. *)
Definition numChar (c : ascii) : bool := Regex.digit_or_dot c || Ascii.eqb c "-".

(** The text of the absolute value. *)
Definition absString (x : num) : string :=
  let '(m, e) := strip (dexp x) (Z.abs (mant x)) in
  dec (m / pow10 e)%Z +:+
  match e with
  | O => ""
  | S _ => "." +:+ digits_fixed e (m mod pow10 e)%Z
  end.

End NumText.

(** The declarations the "Text styles" block can add. *)
Inductive TextLine : string -> Prop :=
| TL_family f : TextLine ("  font-family: " +:+ Js.dquote +:+ f +:+ Js.dquote +:+ ", sans-serif;")
| TL_size v : TextLine ("  font-size: " +:+ v +:+ "px;")
| TL_weight v : TextLine ("  font-weight: " +:+ v +:+ ";")
| TL_spacing v : TextLine ("  letter-spacing: " +:+ v +:+ "px;")
| TL_height_px v : TextLine ("  line-height: " +:+ v +:+ "px;")
| TL_height v : TextLine ("  line-height: " +:+ v +:+ ";")
| TL_align v : TextLine ("  text-align: " +:+ v +:+ ";")
| TL_flex : TextLine "  display: flex;"
| TL_justify : TextLine "  justify-content: center;"
| TL_items_top : TextLine "  align-items: flex-start;"
| TL_items_center : TextLine "  align-items: center;"
| TL_items_bottom : TextLine "  align-items: flex-end;"
| TL_color v : TextLine ("  color: " +:+ v +:+ ";")
| TL_space : TextLine "  white-space: pre-wrap;"
| TL_wrap : TextLine "  word-wrap: break-word;".

(** The declarations the "Layout" block can push. *)
Inductive LayoutLine : string -> Prop :=
| LL_flex : LayoutLine "  display: flex;"
| LL_row : LayoutLine "  flex-direction: row;"
| LL_column : LayoutLine "  flex-direction: column;"
| LL_gap v : LayoutLine ("  gap: " +:+ v +:+ "px;")
| LL_padding pt pr pb pl :
    LayoutLine ("  padding: " +:+ pt +:+ "px " +:+ pr +:+ "px " +:+ pb +:+ "px " +:+ pl +:+ "px;")
| LL_justify v : LayoutLine ("  justify-content: " +:+ v +:+ ";")
| LL_items v : LayoutLine ("  align-items: " +:+ v +:+ ";").

(** The declarations the post-processing step can put in place of a border. *)
Inductive FixLine : string -> Prop :=
| FL_left w c : FixLine ("  border-left: " +:+ w +:+ " solid " +:+ c +:+ ";")
| FL_right w c : FixLine ("  border-right: " +:+ w +:+ " solid " +:+ c +:+ ";")
| FL_top w c : FixLine ("  border-top: " +:+ w +:+ " solid " +:+ c +:+ ";").

(** A step of [generateNodeStyles] that only pushes declarations of [C]. *)
Definition appends (C : string -> Prop) (f : list string -> list string) : Prop :=
  forall styles, exists extra, f styles = styles ++ extra /\ Forall C extra.

Section Vocabulary.

Variable atan2_degrees : num -> num -> num.

(** The declarations of the blocks before "Text styles", in order. *)
Definition linesBeforeText (n : FigmaNode.t) (parent : option FigmaNode.t) : list string :=
  positionAndSize n parent [] ++ backgroundFill atan2_degrees n []
  ++ strokeBorders n (borderRadius n) [] ++ applyBorderRadius (borderRadius n) []
  ++ nodeOpacity n [].

(** The array [nodeStyles] after the traversal of [convertWithStyles]. *)
Definition collect (n : FigmaNode.t) : list StyleEntry :=
  nodeStyles (snd (generateHtmlWithStyles n 0 None (mkRun (mkConverter ∅ 0) []))).

(** The rule of an element of [nodeStyles] in the stylesheet. *)
Definition ruleText (e : StyleEntry) : string :=
  "." +:+ className e +:+ " {" +:+ String "010" (generateNodeStyles atan2_degrees (node e) (parent e))
  +:+ "}" +:+ String "010" (String "010" EmptyString).

(** Whether the style of an element of [nodeStyles] is not empty. *)
Definition hasStyle (e : StyleEntry) : bool :=
  match generateNodeStyles atan2_degrees (node e) (parent e) with
  | EmptyString => false
  | String _ _ => true
  end.

(** [generateHtmlWithStyles] run as the recursive method it is, with a bound
    [fuel] on the depth of the nested calls; [None] when the bound is hit. *)
Fixpoint generateHtmlFuel (fuel : nat) (n : FigmaNode.t) (depth : nat)
    (parent : option FigmaNode.t) (st : Run) {struct fuel} : option (string * Run) :=
  match fuel with
  | O => None
  | S fuel' =>
      let mapChildrenFuel :=
        fix mapChildrenFuel (cs : list FigmaNode.t) (depth : nat)
            (parent : option FigmaNode.t) (st : Run) {struct cs}
            : option (list string * Run) :=
          match cs with
          | [] => Some ([], st)
          | child :: cs' =>
              match generateHtmlFuel fuel' child depth parent st with
              | Some (h, st) =>
                  match mapChildrenFuel cs' depth parent st with
                  | Some (hs, st) => Some (h :: hs, st)
                  | None => None
                  end
              | None => None
              end
          end in
      if negb (not_false (FigmaNode.visible n)) then Some ("", st)
      else
        let indent := Js.repeat "  " depth in
        let ty := FigmaNode.type n in
        if String.eqb ty "DOCUMENT" || String.eqb ty "CANVAS" then
          match FigmaNode.children n with
          | Some ((_ :: _) as children) =>
              match mapChildrenFuel children depth None st with
              | Some (hs, st) => Some (Js.join (String "010" EmptyString) hs, st)
              | None => None
              end
          | _ => Some ("", st)
          end
        else if String.eqb ty "TEXT" then
          let '(className, st) := pushStyle n parent st in
          let text := default "" (FigmaNode.characters n) in
          Some (indent +:+ "<div class=" +:+ Js.dquote +:+ className +:+ Js.dquote +:+ ">" +:+ escapeHtml text
                  +:+ "</div>", st)
        else if isContainerType ty then
          let '(divClass, st) := pushStyle n parent st in
          let html := indent +:+ "<div class=" +:+ Js.dquote +:+ divClass +:+ Js.dquote +:+ ">" in
          match FigmaNode.children n with
          | Some ((_ :: _) as children) =>
              match mapChildrenFuel children (S depth) (Some n) st with
              | Some (hs, st) =>
                  Some (html +:+ String "010" EmptyString
                          +:+ Js.join (String "010" EmptyString) hs
                          +:+ (String "010" EmptyString +:+ indent) +:+ "</div>", st)
              | None => None
              end
          | _ => Some (html +:+ "</div>", st)
          end
        else
          match FigmaNode.children n with
          | Some ((_ :: _) as children) =>
              match mapChildrenFuel children depth parent st with
              | Some (hs, st) => Some (Js.join (String "010" EmptyString) hs, st)
              | None => None
              end
          | _ => Some ("", st)
          end
  end.

(** The calls of [children.map] under the bound [fuel]. *)
Definition mapChildrenFuel (fuel : nat)
    : list FigmaNode.t -> nat -> option FigmaNode.t -> Run -> option (list string * Run) :=
  fix mapChildrenFuel (cs : list FigmaNode.t) (depth : nat)
      (parent : option FigmaNode.t) (st : Run) {struct cs} : option (list string * Run) :=
    match cs with
    | [] => Some ([], st)
    | child :: cs' =>
        match generateHtmlFuel fuel child depth parent st with
        | Some (h, st) =>
            match mapChildrenFuel cs' depth parent st with
            | Some (hs, st) => Some (h :: hs, st)
            | None => None
            end
        | None => None
        end
    end.

(** [convertWithStyles] under the bound [fuel]. *)
Definition convertWithStylesFuel (fuel : nat) (c : Converter) (n : FigmaNode.t)
    : option (Output * Converter) :=
  let c := mkConverter ∅ 0 in
  match generateHtmlFuel fuel n 0 None (mkRun c []) with
  | Some (html, st) =>
      Some (mkOutput html (generateCssFromNodes atan2_degrees (nodeStyles st)), converter st)
  | None => None
  end.

End Vocabulary.

(** ** Markup and stylesheet text *)

(** The number of positions of [s] where [pat] starts. *)
Fixpoint countOccurrences (pat s : string) : nat :=
  (if Js.startsWith pat s then 1 else 0) +
  match s with
  | EmptyString => 0
  | String _ s' => countOccurrences pat s'
  end.

(** The number of opening tags of elements in a markup text. *)
Definition countElements (markup : string) : nat := countOccurrences "<div" markup.

(** Every [<] of the text starts an opening or a closing tag that the text
    holds in full up to its name. *)
Fixpoint closedMarkup (s : string) : bool :=
  match s with
  | EmptyString => true
  | String c s' =>
      (if Ascii.eqb c "<" then Js.startsWith "div " s' || Js.startsWith "/" s' else true)
      && closedMarkup s'
  end.

(** The nodes that get a markup element, with the parent each is styled
    against, in the order of the traversal. *)
Fixpoint emitted (n : FigmaNode.t) (parent : option FigmaNode.t)
    : list (FigmaNode.t * option FigmaNode.t) :=
  let emittedList :=
    fix emittedList (cs : list FigmaNode.t) (parent : option FigmaNode.t) :=
      match cs with
      | [] => []
      | child :: cs' => emitted child parent ++ emittedList cs' parent
      end in
  let ofChildren (parent : option FigmaNode.t) :=
    match FigmaNode.children n with
    | Some cs => emittedList cs parent
    | None => []
    end in
  if negb (not_false (FigmaNode.visible n)) then []
  else
    let ty := FigmaNode.type n in
    if String.eqb ty "DOCUMENT" || String.eqb ty "CANVAS" then ofChildren None
    else if String.eqb ty "TEXT" then [(n, parent)]
    else if isContainerType ty then (n, parent) :: ofChildren (Some n)
    else ofChildren parent.

Fixpoint emittedList (cs : list FigmaNode.t) (parent : option FigmaNode.t)
    : list (FigmaNode.t * option FigmaNode.t) :=
  match cs with
  | [] => []
  | child :: cs' => emitted child parent ++ emittedList cs' parent
  end.

(** The class of a node id is a generated name below the counter, and no
    two ids share a class. *)
Definition classesOk (c : Converter) : Prop :=
  (forall i cls, cssClasses c !! i = Some cls ->
     exists k, k < classCounter c /\ cls = "figma-node-" +:+ Js.string_of_nat k)
  /\ (forall i j cls, cssClasses c !! i = Some cls -> cssClasses c !! j = Some cls -> i = j).

(** Every element of [nodeStyles] carries the class of its node's id. *)
Definition entriesOk (st : Run) : Prop :=
  forall e, In e (nodeStyles st) ->
            cssClasses (converter st) !! FigmaNode.id (node e) = Some (className e).

(** The node and the parent of an element of [nodeStyles]. *)
Definition entryKey (e : StyleEntry) : FigmaNode.t * option FigmaNode.t :=
  (node e, parent e).

(** What a part of the traversal does to the state: it goes from [st] to
    [st'], keeps the classes given so far, and pushes one element for each of
    [pairs], [count] of them. *)
Definition stepOk (st : Run) (pairs : list (FigmaNode.t * option FigmaNode.t))
    (count : nat) (st' : Run) : Prop :=
  classesOk (converter st') /\ entriesOk st'
  /\ (forall i cls, cssClasses (converter st) !! i = Some cls ->
                    cssClasses (converter st') !! i = Some cls)
  /\ exists new, nodeStyles st' = nodeStyles st ++ new
                 /\ map entryKey new = pairs /\ count = length new.

(** The sum of the numbers of elements of a list of markup texts. *)
Definition countAll (parts : list string) : nat :=
  fold_right (fun h acc => countElements h + acc) 0 parts.

(** ** Sample inputs *)

Module Sample.

(** [Math.atan2(dy, dx) * (180 / Math.PI)] on the eight principal
    directions, where it is a whole number of degrees; 0 elsewhere. It is
    the instance used to evaluate the examples. *)
Definition atan2_degrees (dy dx : num) : num :=
  let sgn v := Num.compare v Num.zero in
  let diagonal := Num.eqb (Num.mul dx dx) (Num.mul dy dy) in
  match sgn dy, sgn dx with
  | Eq, Lt => Num.of_Z 180
  | Eq, _ => Num.of_Z 0
  | Gt, Eq => Num.of_Z 90
  | Lt, Eq => Num.of_Z (-90)
  | Gt, Gt => if diagonal then Num.of_Z 45 else Num.of_Z 0
  | Gt, Lt => if diagonal then Num.of_Z 135 else Num.of_Z 0
  | Lt, Gt => if diagonal then Num.of_Z (-45) else Num.of_Z 0
  | Lt, Lt => if diagonal then Num.of_Z (-135) else Num.of_Z 0
  end.

(** The opening tag of an element of class [cls]. *)
Definition tag (cls : string) : string :=
  "<div class=" +:+ Js.dquote +:+ cls +:+ Js.dquote +:+ ">".

Definition box (x y w h : Z) : BoundingBox.t :=
  BoundingBox.mk (Num.of_Z x) (Num.of_Z y) (Num.of_Z w) (Num.of_Z h).

Definition black : FigmaColor.t := FigmaColor.mk Num.zero Num.zero Num.zero Num.one.
Definition white : FigmaColor.t := FigmaColor.mk Num.one Num.one Num.one Num.one.

Definition solid (c : FigmaColor.t) : Paint.t := Paint.mk "SOLID" (Some c) None None None None.

Definition hiddenSolid (c : FigmaColor.t) : Paint.t :=
  Paint.mk "SOLID" (Some c) None (Some false) None None.

(** A frame at (10, 10) with a left padding of 5 and no auto-layout. *)
Definition frame : FigmaNode.t :=
  FigmaNode.mk "1:2" "Card" "FRAME" None (Some (box 10 10 200 200)) None None None None
    None None None None None None None None (Some (Num.of_Z 5)) None None None None None
    None None.

(** A rectangle with radii [8, 8, 0, 0], a white fill and a black stroke of
    weight 1 with the given alignment. *)
Definition roundedTop (align : string) : FigmaNode.t :=
  FigmaNode.mk "1:3" "Row" "RECTANGLE" None (Some (box 20 30 100 40)) (Some [solid white])
    (Some [solid black]) (Some Num.one) (Some align) None
    (Some [Num.of_Z 8; Num.of_Z 8; Num.zero; Num.zero]) None None None None None None None
    None None None None None None None.

Definition inter : TypeStyle.t :=
  TypeStyle.mk "Inter" (Num.of_Z 400) (Num.of_Z 12) None None None (Some "CENTER") None.

(** A text node with a fill and an optional style block. *)
Definition label (fill : Paint.t) (style : option TypeStyle.t) : FigmaNode.t :=
  FigmaNode.mk "1:4" "Label" "TEXT" None (Some (box 20 80 100 40)) (Some [fill]) None None
    None None None (Some "a<b") style None None None None None None None None None None
    None None.

(** A rectangle whose first fill is a linear gradient. *)
Definition gradientRect (stops : option (list ColorStop.t))
    (handles : option (list Vector.t)) : FigmaNode.t :=
  FigmaNode.mk "1:5" "Gradient" "RECTANGLE" None None
    (Some [Paint.mk "GRADIENT_LINEAR" None None None handles stops]) None None None None
    None None None None None None None None None None None None None None None.

Definition twoStops : list ColorStop.t :=
  [ColorStop.mk Num.zero black; ColorStop.mk Num.one white].

(** A rectangle with a uniform radius of 4 and a centered stroke. *)
Definition outlined : FigmaNode.t :=
  FigmaNode.mk "1:6" "Chip" "RECTANGLE" None (Some (box 0 0 50 20)) None
    (Some [solid black]) (Some Num.one) (Some "CENTER") (Some (Num.of_Z 4)) None None None
    None None None None None None None None None None None None.

(** A node that is not visible, with a child. *)
Definition hidden : FigmaNode.t :=
  FigmaNode.mk "1:7" "Draft" "FRAME" (Some [outlined]) (Some (box 0 0 50 20)) None None None
    None None None None None None None None None None None None None None None None
    (Some false).

(** The node [n] with the children [cs]. *)
Definition withChildren (n : FigmaNode.t) (cs : list FigmaNode.t) : FigmaNode.t :=
  FigmaNode.mk (FigmaNode.id n) (FigmaNode.name n) (FigmaNode.type n) (Some cs)
    (FigmaNode.absoluteBoundingBox n) (FigmaNode.fills n) (FigmaNode.strokes n)
    (FigmaNode.strokeWeight n) (FigmaNode.strokeAlign n) (FigmaNode.cornerRadius n)
    (FigmaNode.rectangleCornerRadii n) (FigmaNode.characters n) (FigmaNode.style n)
    (FigmaNode.effects n) (FigmaNode.opacity n) (FigmaNode.layoutMode n)
    (FigmaNode.itemSpacing n) (FigmaNode.paddingLeft n) (FigmaNode.paddingRight n)
    (FigmaNode.paddingTop n) (FigmaNode.paddingBottom n) (FigmaNode.primaryAxisAlignItems n)
    (FigmaNode.counterAxisAlignItems n) (FigmaNode.clipsContent n) (FigmaNode.visible n).

(** A document with one page and one frame of three children, the last of
    them hidden. *)
Definition document : FigmaNode.t :=
  withChildren (FigmaNode.bare "0:0" "DOCUMENT")
    [withChildren (FigmaNode.bare "0:1" "CANVAS")
       [withChildren frame [roundedTop "INSIDE"; label (solid white) (Some inter); hidden]]].

End Sample.


(** * The rest of the converter and the command line

    [convert] and the two private methods only it calls, and
    [extractFileKey] of index.ts, which prepares the input of the converter's
    caller. *)

(** [generateCss]: the stylesheet of [convert]. *)
Definition generateCss : string :=
  "/* Generated CSS from Figma */" +:+ String "010" (String "010" EmptyString)
  +:+ "body {" +:+ String "010" "  margin: 0;" +:+ String "010" "  padding: 0;"
  +:+ String "010" ("  font-family: -apple-system, BlinkMacSystemFont, " +:+ Js.dquote +:+ "Segoe UI"
                      +:+ Js.dquote +:+ ", Roboto, sans-serif;")
  +:+ String "010" "}" +:+ String "010" (String "010" EmptyString).

(** [generateHtml]. The class of a node is asked for before the [switch], so
    for every visible node, also one that gets no element. *)
Fixpoint generateHtml (n : FigmaNode.t) (depth : nat) (c : Converter) {struct n}
    : string * Converter :=
  let mapHtml :=
    fix mapHtml (cs : list FigmaNode.t) (depth : nat) (c : Converter) {struct cs}
        : list string * Converter :=
      match cs with
      | [] => ([], c)
      | child :: cs' =>
          let '(h, c) := generateHtml child depth c in
          let '(hs, c) := mapHtml cs' depth c in
          (h :: hs, c)
      end in
  if negb (not_false (FigmaNode.visible n)) then ("", c)
  else
    let indent := Js.repeat "  " depth in
    let '(className, c) := getClassName n c in
    let ty := FigmaNode.type n in
    if String.eqb ty "DOCUMENT" || String.eqb ty "CANVAS" then
      match FigmaNode.children n with
      | Some ((_ :: _) as children) =>
          let '(hs, c) := mapHtml children depth c in
          (Js.join (String "010" EmptyString) hs, c)
      | _ => ("", c)
      end
    else if String.eqb ty "TEXT" then
      let text := default "" (FigmaNode.characters n) in
      (indent +:+ "<div class=" +:+ Js.dquote +:+ className +:+ Js.dquote +:+ ">" +:+ escapeHtml text +:+ "</div>", c)
    else if isContainerType ty then
      let html := indent +:+ "<div class=" +:+ Js.dquote +:+ className +:+ Js.dquote +:+ ">" in
      match FigmaNode.children n with
      | Some ((_ :: _) as children) =>
          let '(hs, c) := mapHtml children (S depth) c in
          (html +:+ String "010" EmptyString
             +:+ Js.join (String "010" EmptyString) hs
             +:+ (String "010" EmptyString +:+ indent) +:+ "</div>", c)
      | _ => (html +:+ "</div>", c)
      end
    else
      match FigmaNode.children n with
      | Some ((_ :: _) as children) =>
          let '(hs, c) := mapHtml children depth c in
          (Js.join (String "010" EmptyString) hs, c)
      | _ => ("", c)
      end.

(** [node.children.map(child => this.generateHtml(child, depth))]. *)
Fixpoint mapHtml (cs : list FigmaNode.t) (depth : nat) (c : Converter)
    : list string * Converter :=
  match cs with
  | [] => ([], c)
  | child :: cs' =>
      let '(h, c) := generateHtml child depth c in
      let '(hs, c) := mapHtml cs' depth c in
      (h :: hs, c)
  end.

(** [convert]: the result and the converter after the call. *)
Definition convert (c : Converter) (n : FigmaNode.t) : Output * Converter :=
  let c := mkConverter ∅ 0 in
  let '(html, c) := generateHtml n 0 c in
  (mkOutput html generateCss, c).

(** ** index.ts *)

Module Index.
Import Regex.

(** The class [[a-zA-Z0-9]]. *)
Definition alnum (c : ascii) : bool :=
  let n := nat_of_ascii c in
  (Nat.leb 97 n && Nat.leb n 122) || (Nat.leb 65 n && Nat.leb n 90)
  || (Nat.leb 48 n && Nat.leb n 57).

(** [/figma\.com\/(?:file|design)\/([a-zA-Z0-9]+)/]. The group
    [(?:file|design)] makes the pattern two sequences, tried in this order
    at each position of the input. *)
Definition fileUrl : list (list re) :=
  [ [Lit "figma.com/"; Lit "file"; Lit "/"; Grp [Plus alnum]];
    [Lit "figma.com/"; Lit "design"; Lit "/"; Grp [Plus alnum]] ].

(** The continuation at the end of a pattern: the match is found and the
    captures are its result. *)
Definition found : cont := fun _ _ caps => Some caps.

(** The alternatives of a pattern at one position: the captures of the first
    that matches. *)
Fixpoint matchAlt (alts : list (list re)) (pos : nat) (s : string)
    : option (list string) :=
  match alts with
  | [] => None
  | rs :: alts' =>
      match matchSeq rs pos s [] found with
      | Some caps => Some caps
      | None => matchAlt alts' pos s
      end
  end.

(** [s.match(re)] for a pattern with alternatives: the captures of the
    leftmost match. *)
Fixpoint searchAlt (alts : list (list re)) (pos : nat) (s : string)
    : option (list string) :=
  match matchAlt alts pos s with
  | Some caps => Some caps
  | None =>
      match s with
      | String _ s' => searchAlt alts (S pos) s'
      | EmptyString => None
      end
  end.

(** [extractFileKey]: [urlMatch[1]] is the first capture. *)
Definition extractFileKey (input : string) : string :=
  match searchAlt fileUrl 0 input with
  | Some (key :: _) => key
  | _ => input
  end.

End Index.

#[local] Arguments Index.alnum !c /.

(** ** Vocabulary of the further properties *)

(** The five characters [escapeHtml] replaces. *)
Definition isSpecial (c : ascii) : bool :=
  Ascii.eqb c "&" || Ascii.eqb c "<" || Ascii.eqb c ">" || Ascii.eqb c "034"
  || Ascii.eqb c "'".

(** The generated class number [k]. *)
Definition classOf (k : nat) : string := "figma-node-" +:+ Js.string_of_nat k.

(** The ids seen so far, each once, in the order of their first
    appearance. *)
Definition addId (seen : list string) (i : string) : list string :=
  match Js.indexOf i seen with
  | Some _ => seen
  | None => seen ++ [i]
  end.

Definition firstSeen (ids : list string) : list string := fold_left addId ids [].

(** The id of the node of an element of [nodeStyles]. *)
Definition entryId (e : StyleEntry) : string := FigmaNode.id (node e).

(** Every node the traversal visits gets an element: no visible node is a
    document, a canvas or of an unrecognized kind. The children of a text
    node are not visited. *)
Fixpoint allEmitted (n : FigmaNode.t) : bool :=
  let allOf :=
    fix allOf (cs : list FigmaNode.t) : bool :=
      match cs with
      | [] => true
      | child :: cs' => allEmitted child && allOf cs'
      end in
  if negb (not_false (FigmaNode.visible n)) then true
  else
    let ty := FigmaNode.type n in
    if String.eqb ty "DOCUMENT" || String.eqb ty "CANVAS" then false
    else if String.eqb ty "TEXT" then true
    else if isContainerType ty then
      match FigmaNode.children n with
      | Some cs => allOf cs
      | None => true
      end
    else false.

Fixpoint allEmittedList (cs : list FigmaNode.t) : bool :=
  match cs with
  | [] => true
  | child :: cs' => allEmitted child && allEmittedList cs'
  end.

(** Every [<] of the text starts [<div ] or [</div>], held in full. *)
Fixpoint wholeTags (s : string) : bool :=
  match s with
  | EmptyString => true
  | String c s' =>
      (if Ascii.eqb c "<" then Js.startsWith "div " s' || Js.startsWith "/div>" s' else true)
      && wholeTags s'
  end.

(** The number of closing tags of elements in a markup text. *)
Definition countClosing (markup : string) : nat := countOccurrences "</div>" markup.

(** A markup text with whole tags and as many closing as opening tags. *)
Definition balanced (h : string) : Prop :=
  wholeTags h = true /\ countClosing h = countElements h.


(** The number of declarations of a style that are equal to [line]. *)
Definition countLine (line : string) (lines : list string) : nat :=
  length (List.filter (String.eqb line) lines).

(** The classes of a converter number the ids of [seen] in order: the id at
    index [k] has the class number [k], no other id has a class, and the
    counter is the number of ids. *)
Definition numbered (c : Converter) (seen : list string) : Prop :=
  classCounter c = length seen
  /\ forall i, cssClasses c !! i = option_map classOf (Js.indexOf i seen).

(** The ids of the nodes that get an element. *)
Definition idsOf (pairs : list (FigmaNode.t * option FigmaNode.t)) : list string :=
  map (fun p => FigmaNode.id (fst p)) pairs.

(** The node [n] with the effects [effs]. *)
Definition withEffects (n : FigmaNode.t) (effs : list Effect.t) : FigmaNode.t :=
  FigmaNode.mk (FigmaNode.id n) (FigmaNode.name n) (FigmaNode.type n) (FigmaNode.children n)
    (FigmaNode.absoluteBoundingBox n) (FigmaNode.fills n) (FigmaNode.strokes n)
    (FigmaNode.strokeWeight n) (FigmaNode.strokeAlign n) (FigmaNode.cornerRadius n)
    (FigmaNode.rectangleCornerRadii n) (FigmaNode.characters n) (FigmaNode.style n)
    (Some effs) (FigmaNode.opacity n) (FigmaNode.layoutMode n)
    (FigmaNode.itemSpacing n) (FigmaNode.paddingLeft n) (FigmaNode.paddingRight n)
    (FigmaNode.paddingTop n) (FigmaNode.paddingBottom n) (FigmaNode.primaryAxisAlignItems n)
    (FigmaNode.counterAxisAlignItems n) (FigmaNode.clipsContent n) (FigmaNode.visible n).

(** An effect that gives no shadow: it is hidden, or has no offset or no
    color, or is neither a drop shadow nor an inner shadow. *)
Definition noShadow (e : Effect.t) : Prop :=
  Effect.visible e = Some false \/ Effect.offset e = None \/ Effect.color e = None
  \/ (Effect.type e <> "DROP_SHADOW" /\ Effect.type e <> "INNER_SHADOW").

(** ** More sample inputs *)

Module Fixture.
Import Sample.

(** A rectangle with radii [0, 0, 8, 8], a white fill and a black stroke of
    weight 1 aligned INSIDE. *)
Definition roundedBottom : FigmaNode.t :=
  FigmaNode.mk "2:1" "Footer" "RECTANGLE" None (Some (box 20 70 100 40)) (Some [solid white])
    (Some [solid black]) (Some Num.one) (Some "INSIDE") None
    (Some [Num.zero; Num.zero; Num.of_Z 8; Num.of_Z 8]) None None None None None None None
    None None None None None None None.

(** A rectangle with an array of two radii and a single radius of 4. *)
Definition twoRadii : FigmaNode.t :=
  FigmaNode.mk "2:2" "Odd" "RECTANGLE" None (Some (box 0 0 50 20)) None None None None
    (Some (Num.of_Z 4)) (Some [Num.of_Z 8; Num.of_Z 8]) None None None None None None None
    None None None None None None None.

(** The handles of a gradient along the diagonal. *)
Definition diagonal : list Vector.t :=
  [Vector.mk Num.zero Num.zero; Vector.mk Num.one Num.one].

(** A gradient paint along the diagonal from black to white. *)
Definition blackToWhite : Paint.t :=
  Paint.mk "GRADIENT_LINEAR" None None None (Some diagonal) (Some twoStops).

(** The frame of the sample document with its three children. *)
Definition card : FigmaNode.t :=
  withChildren frame [roundedTop "INSIDE"; label (solid white) (Some inter); hidden].

(** A drop shadow of offset (0, 2) and radius 4, and the same shadow
    hidden. *)
Definition dropShadow : Effect.t :=
  Effect.mk "DROP_SHADOW" None (Some (Num.of_Z 4)) (Some black)
    (Some (Vector.mk Num.zero (Num.of_Z 2))).

Definition hiddenShadow : Effect.t :=
  Effect.mk "DROP_SHADOW" (Some false) (Some (Num.of_Z 4)) (Some black)
    (Some (Vector.mk Num.zero (Num.of_Z 2))).

(** A horizontal auto-layout frame with a gap of 8 and a left padding
    of 16. *)
Definition row : FigmaNode.t :=
  FigmaNode.mk "2:3" "Row" "FRAME" None (Some (box 0 0 300 40)) None None None None None None
    None None None None (Some "HORIZONTAL") (Some (Num.of_Z 8)) (Some (Num.of_Z 16)) None None
    None None None None None.

End Fixture.
(** * Properties *)

(** ** Strings *)

Module JsFacts.
Import Js.

Lemma append_nil_r (s : string) : s +:+ "" = s.
Proof. induction s as [|c s IH]; simpl; [reflexivity | now f_equal]. Qed.

Lemma append_assoc (a b c : string) : (a +:+ b) +:+ c = a +:+ (b +:+ c).
Proof. induction a as [|x a IH]; simpl; [reflexivity | now f_equal]. Qed.

Lemma startsWith_append (p s : string) : startsWith p (p +:+ s) = true.
Proof.
  induction p as [|c p IH]; simpl; [reflexivity |].
  now rewrite Ascii.eqb_refl.
Qed.

Lemma startsWith_inv (p s : string) :
  startsWith p s = true -> exists rest, s = p +:+ rest.
Proof.
  revert s. induction p as [|c p IH]; intros s H; simpl in *.
  - now exists s.
  - destruct s as [|d s]; [discriminate |].
    destruct (Ascii.eqb c d) eqn:E; [| discriminate].
    apply Ascii.eqb_eq in E. subst d.
    destruct (IH _ H) as [rest ->]. now exists rest.
Qed.

Lemma has_char_append (c : ascii) (a b : string) :
  has_char c (a +:+ b) = has_char c a || has_char c b.
Proof.
  induction a as [|x a IH]; simpl; [reflexivity |].
  destruct (Ascii.eqb c x); [reflexivity | exact IH].
Qed.

Lemma startsWith_has_char (c : ascii) (p s : string) :
  startsWith p s = true -> has_char c p = true -> has_char c s = true.
Proof.
  intros H Hc. destruct (startsWith_inv _ _ H) as [rest ->].
  rewrite has_char_append, Hc. reflexivity.
Qed.

(** A string that includes [sub] has every character of [sub]. *)
Lemma includes_has_char (c : ascii) (sub s : string) :
  includes sub s = true -> has_char c sub = true -> has_char c s = true.
Proof.
  intros H Hc. induction s as [|x s IH].
  - simpl in H. destruct (startsWith sub "") eqn:E; [| discriminate].
    eapply startsWith_has_char; eassumption.
  - cbn [includes] in H. destruct (startsWith sub (String x s)) eqn:E.
    + eapply startsWith_has_char; eassumption.
    + simpl. destruct (Ascii.eqb c x); [reflexivity | auto].
Qed.

Lemma lacks_char_not_includes (c : ascii) (sub s : string) :
  has_char c sub = true -> has_char c s = false -> includes sub s = false.
Proof.
  intros Hc Hs. destruct (includes sub s) eqn:E; [| reflexivity].
  rewrite (includes_has_char c sub s E Hc) in Hs. discriminate.
Qed.

(** *** Arrays *)

Lemma findIndex_Some {A} (p : A -> bool) (arr : list A) (i : nat) :
  findIndex p arr = Some i ->
  exists pre x post, arr = pre ++ x :: post /\ length pre = i /\ p x = true
                     /\ Forall (fun y => p y = false) pre.
Proof.
  revert i. induction arr as [|a arr IH]; intros i H; simpl in H; [discriminate |].
  destruct (p a) eqn:E.
  - injection H as <-. exists [], a, arr. repeat split; auto.
  - destruct (findIndex p arr) as [j|]; [| discriminate].
    injection H as <-. destruct (IH j eq_refl) as (pre & x & post & -> & Hl & Hx & Hpre).
    exists (a :: pre), x, post. repeat split; simpl; auto.
Qed.

Lemma findIndex_None {A} (p : A -> bool) (arr : list A) :
  findIndex p arr = None -> Forall (fun y => p y = false) arr.
Proof.
  induction arr as [|a arr IH]; intros H; simpl in H; [constructor |].
  destruct (p a) eqn:E; [discriminate |].
  destruct (findIndex p arr); [discriminate |]. constructor; auto.
Qed.

Lemma splice_delete_one {A} (pre post : list A) (x : A) (items : list A) :
  splice (length pre) 1 items (pre ++ x :: post) = pre ++ items ++ post.
Proof.
  unfold splice.
  rewrite firstn_app, firstn_all, Nat.sub_diag, firstn_O, app_nil_r.
  rewrite skipn_app.
  replace (length pre + 1 - length pre) with 1 by lia.
  rewrite skipn_all2 by lia. reflexivity.
Qed.

End JsFacts.

(** ** Numbers and their text *)

Module NumFacts.
Import Js JsFacts Num NumText.

Lemma all_chars_append p a b :
  all_chars p (a +:+ b) = all_chars p a && all_chars p b.
Proof.
  induction a as [|c a IH]; simpl; [reflexivity |].
  rewrite IH. now rewrite andb_assoc.
Qed.

Lemma all_chars_weaken (p q : ascii -> bool) s :
  (forall c, p c = true -> q c = true) -> all_chars p s = true -> all_chars q s = true.
Proof.
  intros Hpq. induction s as [|c s IH]; simpl; [reflexivity |].
  intros [H1 H2]%andb_prop. rewrite (Hpq _ H1). simpl. auto.
Qed.

Lemma all_chars_lacks p s c :
  all_chars p s = true -> p c = false -> has_char c s = false.
Proof.
  intros H Hc. induction s as [|d s IH]; simpl in *; [reflexivity |].
  apply andb_prop in H as [H1 H2].
  destruct (Ascii.eqb c d) eqn:E; [| auto].
  apply Ascii.eqb_eq in E. subst d. congruence.
Qed.

Lemma digits_uint (d : Decimal.uint) :
  all_chars Regex.digit (NilEmpty.string_of_uint d) = true.
Proof. induction d; simpl; auto. Qed.

Lemma digits_dec (z : Z) : all_chars Regex.digit (dec z) = true.
Proof.
  unfold dec, NilZero.string_of_uint.
  destruct (N.to_uint (Z.to_N z)) as [|u|u|u|u|u|u|u|u|u|u]; [reflexivity | ..].
  all: match goal with |- context [NilEmpty.string_of_uint ?d] => apply (digits_uint d) end.
Qed.

Lemma dec_nonempty (z : Z) : exists c s, dec z = String c s.
Proof.
  unfold dec, NilZero.string_of_uint.
  destruct (N.to_uint (Z.to_N z)); simpl; eauto.
Qed.



Lemma digit_is_digit (z : Z) : Regex.digit (digit z) = true.
Proof.
  unfold digit.
  assert (H : Z.to_nat (z mod 10) < 10).
  { pose proof (Z.mod_pos_bound z 10 ltac:(lia)). lia. }
  remember (Z.to_nat (z mod 10)) as k eqn:Ek. clear Ek.
  do 10 (destruct k as [|k]; [reflexivity |]). lia.
Qed.

Lemma digits_fixed_digits (k : nat) (z : Z) :
  all_chars Regex.digit (digits_fixed k z) = true.
Proof.
  revert z. induction k as [|k IH]; intros z; simpl; [reflexivity |].
  rewrite all_chars_append, IH. cbn [all_chars andb].
  rewrite digit_is_digit. reflexivity.
Qed.

Lemma toString_sign (x : num) :
  toString x = (if (mant x <? 0)%Z then "-" else "") +:+ absString x.
Proof.
  unfold toString, absString.
  destruct (strip (dexp x) (Z.abs (mant x))) as [m e]. reflexivity.
Qed.

Lemma digit_digit_or_dot c : Regex.digit c = true -> Regex.digit_or_dot c = true.
Proof. unfold Regex.digit_or_dot. now intros ->. Qed.

Lemma absString_chars (x : num) : all_chars Regex.digit_or_dot (absString x) = true.
Proof.
  unfold absString. destruct (strip (dexp x) (Z.abs (mant x))) as [m e].
  rewrite all_chars_append.
  rewrite (all_chars_weaken _ _ _ digit_digit_or_dot (digits_dec _)). simpl.
  destruct e; [reflexivity |].
  change (all_chars Regex.digit_or_dot
            (String "." (digits_fixed (S e) (m mod pow10 (S e))%Z)) = true).
  cbn [all_chars].
  now rewrite (all_chars_weaken _ _ _ digit_digit_or_dot (digits_fixed_digits _ _)).
Qed.

Lemma absString_nonempty (x : num) :
  exists c s, absString x = String c s /\ Regex.digit c = true.
Proof.
  unfold absString. destruct (strip (dexp x) (Z.abs (mant x))) as [m e].
  pose proof (digits_dec (m / pow10 e)) as Hd.
  destruct (dec_nonempty (m / pow10 e)) as (c & s & E). rewrite E in *.
  simpl in Hd. apply andb_prop in Hd as [Hc _].
  simpl. eauto.
Qed.

(** The text of a number has digits, dots and a minus sign only. *)
Lemma toString_chars (x : num) : all_chars numChar (toString x) = true.
Proof.
  rewrite toString_sign, all_chars_append.
  assert (H : all_chars numChar (absString x) = true).
  { eapply all_chars_weaken; [| apply absString_chars].
    intros c Hc. unfold numChar. now rewrite Hc. }
  rewrite H. destruct (mant x <? 0)%Z; reflexivity.
Qed.

Lemma toString_lacks (x : num) (c : ascii) :
  numChar c = false -> has_char c (toString x) = false.
Proof. intros H. eapply all_chars_lacks; [apply toString_chars | exact H]. Qed.


Lemma strip_zero (e : nat) : strip e 0 = (0%Z, 0).
Proof. induction e as [|e IH]; simpl; [reflexivity | exact IH]. Qed.

Lemma toString_zero (x : num) : mant x = 0%Z -> toString x = "0".
Proof.
  intros H. unfold toString. rewrite H. simpl. rewrite strip_zero. reflexivity.
Qed.


Lemma compare_zero (x : num) : compare x zero = (mant x ?= 0)%Z.
Proof.
  unfold compare, zero, of_Z. cbn [mant dexp]. unfold pow10.
  rewrite Z.mul_0_l. change (Z.of_nat 0) with 0%Z.
  now rewrite Z.pow_0_r, Z.mul_1_r.
Qed.

Lemma eqb_zero (x : num) : Num.eqb x zero = true <-> mant x = 0%Z.
Proof.
  unfold Num.eqb. rewrite compare_zero.
  destruct (Z.compare_spec (mant x) 0); split; intros; try lia; try discriminate; reflexivity.
Qed.

Lemma gtb_zero (x : num) : Num.gtb x zero = true <-> (0 < mant x)%Z.
Proof.
  unfold Num.gtb. rewrite compare_zero.
  destruct (Z.compare_spec (mant x) 0); split; intros; try lia; try discriminate; reflexivity.
Qed.





End NumFacts.

(** ** Regular expressions *)

Module RegexFacts.
Import Js JsFacts NumText NumFacts Regex.

Lemma matchSeq_cons r rs pos s caps k :
  matchSeq (r :: rs) pos s caps k =
  matchOne r pos s caps (fun pos' s' caps' => matchSeq rs pos' s' caps' k).
Proof. reflexivity. Qed.

(** A pattern that starts with [^] matches at the start of the input only. *)
Lemma search_bol rs pos s : pos <> 0 -> search (Bol :: rs) pos s = None.
Proof.
  revert pos. induction s as [|c s IH]; intros pos Hpos.
  - simpl. destruct pos; [contradiction | reflexivity].
  - cbn [search]. rewrite matchSeq_cons. cbn [matchOne].
    destruct pos; [contradiction |]. cbn [Nat.eqb]. now apply IH.
Qed.

Lemma test_bol rs s :
  test (Bol :: rs) s =
  match matchSeq (Bol :: rs) 0 s [] (fun _ _ caps => Some caps) with
  | Some _ => true
  | None => false
  end.
Proof.
  unfold test, exec. destruct s as [|c s]; cbn [search];
    destruct (matchSeq (Bol :: rs) 0 _ [] _); try reflexivity.
  now rewrite search_bol.
Qed.

Lemma lit_startsWith l s s' : lit l s = Some s' -> startsWith l s = true.
Proof.
  revert s. induction l as [|a l IH]; intros s H; [reflexivity |].
  destruct s as [|b s]; [discriminate |]. simpl in *.
  destruct (Ascii.eqb a b); [now apply IH | discriminate].
Qed.

Lemma lit_append l s : lit l (l +:+ s) = Some s.
Proof.
  induction l as [|a l IH]; [reflexivity |]. simpl. now rewrite Ascii.eqb_refl.
Qed.

(** A greedy repetition takes a whole run of its class when the rest of the
    pattern matches after the run. *)
Lemma star_run p run c rest pos k r :
  all_chars p run = true -> p c = false ->
  k (pos + String.length run) (String c rest) = Some r ->
  star p pos (run +:+ String c rest) k = Some r.
Proof.
  revert pos. induction run as [|d run IH]; intros pos Hrun Hc Hk.
  - simpl in *. rewrite Hc. now rewrite Nat.add_0_r in Hk.
  - simpl in Hrun. apply andb_prop in Hrun as [Hd Hrun].
    simpl. rewrite Hd. rewrite (IH (S pos)); auto.
    simpl in Hk. now rewrite Nat.add_succ_r in Hk.
Qed.

End RegexFacts.

(** ** The blocks of [generateNodeStyles] *)

(** Case analysis on every [match] and [if] of the goal. *)
Ltac destruct_matches :=
  repeat match goal with
         | |- context [match ?x with _ => _ end] => destruct x
         end.

Section BlockFacts.
Import Js JsFacts NumText NumFacts.

Variable atan2_degrees : num -> num -> num.

Lemma appends_origin C f styles l :
  appends C f -> In l (f styles) -> In l styles \/ C l.
Proof.
  intros Hf Hl. destruct (Hf styles) as (extra & E & HC). rewrite E in Hl.
  apply in_app_or in Hl as [Hl | Hl]; [now left | right].
  exact (proj1 (List.Forall_forall _ _) HC _ Hl).
Qed.

Lemma appends_keeps C f styles l : appends C f -> In l styles -> In l (f styles).
Proof.
  intros Hf Hl. destruct (Hf styles) as (extra & E & _). rewrite E.
  apply in_or_app. now left.
Qed.

Lemma appends_comp C f g :
  appends C f -> appends C g -> appends C (fun styles => g (f styles)).
Proof.
  intros Hf Hg styles.
  destruct (Hf styles) as (e1 & E1 & H1). destruct (Hg (f styles)) as (e2 & E2 & H2).
  exists (e1 ++ e2). split.
  - now rewrite E2, E1, app_assoc.
  - apply Forall_app. now split.
Qed.

(** A step whose branches push declarations of [C]. *)
Ltac solve_appends :=
  intros styles; unfold push;
  repeat match goal with
         | |- context [if ?c then _ else _] => destruct c
         end;
  first
    [ exists []; split; [symmetry; apply app_nil_r | constructor]
    | eexists; split;
      [ rewrite <- ?app_assoc; reflexivity
      | cbn [app]; repeat constructor ] ].

Lemma textFont_appends ts : appends TextLine (textFont ts).
Proof. unfold textFont. solve_appends. Qed.

Lemma textLetterSpacing_appends ts : appends TextLine (textLetterSpacing ts).
Proof. unfold textLetterSpacing. solve_appends. Qed.

Lemma textLineHeight_appends ts : appends TextLine (textLineHeight ts).
Proof. unfold textLineHeight. solve_appends. Qed.

Lemma textAlignHorizontal_appends ts : appends TextLine (textAlignHorizontal ts).
Proof. unfold textAlignHorizontal. solve_appends. Qed.

Lemma textAlignVertical_appends ts : appends TextLine (textAlignVertical ts).
Proof. unfold textAlignVertical. solve_appends. Qed.

Lemma textWrapping_appends : appends TextLine textWrapping.
Proof. unfold textWrapping. solve_appends. Qed.

Lemma flexDirection_appends mode : appends LayoutLine (flexDirection mode).
Proof. unfold flexDirection. solve_appends. Qed.

Lemma flexGap_appends n : appends LayoutLine (flexGap n).
Proof. unfold flexGap. solve_appends. Qed.

Lemma flexPadding_appends n : appends LayoutLine (flexPadding n).
Proof. unfold flexPadding. solve_appends. Qed.

Lemma flexAlignment_appends n : appends LayoutLine (flexAlignment n).
Proof. unfold flexAlignment. solve_appends. Qed.

(** *** The blocks that only push *)

Ltac solve_app :=
  unfold push; destruct_matches; rewrite ?app_nil_r, <- ?app_assoc; reflexivity.

Lemma positionAndSize_app n parent styles :
  positionAndSize n parent styles = styles ++ positionAndSize n parent [].
Proof. unfold positionAndSize. solve_app. Qed.

Lemma backgroundFill_app n styles :
  backgroundFill atan2_degrees n styles = styles ++ backgroundFill atan2_degrees n [].
Proof. unfold backgroundFill. solve_app. Qed.

Lemma strokeBorders_app n info styles :
  strokeBorders n info styles = styles ++ strokeBorders n info [].
Proof. unfold strokeBorders. solve_app. Qed.

Lemma applyBorderRadius_app info styles :
  applyBorderRadius info styles = styles ++ applyBorderRadius info [].
Proof. unfold applyBorderRadius. solve_app. Qed.

Lemma nodeOpacity_app n styles : nodeOpacity n styles = styles ++ nodeOpacity n [].
Proof. unfold nodeOpacity. solve_app. Qed.

Lemma effectShadows_app n styles : effectShadows n styles = styles ++ effectShadows n [].
Proof. unfold effectShadows. solve_app. Qed.

Lemma clipping_app n styles : clipping n styles = styles ++ clipping n [].
Proof. unfold clipping. solve_app. Qed.

(** *** "Text color from fills" *)

Lemma findIndex_In {A} (p : A -> bool) (arr : list A) (x : A) :
  In x arr -> p x = true -> findIndex p arr <> None.
Proof.
  intros Hin Hp E. apply findIndex_None in E.
  rewrite List.Forall_forall in E. rewrite (E _ Hin) in Hp. discriminate.
Qed.

Lemma delete_found_origin (p : string -> bool) styles i l :
  findIndex p styles = Some i -> In l (splice i 1 [] styles) -> In l styles.
Proof.
  intros E Hl. apply findIndex_Some in E as (pre & x & post & -> & <- & _ & _).
  rewrite splice_delete_one in Hl. simpl in Hl.
  apply in_app_or in Hl. apply in_or_app. destruct Hl; [left | right; right]; assumption.
Qed.

Lemma delete_found_keeps (p : string -> bool) styles i l :
  findIndex p styles = Some i -> In l styles -> p l = false -> In l (splice i 1 [] styles).
Proof.
  intros E Hl Hp. apply findIndex_Some in E as (pre & x & post & -> & <- & Hx & _).
  rewrite splice_delete_one. simpl.
  apply in_app_or in Hl. apply in_or_app. destruct Hl as [Hl | [-> | Hl]]; auto.
  congruence.
Qed.

Lemma textColor_origin n styles l :
  In l (textColor n styles) -> In l styles \/ TextLine l.
Proof.
  unfold textColor.
  destruct (FigmaNode.fills n) as [[|fill fills]|]; auto.
  destruct (String.eqb (Paint.type fill) "SOLID"); auto.
  destruct (Paint.color fill) as [c|]; auto.
  destruct (findIndex _ _) as [i|] eqn:E; intros Hl.
  - apply (delete_found_origin _ _ _ _ E) in Hl.
    unfold push in Hl. apply in_app_or in Hl as [Hl | [<- | []]]; auto.
    right. constructor.
  - unfold push in Hl. apply in_app_or in Hl as [Hl | [<- | []]]; auto.
    right. constructor.
Qed.

Lemma textColor_keeps n styles l :
  In l styles -> includes "background-color" l = false -> In l (textColor n styles).
Proof.
  intros Hl Hbg. unfold textColor.
  destruct (FigmaNode.fills n) as [[|fill fills]|]; auto.
  destruct (String.eqb (Paint.type fill) "SOLID"); auto.
  destruct (Paint.color fill) as [c|]; auto.
  assert (Hp : In l (push ("  color: " +:+ rgbaToString c (Paint.opacity fill) +:+ ";") styles)).
  { unfold push. apply in_or_app. now left. }
  destruct (findIndex _ _) as [i|] eqn:E; [| exact Hp].
  eapply delete_found_keeps; eassumption.
Qed.

(** *** "Make this container a positioning context" *)

Lemma positioningContext_keeps n parent styles l :
  In l styles -> In l (positioningContext n parent styles).
Proof.
  intros Hl. unfold positioningContext, unshift, splice.
  destruct_matches; cbn [firstn skipn app Nat.add]; auto with datatypes.
Qed.

Lemma positioningContext_found n parent styles l :
  In l styles -> includes "position:" l = true ->
  positioningContext n parent styles = styles.
Proof.
  intros Hl Hp. unfold positioningContext.
  destruct parent as [p|]; [| reflexivity].
  destruct (findIndex _ styles) eqn:E; [reflexivity |].
  now apply (findIndex_In _ _ _ Hl) in E.
Qed.

Lemma positioningContext_origin n parent styles l :
  FigmaNode.absoluteBoundingBox n = None ->
  In l (positioningContext n parent styles) ->
  In l styles \/ (parent <> None /\ l = "  position: absolute;").
Proof.
  intros Hbox. unfold positioningContext, unshift. rewrite Hbox.
  destruct parent as [p|]; auto.
  destruct (findIndex _ styles); auto.
  intros [<- | Hl]; [right; split; [discriminate | reflexivity] | now left].
Qed.

(** *** "Post-process: Fix double borders in stacked elements" *)

Lemma fixDoubleBorders_origin styles l :
  In l (fixDoubleBorders styles) -> In l styles \/ FixLine l.
Proof.
  unfold fixDoubleBorders, find, indexOf.
  destruct (List.find (includes "border-radius:") styles) as [rl|]; auto.
  destruct (List.find (Regex.test Patterns.borderLine) styles) as [bl|]; auto.
  destruct (Regex.test Patterns.radiusTopOnly rl); auto.
  destruct (Regex.exec Patterns.borderParts bl) as [[|w [|c [|? ?]]]|]; auto.
  destruct (findIndex (String.eqb bl) styles) as [i|] eqn:E; auto.
  apply findIndex_Some in E as (pre & x & post & -> & <- & _ & _).
  rewrite splice_delete_one. intros Hl.
  apply in_app_or in Hl as [Hl | Hl]; [left; apply in_or_app; now left |].
  simpl in Hl. destruct Hl as [<- | [<- | [<- | Hl]]]; try (right; constructor).
  left. apply in_or_app. right. now right.
Qed.

Lemma fixDoubleBorders_keeps styles l :
  In l styles -> Regex.test Patterns.borderLine l = false -> In l (fixDoubleBorders styles).
Proof.
  intros Hl Hb. unfold fixDoubleBorders, find, indexOf.
  destruct (List.find (includes "border-radius:") styles) as [rl|]; auto.
  destruct (List.find (Regex.test Patterns.borderLine) styles) as [bl|] eqn:Ebl; auto.
  destruct (Regex.test Patterns.radiusTopOnly rl); auto.
  destruct (Regex.exec Patterns.borderParts bl) as [[|w [|c [|? ?]]]|]; auto.
  destruct (findIndex (String.eqb bl) styles) as [i|] eqn:E; auto.
  apply List.find_some in Ebl as [_ Hbl].
  apply findIndex_Some in E as (pre & x & post & -> & <- & Hx & _).
  apply String.eqb_eq in Hx. subst x.
  rewrite splice_delete_one.
  apply in_app_or in Hl as [Hl | [<- | Hl]].
  - apply in_or_app. now left.
  - congruence.
  - apply in_or_app. right. apply in_or_app. now right.
Qed.


(** *** The blocks in sequence *)

Lemma textStyles_origin n styles l :
  In l (textStyles n styles) ->
  In l styles \/
  (FigmaNode.type n = "TEXT" /\ FigmaNode.style n <> None /\ TextLine l).
Proof.
  unfold textStyles.
  destruct (String.eqb (FigmaNode.type n) "TEXT") eqn:Et; auto.
  destruct (FigmaNode.style n) as [ts|]; auto.
  apply String.eqb_eq in Et. intros Hl.
  assert (H : In l styles \/ TextLine l);
    [| destruct H; [now left | right; repeat split; [exact Et | discriminate | assumption]]].
  apply (appends_origin _ _ _ _ textWrapping_appends) in Hl as [Hl | Hl]; auto.
  apply textColor_origin in Hl as [Hl | Hl]; auto.
  apply (appends_origin _ _ _ _ (textAlignVertical_appends ts)) in Hl as [Hl | Hl]; auto.
  apply (appends_origin _ _ _ _ (textAlignHorizontal_appends ts)) in Hl as [Hl | Hl]; auto.
  apply (appends_origin _ _ _ _ (textLineHeight_appends ts)) in Hl as [Hl | Hl]; auto.
  apply (appends_origin _ _ _ _ (textLetterSpacing_appends ts)) in Hl as [Hl | Hl]; auto.
  apply (appends_origin _ _ _ _ (textFont_appends ts)) in Hl as [Hl | Hl]; auto.
Qed.

Lemma textStyles_keeps n styles l :
  In l styles -> includes "background-color" l = false -> In l (textStyles n styles).
Proof.
  intros Hl Hbg. unfold textStyles.
  destruct (String.eqb (FigmaNode.type n) "TEXT"); auto.
  destruct (FigmaNode.style n) as [ts|]; auto.
  apply (appends_keeps _ _ _ _ textWrapping_appends).
  apply textColor_keeps; [| exact Hbg].
  apply (appends_keeps _ _ _ _ (textAlignVertical_appends ts)).
  apply (appends_keeps _ _ _ _ (textAlignHorizontal_appends ts)).
  apply (appends_keeps _ _ _ _ (textLineHeight_appends ts)).
  apply (appends_keeps _ _ _ _ (textLetterSpacing_appends ts)).
  now apply (appends_keeps _ _ _ _ (textFont_appends ts)).
Qed.

Lemma flex_appends n :
  appends LayoutLine
    (fun styles =>
       flexAlignment n (flexPadding n (flexGap n
         (flexDirection (default "" (FigmaNode.layoutMode n)) styles)))).
Proof.
  apply (appends_comp _ (fun s => flexPadding n (flexGap n (flexDirection _ s))));
    [| apply flexAlignment_appends].
  apply (appends_comp _ (fun s => flexGap n (flexDirection _ s)));
    [| apply flexPadding_appends].
  apply (appends_comp _ (flexDirection _)); [apply flexDirection_appends | apply flexGap_appends].
Qed.

Lemma autoLayout_keeps n parent styles l :
  In l styles -> In l (autoLayout n parent styles).
Proof.
  intros Hl. unfold autoLayout.
  destruct (truthy_str (FigmaNode.layoutMode n)); auto.
  apply positioningContext_keeps.
  now apply (appends_keeps _ _ _ _ (flex_appends n)).
Qed.

Lemma autoLayout_origin_found n parent styles l0 l :
  In l0 styles -> includes "position:" l0 = true ->
  In l (autoLayout n parent styles) ->
  In l styles \/ (truthy_str (FigmaNode.layoutMode n) = true /\ LayoutLine l).
Proof.
  intros H0 Hp. unfold autoLayout.
  destruct (truthy_str (FigmaNode.layoutMode n)); auto.
  rewrite (positioningContext_found _ _ _ l0);
    [| now apply (appends_keeps _ _ _ _ (flex_appends n)) | exact Hp].
  intros Hl. apply (appends_origin _ _ _ _ (flex_appends n)) in Hl as [Hl | Hl]; auto.
Qed.

Lemma autoLayout_origin_nobox n parent styles l :
  FigmaNode.absoluteBoundingBox n = None ->
  In l (autoLayout n parent styles) ->
  In l styles \/
  (truthy_str (FigmaNode.layoutMode n) = true /\
   (LayoutLine l \/ (parent <> None /\ l = "  position: absolute;"))).
Proof.
  intros Hbox. unfold autoLayout.
  destruct (truthy_str (FigmaNode.layoutMode n)); auto.
  intros Hl. apply (positioningContext_origin _ _ _ _ Hbox) in Hl as [Hl | Hl]; auto.
  apply (appends_origin _ _ _ _ (flex_appends n)) in Hl as [Hl | Hl]; auto.
Qed.

Lemma linesBeforeText_eq n parent :
  nodeOpacity n
    (applyBorderRadius (borderRadius n)
       (strokeBorders n (borderRadius n)
          (backgroundFill atan2_degrees n (positionAndSize n parent [])))) =
  linesBeforeText atan2_degrees n parent.
Proof.
  unfold linesBeforeText.
  rewrite nodeOpacity_app, applyBorderRadius_app, strokeBorders_app, backgroundFill_app.
  now rewrite <- !app_assoc.
Qed.

Lemma stylesBeforeFix_eq n parent :
  stylesBeforeFix atan2_degrees n parent =
  autoLayout n parent (textStyles n (linesBeforeText atan2_degrees n parent))
  ++ effectShadows n [] ++ clipping n [].
Proof.
  unfold stylesBeforeFix.
  rewrite clipping_app, effectShadows_app, linesBeforeText_eq.
  now rewrite <- app_assoc.
Qed.

(** With a bounding box, the first declaration sets the position. *)
Lemma position_declared n parent box :
  FigmaNode.absoluteBoundingBox n = Some box ->
  exists l, In l (linesBeforeText atan2_degrees n parent)
            /\ includes "position:" l = true
            /\ includes "background-color" l = false.
Proof.
  intros Hbox. unfold linesBeforeText, positionAndSize. rewrite Hbox.
  destruct parent as [p|].
  - destruct (truthy_str (FigmaNode.layoutMode p)).
    + exists "  position: relative;". split; [| split; reflexivity].
      destruct (negb _); simpl; auto.
    + exists "  position: absolute;". split; [| split; reflexivity].
      destruct (negb _); simpl; auto.
  - exists "  position: relative;". split; [| split; reflexivity].
    destruct (negb _); simpl; auto.
Qed.

(** Where a declaration of the [styles] array comes from. *)
Lemma stylesBeforeFix_origin n parent l :
  In l (stylesBeforeFix atan2_degrees n parent) ->
  In l (linesBeforeText atan2_degrees n parent)
  \/ (FigmaNode.type n = "TEXT" /\ FigmaNode.style n <> None /\ TextLine l)
  \/ (truthy_str (FigmaNode.layoutMode n) = true /\ LayoutLine l)
  \/ (truthy_str (FigmaNode.layoutMode n) = true /\
      FigmaNode.absoluteBoundingBox n = None /\ parent <> None /\
      l = "  position: absolute;")
  \/ In l (effectShadows n [])
  \/ In l (clipping n []).
Proof.
  rewrite stylesBeforeFix_eq. intros Hl.
  apply in_app_or in Hl as [Hl | Hl].
  2: { apply in_app_or in Hl as [Hl | Hl]; auto 10. }
  assert (Ht : In l (textStyles n (linesBeforeText atan2_degrees n parent)) ->
               In l (linesBeforeText atan2_degrees n parent)
               \/ (FigmaNode.type n = "TEXT" /\ FigmaNode.style n <> None /\ TextLine l)).
  { apply textStyles_origin. }
  destruct (FigmaNode.absoluteBoundingBox n) as [box|] eqn:Hbox.
  - destruct (position_declared n parent box Hbox) as (l0 & H0 & Hp & Hbg).
    apply (autoLayout_origin_found _ _ _ l0) in Hl as [Hl | Hl]; auto.
    + destruct (Ht Hl); auto.
    + now apply textStyles_keeps.
  - apply (autoLayout_origin_nobox _ _ _ _ Hbox) in Hl as [Hl | (Hm & [Hl | [Hp ->]])]; auto 10.
    destruct (Ht Hl); auto.
Qed.

Lemma stylesBeforeFix_keeps n parent l :
  In l (linesBeforeText atan2_degrees n parent) ->
  includes "background-color" l = false ->
  In l (stylesBeforeFix atan2_degrees n parent).
Proof.
  intros Hl Hbg. rewrite stylesBeforeFix_eq.
  apply in_or_app. left. apply autoLayout_keeps. now apply textStyles_keeps.
Qed.

(** A property of every declaration a node can get holds of its style. *)
Lemma stylesBeforeFix_Forall (P : string -> Prop) n parent :
  Forall P (linesBeforeText atan2_degrees n parent) ->
  (FigmaNode.type n = "TEXT" -> FigmaNode.style n <> None -> forall l, TextLine l -> P l) ->
  (truthy_str (FigmaNode.layoutMode n) = true -> forall l, LayoutLine l -> P l) ->
  (truthy_str (FigmaNode.layoutMode n) = true ->
   FigmaNode.absoluteBoundingBox n = None -> parent <> None -> P "  position: absolute;") ->
  Forall P (effectShadows n []) ->
  Forall P (clipping n []) ->
  Forall P (stylesBeforeFix atan2_degrees n parent).
Proof.
  intros H0 Ht Hl Hp He Hc. apply List.Forall_forall. intros l Hin.
  rewrite List.Forall_forall in H0, He, Hc.
  apply stylesBeforeFix_origin in Hin
    as [Hin | [(? & ? & ?) | [(? & ?) | [(? & ? & ? & ->) | [Hin | Hin]]]]]; auto.
Qed.

Lemma nodeStyleLines_Forall (P : string -> Prop) n parent :
  Forall P (linesBeforeText atan2_degrees n parent) ->
  (FigmaNode.type n = "TEXT" -> FigmaNode.style n <> None -> forall l, TextLine l -> P l) ->
  (truthy_str (FigmaNode.layoutMode n) = true -> forall l, LayoutLine l -> P l) ->
  (truthy_str (FigmaNode.layoutMode n) = true ->
   FigmaNode.absoluteBoundingBox n = None -> parent <> None -> P "  position: absolute;") ->
  Forall P (effectShadows n []) ->
  Forall P (clipping n []) ->
  (forall l, FixLine l -> P l) ->
  Forall P (nodeStyleLines atan2_degrees n parent).
Proof.
  intros H0 Ht Hl Hp He Hc Hf.
  pose proof (stylesBeforeFix_Forall P n parent H0 Ht Hl Hp He Hc) as H.
  apply List.Forall_forall. intros l Hin. rewrite List.Forall_forall in H.
  unfold nodeStyleLines in Hin. apply fixDoubleBorders_origin in Hin as [Hin | Hin]; auto.
Qed.

Lemma nodeStyleLines_keeps n parent l :
  In l (linesBeforeText atan2_degrees n parent) ->
  includes "background-color" l = false ->
  Regex.test Patterns.borderLine l = false ->
  In l (nodeStyleLines atan2_degrees n parent).
Proof.
  intros Hl Hbg Hb. unfold nodeStyleLines.
  apply fixDoubleBorders_keeps; [| exact Hb]. now apply stylesBeforeFix_keeps.
Qed.

End BlockFacts.

(** ** Corner radii and the border strategy *)

Module RadiusFacts.
Import Js JsFacts NumText NumFacts Regex RegexFacts.

Lemma startsWith_prefix a b s : startsWith (a +:+ b) s = true -> startsWith a s = true.
Proof.
  revert s. induction a as [|c a IH]; intros s H; [reflexivity |].
  destruct s as [|d s]; [discriminate |]. simpl in *.
  destruct (Ascii.eqb c d); [now apply IH | discriminate].
Qed.




Lemma toString_head (x : num) : exists c s, Num.toString x = String c s.
Proof.
  rewrite toString_sign. destruct (absString_nonempty x) as (c & s & -> & _).
  destruct (Num.mant x <? 0)%Z; simpl; eauto.
Qed.



End RadiusFacts.

(** ** Colors *)

Module ColorFacts.
Import Js JsFacts NumText NumFacts.



End ColorFacts.

(** ** The style of one node *)

Section StyleClaims.
Import Js JsFacts NumText NumFacts Regex RegexFacts RadiusFacts.

Variable atan2_degrees : num -> num -> num.

Lemma rgba_lacks (c : FigmaColor.t) (o : option num) (ch : ascii) :
  numChar ch = false -> has_char ch "rgba(, )" = false ->
  has_char ch (rgbaToString c o) = false.
Proof.
  intros Hn Hl. unfold rgbaToString.
  assert (H4 : has_char ch "rgba(" = false /\ has_char ch ", " = false
               /\ has_char ch ")" = false /\ has_char ch "rgb(" = false).
  { simpl in Hl |- *.
    destruct (Ascii.eqb ch "r"), (Ascii.eqb ch "g"), (Ascii.eqb ch "b"),
      (Ascii.eqb ch "a"), (Ascii.eqb ch "("), (Ascii.eqb ch ","), (Ascii.eqb ch " "),
      (Ascii.eqb ch ")"); try discriminate; auto. }
  destruct H4 as (Ha & Hb & Hc & Hd).
  destruct (Num.eqb _ Num.one);
    rewrite !has_char_append, ?Ha, ?Hb, ?Hc, ?Hd, !toString_lacks by exact Hn; reflexivity.
Qed.

(** A declaration without the letter k does not include [background-color]. *)
Ltac lacks_bg :=
  apply (lacks_char_not_includes "k"); [reflexivity |];
  unfold px2;
  rewrite ?has_char_append, ?toString_lacks, ?rgba_lacks by reflexivity;
  reflexivity.

(** A declaration that does not start with [border:] is not a border line. *)
Ltac not_border := unfold Patterns.borderLine; rewrite test_bol; reflexivity.

(** A property of declarations that is decided by their first characters. *)
Ltac by_prefix :=
  repeat match goal with
         | |- _ /\ _ => split
         | |- forall _, _ => intro
         | H : TextLine _ |- _ => destruct H
         | H : LayoutLine _ |- _ => destruct H
         | H : FixLine _ |- _ => destruct H
         end;
  try reflexivity; try discriminate; auto.

(** The declarations of one block, case by case. *)
Ltac one_block :=
  unfold positionAndSize, backgroundFill, strokeBorders, applyBorderRadius,
    nodeOpacity, effectShadows, clipping, push;
  cbn [not_false]; cbv beta iota;
  destruct_matches; cbn [app];
  repeat constructor; by_prefix.

(** The declarations of the blocks, block by block. *)
Ltac block_Forall :=
  unfold linesBeforeText;
  repeat (apply Forall_app; split);
  one_block.



(** *** Strokes *)








(** *** Incomplete nodes *)


(** *** The color of a text *)

Lemma textColor_adds n styles fill more c :
  FigmaNode.fills n = Some (fill :: more) ->
  Paint.type fill = "SOLID" -> Paint.color fill = Some c ->
  In ("  color: " +:+ rgbaToString c (Paint.opacity fill) +:+ ";") (textColor n styles).
Proof.
  intros Hf Hty Hc. unfold textColor. rewrite Hf, Hty, Hc.
  change (String.eqb "SOLID" "SOLID") with true. cbv iota.
  assert (Hp : In ("  color: " +:+ rgbaToString c (Paint.opacity fill) +:+ ";")
                  (push ("  color: " +:+ rgbaToString c (Paint.opacity fill) +:+ ";") styles)).
  { unfold push. apply in_or_app. right. simpl. auto. }
  destruct (findIndex _ _) as [i|] eqn:E; [| exact Hp].
  eapply delete_found_keeps; [exact E | exact Hp | lacks_bg].
Qed.

(** C10, as amended. A text node with a style block whose first fill is a
    solid fill with a color gets the [color] rule of that fill, whatever
    the visibility flag of the fill; a fill whose flag is false gives no
    [background-color] rule. *)
Theorem text_color_ignores_fill_visibility
    (n : FigmaNode.t) (parent : option FigmaNode.t) (ts : TypeStyle.t)
    (fill : Paint.t) (more : list Paint.t) (c : FigmaColor.t) :
  FigmaNode.type n = "TEXT" -> FigmaNode.style n = Some ts ->
  FigmaNode.fills n = Some (fill :: more) ->
  Paint.type fill = "SOLID" -> Paint.color fill = Some c ->
  let lines := nodeStyleLines atan2_degrees n parent in
  In ("  color: " +:+ rgbaToString c (Paint.opacity fill) +:+ ";") lines
  /\ (Paint.visible fill = Some false ->
      Forall (fun l => startsWith "  background-color" l = false) lines).
Proof.
  intros Hty Hst Hf Hfty Hc lines. split.
  - unfold lines, nodeStyleLines. apply fixDoubleBorders_keeps; [| not_border].
    rewrite stylesBeforeFix_eq. apply in_or_app. left. apply autoLayout_keeps.
    unfold textStyles. rewrite Hty, Hst.
    change (String.eqb "TEXT" "TEXT") with true. cbv iota.
    apply (appends_keeps _ _ _ _ textWrapping_appends).
    now apply (textColor_adds n _ fill more c).
  - intros Hv. apply nodeStyleLines_Forall; try (intros; by_prefix; fail).
    + unfold linesBeforeText, backgroundFill. rewrite Hf, Hv. block_Forall.
    + block_Forall.
    + block_Forall.
Qed.

End StyleClaims.

(** ** The traversal *)

Module TraversalFacts.
Import Js JsFacts NumText NumFacts RadiusFacts.

(** *** Trees *)

Lemma depth_children n cs c :
  FigmaNode.children n = Some cs -> In c cs -> FigmaNode.depth c < FigmaNode.depth n.
Proof.
  destruct n. cbn [FigmaNode.children]. intros -> Hin.
  cbn [FigmaNode.depth FigmaNode.children].
  induction cs as [|x cs IH]; [contradiction |].
  cbn [fold_right]. destruct Hin as [-> | Hin]; [lia |].
  specialize (IH Hin). lia.
Qed.

(** Induction on a tree: a property holds of a node when it holds of its
    children. *)
Lemma node_induction (P : FigmaNode.t -> Prop) :
  (forall n, (forall cs c, FigmaNode.children n = Some cs -> In c cs -> P c) -> P n) ->
  forall n, P n.
Proof.
  intros H n. remember (FigmaNode.depth n) as d eqn:Ed. revert n Ed.
  induction d as [d IH] using lt_wf_ind. intros n ->.
  apply H. intros cs c Hcs Hin.
  apply (IH (FigmaNode.depth c)); [| reflexivity].
  eapply depth_children; eassumption.
Qed.

Lemma generateHtmlWithStyles_eq n depth parent st :
  generateHtmlWithStyles n depth parent st =
  if negb (not_false (FigmaNode.visible n)) then ("", st)
  else
    let indent := Js.repeat "  " depth in
    let ty := FigmaNode.type n in
    if String.eqb ty "DOCUMENT" || String.eqb ty "CANVAS" then
      match FigmaNode.children n with
      | Some ((_ :: _) as children) =>
          let '(hs, st) := mapChildren children depth None st in
          (Js.join (String "010" EmptyString) hs, st)
      | _ => ("", st)
      end
    else if String.eqb ty "TEXT" then
      let '(className, st) := pushStyle n parent st in
      let text := default "" (FigmaNode.characters n) in
      (indent +:+ "<div class=" +:+ Js.dquote +:+ className +:+ Js.dquote +:+ ">" +:+ escapeHtml text +:+ "</div>", st)
    else if isContainerType ty then
      let '(divClass, st) := pushStyle n parent st in
      let html := indent +:+ "<div class=" +:+ Js.dquote +:+ divClass +:+ Js.dquote +:+ ">" in
      match FigmaNode.children n with
      | Some ((_ :: _) as children) =>
          let '(hs, st) := mapChildren children (S depth) (Some n) st in
          (html +:+ String "010" EmptyString
             +:+ Js.join (String "010" EmptyString) hs
             +:+ (String "010" EmptyString +:+ indent) +:+ "</div>", st)
      | _ => (html +:+ "</div>", st)
      end
    else
      match FigmaNode.children n with
      | Some ((_ :: _) as children) =>
          let '(hs, st) := mapChildren children depth parent st in
          (Js.join (String "010" EmptyString) hs, st)
      | _ => ("", st)
      end.
Proof. destruct n. reflexivity. Qed.

Lemma emitted_eq n parent :
  emitted n parent =
  let ofChildren (parent : option FigmaNode.t) :=
    match FigmaNode.children n with
    | Some cs => emittedList cs parent
    | None => []
    end in
  if negb (not_false (FigmaNode.visible n)) then []
  else
    let ty := FigmaNode.type n in
    if String.eqb ty "DOCUMENT" || String.eqb ty "CANVAS" then ofChildren None
    else if String.eqb ty "TEXT" then [(n, parent)]
    else if isContainerType ty then (n, parent) :: ofChildren (Some n)
    else ofChildren parent.
Proof. destruct n. reflexivity. Qed.

(** *** Markup text *)

Lemma startsWith_app_l p a b : startsWith p a = true -> startsWith p (a +:+ b) = true.
Proof.
  revert a. induction p as [|c p IH]; intros a H; [reflexivity |].
  destruct a as [|d a]; [discriminate |]. simpl in *.
  destruct (Ascii.eqb c d); [now apply IH | discriminate].
Qed.

Lemma countElements_cons c s :
  countElements (String c s) =
  (if startsWith "<div" (String c s) then 1 else 0) + countElements s.
Proof. reflexivity. Qed.

Lemma countElements_append a b :
  closedMarkup a = true -> countElements (a +:+ b) = countElements a + countElements b.
Proof.
  induction a as [|c a IH]; intros H.
  - simpl. destruct b; reflexivity.
  - cbn [closedMarkup] in H. apply andb_prop in H as [Hc Ha].
    cbn [String.append]. rewrite !countElements_cons, (IH Ha).
    assert (E : startsWith "<div" (String c (a +:+ b)) = startsWith "<div" (String c a));
      [| rewrite E; lia].
    change (startsWith "<div" (String c (a +:+ b)))
      with (if Ascii.eqb "<" c then startsWith "div" (a +:+ b) else false).
    change (startsWith "<div" (String c a))
      with (if Ascii.eqb "<" c then startsWith "div" a else false).
    destruct (Ascii.eqb "<" c) eqn:Ec; [| reflexivity].
    apply Ascii.eqb_eq in Ec. subst c. change (Ascii.eqb "<" "<") with true in Hc.
    cbv iota in Hc. apply orb_prop in Hc as [Hd | Hs].
    + rewrite (startsWith_prefix "div" " " _ Hd).
      apply (startsWith_app_l _ _ b) in Hd.
      now rewrite (startsWith_prefix "div" " " _ Hd).
    + destruct a as [|d a]; [discriminate |]. simpl in Hs.
      destruct (Ascii.eqb "/" d) eqn:Ed; [| discriminate].
      apply Ascii.eqb_eq in Ed. subst d. reflexivity.
Qed.

Lemma closedMarkup_append a b :
  closedMarkup a = true -> closedMarkup b = true -> closedMarkup (a +:+ b) = true.
Proof.
  induction a as [|c a IH]; intros Ha Hb; [exact Hb |].
  cbn [closedMarkup] in Ha. apply andb_prop in Ha as [Hc Ha].
  cbn [String.append closedMarkup]. rewrite (IH Ha Hb), andb_true_r.
  destruct (Ascii.eqb c "<"); [| reflexivity].
  apply orb_prop in Hc as [Hd | Hs]; apply orb_true_intro.
  - left. now apply startsWith_app_l.
  - right. now apply startsWith_app_l.
Qed.

(** A text without [<] is closed and has no element. *)
Lemma plain_closed s : has_char "<" s = false -> closedMarkup s = true.
Proof.
  induction s as [|c s IH]; intros H; [reflexivity |].
  simpl in H. rewrite Ascii.eqb_sym in H. cbn [closedMarkup].
  destruct (Ascii.eqb c "<"); [discriminate |]. now rewrite IH.
Qed.

Lemma plain_count s : has_char "<" s = false -> countElements s = 0.
Proof.
  induction s as [|c s IH]; intros H; [reflexivity |].
  simpl in H. rewrite countElements_cons.
  change (startsWith "<div" (String c s))
    with (if Ascii.eqb "<" c then startsWith "div" s else false).
  destruct (Ascii.eqb "<" c); [discriminate |]. now rewrite IH.
Qed.

Lemma plain_repeat depth : has_char "<" (Js.repeat "  " depth) = false.
Proof. induction depth as [|d IH]; [reflexivity |]. simpl. exact IH. Qed.

Lemma plain_escapeHtml text : has_char "<" (escapeHtml text) = false.
Proof.
  induction text as [|c text IH]; [reflexivity |].
  cbn [escapeHtml]. rewrite has_char_append, IH, orb_false_r.
  destruct (Ascii.eqb c "&"); [reflexivity |].
  destruct (Ascii.eqb c "<") eqn:E; [reflexivity |].
  destruct (Ascii.eqb c ">"); [reflexivity |].
  destruct (Ascii.eqb c "034"); [reflexivity |].
  destruct (Ascii.eqb c "'"); [reflexivity |].
  simpl. rewrite Ascii.eqb_sym, E. reflexivity.
Qed.

Lemma plain_string_of_nat k : has_char "<" (string_of_nat k) = false.
Proof.
  apply (all_chars_lacks Regex.digit); [| reflexivity].
  unfold string_of_nat, NilZero.string_of_uint.
  destruct (Nat.to_uint k) as [|u|u|u|u|u|u|u|u|u|u]; [reflexivity | ..].
  all: match goal with |- context [NilEmpty.string_of_uint ?d] => apply (digits_uint d) end.
Qed.

Lemma plain_class k : has_char "<" ("figma-node-" +:+ string_of_nat k) = false.
Proof. rewrite has_char_append, plain_string_of_nat. reflexivity. Qed.

Lemma join_closed sep parts :
  has_char "<" sep = false -> Forall (fun h => closedMarkup h = true) parts ->
  closedMarkup (join sep parts) = true.
Proof.
  intros Hsep H. unfold join. induction H as [|h parts Hh Hparts IH]; [reflexivity |].
  cbn [String.concat]. destruct parts as [|h' parts]; [exact Hh |].
  apply closedMarkup_append; [exact Hh |].
  apply closedMarkup_append; [now apply plain_closed | exact IH].
Qed.

Lemma join_count sep parts :
  has_char "<" sep = false -> Forall (fun h => closedMarkup h = true) parts ->
  countElements (join sep parts) = countAll parts.
Proof.
  intros Hsep H. unfold join. induction H as [|h parts Hh Hparts IH]; [reflexivity |].
  cbn [String.concat countAll fold_right]. destruct parts as [|h' parts].
  - cbn [fold_right]. lia.
  - rewrite countElements_append by exact Hh.
    rewrite countElements_append by now apply plain_closed.
    rewrite (plain_count sep Hsep). unfold countAll in IH. rewrite IH. reflexivity.
Qed.

(** *** Class names *)

Lemma nat_to_uint_nonnil (n : nat) : Nat.to_uint n <> Decimal.Nil.
Proof.
  rewrite <- (DecimalNat.Unsigned.of_to n) at 1.
  rewrite DecimalNat.Unsigned.to_of. apply DecimalFacts.unorm_nonnil.
Qed.

Lemma string_of_nat_inj a b : string_of_nat a = string_of_nat b -> a = b.
Proof.
  unfold string_of_nat. intros H.
  apply DecimalNat.Unsigned.to_uint_inj.
  pose proof (NilZero.usu _ (nat_to_uint_nonnil a)) as Ha.
  pose proof (NilZero.usu _ (nat_to_uint_nonnil b)) as Hb.
  rewrite H in Ha. rewrite Ha in Hb. now injection Hb.
Qed.

Lemma class_inj a b :
  "figma-node-" +:+ string_of_nat a = "figma-node-" +:+ string_of_nat b -> a = b.
Proof. intros H. apply string_of_nat_inj. now injection H. Qed.

Lemma classesOk_empty : classesOk (mkConverter ∅ 0).
Proof.
  split.
  - intros i cls H. cbn [cssClasses] in H. now rewrite lookup_empty in H.
  - intros i j cls H. cbn [cssClasses] in H. now rewrite lookup_empty in H.
Qed.

Lemma getClassName_ok n c :
  classesOk c ->
  classesOk (snd (getClassName n c))
  /\ cssClasses (snd (getClassName n c)) !! FigmaNode.id n = Some (fst (getClassName n c))
  /\ (forall i v, cssClasses c !! i = Some v ->
                  cssClasses (snd (getClassName n c)) !! i = Some v)
  /\ has_char "<" (fst (getClassName n c)) = false.
Proof.
  intros [Hval Hinj]. unfold getClassName.
  destruct (cssClasses c !! FigmaNode.id n) as [cls|] eqn:E;
    unfold classesOk; cbn [fst snd cssClasses classCounter].
  - repeat split; auto.
    destruct (Hval _ _ E) as (k & _ & ->). apply plain_class.
  - repeat split.
    + intros i cls H. destruct (decide (FigmaNode.id n = i)) as [<- | Hne].
      * rewrite lookup_insert_eq in H. injection H as <-.
        exists (classCounter c). split; [lia | reflexivity].
      * rewrite lookup_insert_ne in H by exact Hne.
        destruct (Hval _ _ H) as (k & Hk & ->). exists k. split; [lia | reflexivity].
    + intros i j cls Hi Hj.
      destruct (decide (FigmaNode.id n = i)) as [<- | Hni];
        destruct (decide (FigmaNode.id n = j)) as [<- | Hnj]; try reflexivity.
      * rewrite lookup_insert_eq in Hi. injection Hi as <-.
        rewrite lookup_insert_ne in Hj by exact Hnj.
        destruct (Hval _ _ Hj) as (k & Hk & Ek). apply class_inj in Ek. lia.
      * rewrite lookup_insert_eq in Hj. injection Hj as <-.
        rewrite lookup_insert_ne in Hi by exact Hni.
        destruct (Hval _ _ Hi) as (k & Hk & Ek). apply class_inj in Ek. lia.
      * rewrite lookup_insert_ne in Hi by exact Hni.
        rewrite lookup_insert_ne in Hj by exact Hnj. eapply Hinj; eassumption.
    + apply lookup_insert_eq.
    + intros i v H. rewrite lookup_insert_ne; [exact H |].
      intros <-. congruence.
    + apply plain_class.
Qed.

Lemma stepOk_refl st : classesOk (converter st) -> entriesOk st -> stepOk st [] 0 st.
Proof.
  intros Hc He. repeat split; try apply Hc; auto.
  exists []. now rewrite app_nil_r.
Qed.

Lemma stepOk_trans st st1 st2 p1 p2 c1 c2 :
  stepOk st p1 c1 st1 -> stepOk st1 p2 c2 st2 -> stepOk st (p1 ++ p2) (c1 + c2) st2.
Proof.
  intros (_ & _ & Hg1 & new1 & E1 & Hp1 & Hc1) (Hc & He & Hg2 & new2 & E2 & Hp2 & Hc2).
  split; [exact Hc | split; [exact He | split]].
  - intros i cls H. apply Hg2, Hg1, H.
  - exists (new1 ++ new2). rewrite E2, E1, <- app_assoc, map_app, length_app.
    repeat split; congruence.
Qed.

Lemma pushStyle_ok n parent st :
  classesOk (converter st) -> entriesOk st ->
  stepOk st [(n, parent)] 1 (snd (pushStyle n parent st))
  /\ has_char "<" (fst (pushStyle n parent st)) = false.
Proof.
  intros Hc He. unfold pushStyle.
  destruct (getClassName_ok n (converter st) Hc) as (Hc' & Hid & Hgrow & Hplain).
  destruct (getClassName n (converter st)) as [cls c'].
  cbn [fst snd] in *. split; [| exact Hplain].
  split; [exact Hc' | split; [| split; [exact Hgrow |]]].
  - intros e Hin. cbn [nodeStyles converter] in *. unfold push in Hin.
    apply in_app_or in Hin as [Hin | [<- | []]].
    + apply Hgrow, He, Hin.
    + exact Hid.
  - exists [mkEntry cls n parent]. cbn [nodeStyles]. repeat split.
Qed.

(** *** The markup of a tree and the entries of its nodes *)

Lemma open_tag indent cls :
  has_char "<" indent = false -> has_char "<" cls = false ->
  closedMarkup (indent +:+ "<div class=" +:+ Js.dquote +:+ cls +:+ Js.dquote +:+ ">") = true
  /\ countElements (indent +:+ "<div class=" +:+ Js.dquote +:+ cls +:+ Js.dquote +:+ ">") = 1.
Proof.
  intros Hi Hc.
  assert (Hp : has_char "<" (Js.dquote +:+ cls +:+ Js.dquote +:+ ">") = false).
  { rewrite !has_char_append, Hc. reflexivity. }
  assert (H2 : closedMarkup ("<div class=" +:+ Js.dquote +:+ cls +:+ Js.dquote +:+ ">") = true).
  { apply (closedMarkup_append "<div class="); [reflexivity | now apply plain_closed]. }
  split.
  - apply closedMarkup_append; [now apply plain_closed | exact H2].
  - rewrite countElements_append by now apply plain_closed.
    rewrite (plain_count _ Hi).
    rewrite (countElements_append "<div class=") by reflexivity.
    rewrite (plain_count _ Hp). reflexivity.
Qed.

Lemma mapChildren_ok cs :
  (forall c, In c cs ->
     forall depth parent st, classesOk (converter st) -> entriesOk st ->
       closedMarkup (fst (generateHtmlWithStyles c depth parent st)) = true
       /\ stepOk st (emitted c parent)
            (countElements (fst (generateHtmlWithStyles c depth parent st)))
            (snd (generateHtmlWithStyles c depth parent st))) ->
  forall depth parent st, classesOk (converter st) -> entriesOk st ->
    Forall (fun h => closedMarkup h = true) (fst (mapChildren cs depth parent st))
    /\ stepOk st (emittedList cs parent) (countAll (fst (mapChildren cs depth parent st)))
         (snd (mapChildren cs depth parent st)).
Proof.
  induction cs as [|c cs IH]; intros Hcs depth parent st Hc He.
  - cbn [mapChildren emittedList fst snd]. split; [constructor | now apply stepOk_refl].
  - cbn [mapChildren emittedList].
    destruct (Hcs c (or_introl eq_refl) depth parent st Hc He) as [Hcl Hstep].
    destruct (generateHtmlWithStyles c depth parent st) as [h st1]. cbn [fst snd] in *.
    assert (Hok1 : classesOk (converter st1) /\ entriesOk st1).
    { destruct Hstep as (? & ? & _). now split. }
    destruct (IH (fun c' Hin => Hcs c' (or_intror Hin)) depth parent st1
                (proj1 Hok1) (proj2 Hok1)) as [Hcls Hsteps].
    destruct (mapChildren cs depth parent st1) as [hs st2]. cbn [fst snd] in *.
    split; [now constructor |].
    cbn [countAll fold_right]. eapply stepOk_trans; eassumption.
Qed.

Lemma container_markup tag parts indent :
  closedMarkup tag = true -> countElements tag = 1 ->
  Forall (fun h => closedMarkup h = true) parts -> has_char "<" indent = false ->
  closedMarkup (tag +:+ String "010" EmptyString +:+ join (String "010" EmptyString) parts
                  +:+ (String "010" EmptyString +:+ indent) +:+ "</div>") = true
  /\ countElements (tag +:+ String "010" EmptyString +:+ join (String "010" EmptyString) parts
                      +:+ (String "010" EmptyString +:+ indent) +:+ "</div>")
     = 1 + countAll parts.
Proof.
  intros Htag Hcount Hparts Hindent.
  assert (Hnl : has_char "<" (String "010" EmptyString) = false) by reflexivity.
  assert (Hj : closedMarkup (join (String "010" EmptyString) parts) = true)
    by now apply join_closed.
  assert (Hni : has_char "<" (String "010" EmptyString +:+ indent) = false).
  { rewrite has_char_append, Hindent. reflexivity. }
  assert (H3 : closedMarkup ((String "010" EmptyString +:+ indent) +:+ "</div>") = true).
  { apply closedMarkup_append; [now apply plain_closed | reflexivity]. }
  assert (H2 : closedMarkup (join (String "010" EmptyString) parts
                               +:+ (String "010" EmptyString +:+ indent) +:+ "</div>") = true).
  { now apply closedMarkup_append. }
  assert (H1 : closedMarkup (String "010" EmptyString
                               +:+ join (String "010" EmptyString) parts
                               +:+ (String "010" EmptyString +:+ indent) +:+ "</div>") = true).
  { apply (closedMarkup_append (String "010" EmptyString)); [reflexivity | exact H2]. }
  split; [now apply closedMarkup_append |].
  rewrite (countElements_append tag) by exact Htag.
  rewrite (countElements_append (String "010" EmptyString)) by reflexivity.
  rewrite (countElements_append (join _ parts)) by exact Hj.
  rewrite (countElements_append (String "010" EmptyString +:+ indent))
    by now apply plain_closed.
  rewrite Hcount, (join_count _ _ Hnl Hparts), (plain_count _ Hni).
  change (countElements (String "010" EmptyString)) with 0.
  change (countElements "</div>") with 0. lia.
Qed.

Lemma leaf_markup tag tail :
  closedMarkup tag = true -> countElements tag = 1 -> has_char "<" tail = false ->
  closedMarkup (tag +:+ tail +:+ "</div>") = true
  /\ countElements (tag +:+ tail +:+ "</div>") = 1.
Proof.
  intros Htag Hcount Htail.
  assert (H1 : closedMarkup (tail +:+ "</div>") = true).
  { apply closedMarkup_append; [now apply plain_closed | reflexivity]. }
  split; [now apply closedMarkup_append |].
  rewrite (countElements_append tag) by exact Htag.
  rewrite (countElements_append tail) by now apply plain_closed.
  rewrite Hcount, (plain_count _ Htail). reflexivity.
Qed.

(** The markup of a transparent node is the markup of its children. *)
Lemma transparent_ok n depth parent st :
  (forall cs c, FigmaNode.children n = Some cs -> In c cs ->
     forall depth parent st, classesOk (converter st) -> entriesOk st ->
       closedMarkup (fst (generateHtmlWithStyles c depth parent st)) = true
       /\ stepOk st (emitted c parent)
            (countElements (fst (generateHtmlWithStyles c depth parent st)))
            (snd (generateHtmlWithStyles c depth parent st))) ->
  classesOk (converter st) -> entriesOk st ->
  let r := match FigmaNode.children n with
           | Some ((_ :: _) as children) =>
               let '(hs, st) := mapChildren children depth parent st in
               (join (String "010" EmptyString) hs, st)
           | _ => ("", st)
           end in
  closedMarkup (fst r) = true
  /\ stepOk st (match FigmaNode.children n with
                | Some cs => emittedList cs parent
                | None => []
                end) (countElements (fst r)) (snd r).
Proof.
  intros IH Hc He.
  destruct (FigmaNode.children n) as [[|c cs]|] eqn:E; cbv zeta.
  - split; [reflexivity | now apply stepOk_refl].
  - destruct (mapChildren_ok (c :: cs) (fun c' Hin => IH _ c' eq_refl Hin)
                depth parent st Hc He) as [Hcl Hstep].
    destruct (mapChildren (c :: cs) depth parent st) as [hs st']. cbn [fst snd] in *.
    split; [now apply join_closed |].
    now rewrite join_count.
  - split; [reflexivity | now apply stepOk_refl].
Qed.

(** The traversal of a tree: the markup is closed, its elements are as many
    as the entries pushed, and the entries are those of the nodes [emitted]
    lists, in that order. *)
Lemma generateHtmlWithStyles_ok n :
  forall depth parent st, classesOk (converter st) -> entriesOk st ->
    closedMarkup (fst (generateHtmlWithStyles n depth parent st)) = true
    /\ stepOk st (emitted n parent)
         (countElements (fst (generateHtmlWithStyles n depth parent st)))
         (snd (generateHtmlWithStyles n depth parent st)).
Proof.
  induction n as [n IH] using node_induction. intros depth parent st Hc He.
  rewrite generateHtmlWithStyles_eq, emitted_eq. cbv zeta.
  destruct (negb (not_false (FigmaNode.visible n))).
  { split; [reflexivity | now apply stepOk_refl]. }
  destruct (String.eqb (FigmaNode.type n) "DOCUMENT" || String.eqb (FigmaNode.type n) "CANVAS").
  { now apply transparent_ok. }
  destruct (String.eqb (FigmaNode.type n) "TEXT").
  { destruct (pushStyle_ok n parent st Hc He) as [Hstep Hplain].
    destruct (pushStyle n parent st) as [cls st1]. cbn [fst snd] in *.
    destruct (open_tag (Js.repeat "  " depth) cls (plain_repeat depth) Hplain) as [Ht1 Ht2].
    pose proof (leaf_markup _ (escapeHtml (default "" (FigmaNode.characters n)))
                  Ht1 Ht2 (plain_escapeHtml _)) as [Hl1 Hl2].
    rewrite !append_assoc in Hl1, Hl2. cbn [fst snd].
    split; [exact Hl1 | now rewrite Hl2]. }
  destruct (isContainerType (FigmaNode.type n)).
  2: { now apply transparent_ok. }
  destruct (pushStyle_ok n parent st Hc He) as [Hstep Hplain].
  destruct (pushStyle n parent st) as [cls st1]. cbn [fst snd] in *.
  destruct (open_tag (Js.repeat "  " depth) cls (plain_repeat depth) Hplain) as [Ht1 Ht2].
  assert (Hok1 : classesOk (converter st1) /\ entriesOk st1).
  { destruct Hstep as (? & ? & _). now split. }
  destruct (FigmaNode.children n) as [[|c cs]|] eqn:E.
  - pose proof (leaf_markup _ "" Ht1 Ht2 eq_refl) as [Hl1 Hl2].
    change ("" +:+ "</div>") with "</div>" in Hl1, Hl2. cbn [fst snd]. split; [exact Hl1 |].
    rewrite Hl2. exact Hstep.
  - destruct (mapChildren_ok (c :: cs) (fun c' Hin => IH _ c' eq_refl Hin)
                (S depth) (Some n) st1 (proj1 Hok1) (proj2 Hok1)) as [Hcl Hsteps].
    destruct (mapChildren (c :: cs) (S depth) (Some n) st1) as [hs st2]. cbn [fst snd] in *.
    destruct (container_markup _ hs (Js.repeat "  " depth) Ht1 Ht2 Hcl (plain_repeat depth))
      as [Hm1 Hm2].
    split; [exact Hm1 |]. rewrite Hm2.
    exact (stepOk_trans _ _ _ _ _ _ _ Hstep Hsteps).
  - pose proof (leaf_markup _ "" Ht1 Ht2 eq_refl) as [Hl1 Hl2].
    change ("" +:+ "</div>") with "</div>" in Hl1, Hl2. cbn [fst snd]. split; [exact Hl1 |].
    rewrite Hl2. exact Hstep.
Qed.

End TraversalFacts.

(** ** The conversion of a tree *)

Section ConversionClaims.
Import Js JsFacts NumText NumFacts TraversalFacts.

Variable atan2_degrees : num -> num -> num.

Lemma concat_cons (x : string) (xs : list string) :
  String.concat "" (x :: xs) = x +:+ String.concat "" xs.
Proof.
  destruct xs as [|y ys]; cbn [String.concat]; [now rewrite append_nil_r | reflexivity].
Qed.

Lemma appendRule_eq css e :
  appendRule atan2_degrees css e =
  if hasStyle atan2_degrees e then css +:+ ruleText atan2_degrees e else css.
Proof.
  unfold appendRule, hasStyle, ruleText.
  destruct (generateNodeStyles atan2_degrees (node e) (parent e)); reflexivity.
Qed.

(** The stylesheet is the preamble and, in order, the rule of each entry
    whose style is not empty. *)
Lemma generateCssFromNodes_eq entries :
  generateCssFromNodes atan2_degrees entries =
  cssPreamble +:+
  String.concat "" (map (ruleText atan2_degrees) (List.filter (hasStyle atan2_degrees) entries)).
Proof.
  unfold generateCssFromNodes. generalize cssPreamble as css.
  induction entries as [|e entries IH]; intros css.
  - cbn [fold_left List.filter map String.concat]. now rewrite append_nil_r.
  - cbn [fold_left List.filter]. rewrite IH, appendRule_eq.
    destruct (hasStyle atan2_degrees e); [| reflexivity].
    cbn [map]. now rewrite concat_cons, append_assoc.
Qed.

(** The traversal that [convertWithStyles] starts. *)
Lemma collect_ok (n : FigmaNode.t) :
  closedMarkup (fst (generateHtmlWithStyles n 0 None (mkRun (mkConverter ∅ 0) []))) = true
  /\ classesOk (converter (snd (generateHtmlWithStyles n 0 None (mkRun (mkConverter ∅ 0) []))))
  /\ entriesOk (snd (generateHtmlWithStyles n 0 None (mkRun (mkConverter ∅ 0) [])))
  /\ map entryKey (collect n) = emitted n None
  /\ countElements (fst (generateHtmlWithStyles n 0 None (mkRun (mkConverter ∅ 0) [])))
     = length (collect n).
Proof.
  destruct (generateHtmlWithStyles_ok n 0 None (mkRun (mkConverter ∅ 0) []))
    as (Hcl & Hc & He & _ & new & E & Hp & Hn).
  - apply classesOk_empty.
  - intros e [].
  - unfold collect. rewrite E. cbn [nodeStyles app].
    split; [exact Hcl | split; [exact Hc | split; [exact He | split; [exact Hp | exact Hn]]]].
Qed.

Lemma convertWithStyles_eq (c : Converter) (n : FigmaNode.t) :
  convertWithStyles atan2_degrees c n =
  (mkOutput (fst (generateHtmlWithStyles n 0 None (mkRun (mkConverter ∅ 0) [])))
            (generateCssFromNodes atan2_degrees (collect n)),
   converter (snd (generateHtmlWithStyles n 0 None (mkRun (mkConverter ∅ 0) [])))).
Proof.
  unfold convertWithStyles, collect.
  now destruct (generateHtmlWithStyles n 0 None (mkRun (mkConverter ∅ 0) [])).
Qed.

(** C1, as amended. The traversal pushes one entry for each markup element
    it emits, for the nodes that are visible and of a recognized kind, in
    order; the stylesheet has the preamble and one rule for each entry whose
    style is not empty, so at most one rule for each element. *)
Theorem one_entry_per_element_one_rule_per_style (c : Converter) (n : FigmaNode.t) :
  let out := fst (convertWithStyles atan2_degrees c n) in
  let entries := collect n in
  let styled := List.filter (hasStyle atan2_degrees) entries in
  countElements (html out) = length entries
  /\ map entryKey entries = emitted n None
  /\ css out = cssPreamble +:+ String.concat "" (map (ruleText atan2_degrees) styled)
  /\ length styled <= countElements (html out)
  /\ (forallb (hasStyle atan2_degrees) entries = true ->
      length styled = countElements (html out)).
Proof.
  intros out entries styled. unfold out. rewrite convertWithStyles_eq. cbn [fst html css].
  destruct (collect_ok n) as (_ & _ & _ & Hp & Hn).
  fold entries in Hp, Hn |- *. rewrite Hn.
  split; [reflexivity | split; [exact Hp | split; [apply generateCssFromNodes_eq | split]]].
  - apply List.filter_length_le.
  - intros Hall. unfold styled. f_equal. apply List.forallb_filter_id. exact Hall.
Qed.

(** C7. A node whose visibility flag is false gives the empty markup and
    leaves the state as it is, whatever its subtree: no class, no entry. The
    conversion of such a node gives the empty markup and the preamble alone,
    and in every tree the elements and the entries are those of the nodes
    that [emitted] lists, which skips the node and its subtree. *)
Theorem invisible_node_contributes_nothing
    (n : FigmaNode.t) (depth : nat) (parent : option FigmaNode.t) (st : Run) :
  FigmaNode.visible n = Some false ->
  generateHtmlWithStyles n depth parent st = ("", st)
  /\ emitted n parent = []
  /\ (forall c, fst (convertWithStyles atan2_degrees c n) = mkOutput "" cssPreamble)
  /\ (forall root,
        map entryKey (collect root) = emitted root None
        /\ countElements (fst (generateHtmlWithStyles root 0 None (mkRun (mkConverter ∅ 0) [])))
           = length (emitted root None)).
Proof.
  intros Hv.
  assert (E : forall depth parent st, generateHtmlWithStyles n depth parent st = ("", st)).
  { intros. rewrite generateHtmlWithStyles_eq, Hv. reflexivity. }
  split; [apply E | split; [| split]].
  - rewrite emitted_eq, Hv. reflexivity.
  - intros c. unfold convertWithStyles. rewrite E. reflexivity.
  - intros root. destruct (collect_ok root) as (_ & _ & _ & Hp & Hn).
    split; [exact Hp |]. rewrite Hn, <- Hp. now rewrite length_map.
Qed.

(** *** Class names *)

Lemma classes_of_entries (n : FigmaNode.t) (e1 e2 : StyleEntry) :
  In e1 (collect n) -> In e2 (collect n) ->
  (className e1 = className e2 <-> FigmaNode.id (node e1) = FigmaNode.id (node e2)).
Proof.
  intros H1 H2. destruct (collect_ok n) as (_ & [_ Hinj] & He & _).
  pose proof (He e1 H1) as L1. pose proof (He e2 H2) as L2. split; intros E.
  - rewrite E in L1. eapply Hinj; eassumption.
  - rewrite E in L1. rewrite L1 in L2. now injection L2.
Qed.

Lemma classes_NoDup (entries : list StyleEntry) :
  (forall e1 e2, In e1 entries -> In e2 entries ->
                 className e1 = className e2 ->
                 FigmaNode.id (node e1) = FigmaNode.id (node e2)) ->
  List.NoDup (map (fun e => FigmaNode.id (node e)) entries) ->
  List.NoDup (map className entries).
Proof.
  induction entries as [|e entries IH]; intros H Hnd; cbn [map] in *; [constructor |].
  apply List.NoDup_cons_iff in Hnd as [Hnotin Hnd]. apply List.NoDup_cons.
  - intros Hin. apply Hnotin. apply List.in_map_iff in Hin as (e' & Ecls & Hin').
    apply List.in_map_iff. exists e'. split; [| exact Hin'].
    apply H; [now right | now left | exact Ecls].
  - apply IH; [| exact Hnd]. intros e1 e2 H1 H2. apply H; now right.
Qed.

(** C8. The result of [convertWithStyles] does not depend on the converter
    it is called on, so two fresh converters, or one converter called twice,
    give the same markup and stylesheet; within one conversion two elements
    have the same class exactly when their nodes have the same id, so nodes
    with distinct ids have distinct classes. *)
Theorem conversion_deterministic_classes_unique :
  (forall c1 c2 n,
     fst (convertWithStyles atan2_degrees c1 n) = fst (convertWithStyles atan2_degrees c2 n))
  /\ (forall c n,
        fst (convertWithStyles atan2_degrees (snd (convertWithStyles atan2_degrees c n)) n)
        = fst (convertWithStyles atan2_degrees c n))
  /\ (forall n e1 e2,
        In e1 (collect n) -> In e2 (collect n) ->
        (className e1 = className e2 <-> FigmaNode.id (node e1) = FigmaNode.id (node e2)))
  /\ (forall n,
        List.NoDup (map (fun e => FigmaNode.id (node e)) (collect n)) ->
        List.NoDup (map className (collect n))).
Proof.
  split; [| split; [| split]].
  - intros c1 c2 n. now rewrite !convertWithStyles_eq.
  - intros c n. now rewrite !convertWithStyles_eq.
  - apply classes_of_entries.
  - intros n. apply classes_NoDup. intros e1 e2 H1 H2.
    apply (proj1 (classes_of_entries n e1 e2 H1 H2)).
Qed.

(** *** Termination *)

Lemma generateHtmlFuel_eq fuel n depth parent st :
  generateHtmlFuel (S fuel) n depth parent st =
  if negb (not_false (FigmaNode.visible n)) then Some ("", st)
  else
    let indent := Js.repeat "  " depth in
    let ty := FigmaNode.type n in
    if String.eqb ty "DOCUMENT" || String.eqb ty "CANVAS" then
      match FigmaNode.children n with
      | Some ((_ :: _) as children) =>
          match mapChildrenFuel fuel children depth None st with
          | Some (hs, st) => Some (Js.join (String "010" EmptyString) hs, st)
          | None => None
          end
      | _ => Some ("", st)
      end
    else if String.eqb ty "TEXT" then
      let '(className, st) := pushStyle n parent st in
      let text := default "" (FigmaNode.characters n) in
      Some (indent +:+ "<div class=" +:+ Js.dquote +:+ className +:+ Js.dquote +:+ ">" +:+ escapeHtml text
              +:+ "</div>", st)
    else if isContainerType ty then
      let '(divClass, st) := pushStyle n parent st in
      let html := indent +:+ "<div class=" +:+ Js.dquote +:+ divClass +:+ Js.dquote +:+ ">" in
      match FigmaNode.children n with
      | Some ((_ :: _) as children) =>
          match mapChildrenFuel fuel children (S depth) (Some n) st with
          | Some (hs, st) =>
              Some (html +:+ String "010" EmptyString
                      +:+ Js.join (String "010" EmptyString) hs
                      +:+ (String "010" EmptyString +:+ indent) +:+ "</div>", st)
          | None => None
          end
      | _ => Some (html +:+ "</div>", st)
      end
    else
      match FigmaNode.children n with
      | Some ((_ :: _) as children) =>
          match mapChildrenFuel fuel children depth parent st with
          | Some (hs, st) => Some (Js.join (String "010" EmptyString) hs, st)
          | None => None
          end
      | _ => Some ("", st)
      end.
Proof. reflexivity. Qed.

Lemma mapChildrenFuel_enough fuel cs :
  (forall c, In c cs ->
     forall depth parent st,
       generateHtmlFuel fuel c depth parent st
       = Some (generateHtmlWithStyles c depth parent st)) ->
  forall depth parent st,
    mapChildrenFuel fuel cs depth parent st = Some (mapChildren cs depth parent st).
Proof.
  induction cs as [|c cs IH]; intros H depth parent st; [reflexivity |].
  change (mapChildrenFuel fuel (c :: cs) depth parent st)
    with (match generateHtmlFuel fuel c depth parent st with
          | Some (h, st) =>
              match mapChildrenFuel fuel cs depth parent st with
              | Some (hs, st) => Some (h :: hs, st)
              | None => None
              end
          | None => None
          end).
  cbn [mapChildren]. rewrite (H c (or_introl eq_refl)).
  destruct (generateHtmlWithStyles c depth parent st) as [h st1].
  rewrite (IH (fun c' Hin => H c' (or_intror Hin))).
  now destruct (mapChildren cs depth parent st1).
Qed.

(** The recursion returns within as many nested calls as the tree is deep. *)
Lemma generateHtmlFuel_enough n :
  forall fuel depth parent st,
    FigmaNode.depth n < fuel ->
    generateHtmlFuel fuel n depth parent st = Some (generateHtmlWithStyles n depth parent st).
Proof.
  induction n as [n IH] using node_induction. intros fuel depth parent st Hfuel.
  destruct fuel as [|fuel]; [lia |].
  rewrite generateHtmlFuel_eq, generateHtmlWithStyles_eq. cbv zeta.
  assert (Hmap : forall cs, FigmaNode.children n = Some cs ->
                 forall depth parent st,
                   mapChildrenFuel fuel cs depth parent st
                   = Some (mapChildren cs depth parent st)).
  { intros cs Hcs. apply mapChildrenFuel_enough. intros c Hin d p s.
    apply (IH cs c Hcs Hin). pose proof (depth_children n cs c Hcs Hin). lia. }
  destruct (negb (not_false (FigmaNode.visible n))); [reflexivity |].
  destruct (String.eqb (FigmaNode.type n) "DOCUMENT" || String.eqb (FigmaNode.type n) "CANVAS").
  { destruct (FigmaNode.children n) as [[|c cs]|] eqn:E; try reflexivity.
    rewrite (Hmap _ eq_refl). now destruct (mapChildren (c :: cs) depth None st). }
  destruct (String.eqb (FigmaNode.type n) "TEXT").
  { now destruct (pushStyle n parent st). }
  destruct (isContainerType (FigmaNode.type n)).
  - destruct (pushStyle n parent st) as [cls st1].
    destruct (FigmaNode.children n) as [[|c cs]|] eqn:E; try reflexivity.
    rewrite (Hmap _ eq_refl). now destruct (mapChildren (c :: cs) (S depth) (Some n) st1).
  - destruct (FigmaNode.children n) as [[|c cs]|] eqn:E; try reflexivity.
    rewrite (Hmap _ eq_refl). now destruct (mapChildren (c :: cs) depth parent st).
Qed.

(** C9. [convertWithStyles] returns a result for every tree: run as the
    recursive method it is, the traversal needs no more nested calls than the
    tree is deep plus one, and returns the result of the structural
    function. *)
Theorem convertWithStyles_terminates (c : Converter) (n : FigmaNode.t) :
  exists (out : Output) (c' : Converter),
    convertWithStyles atan2_degrees c n = (out, c')
    /\ forall fuel, FigmaNode.depth n < fuel ->
                    convertWithStylesFuel atan2_degrees fuel c n = Some (out, c').
Proof.
  destruct (convertWithStyles atan2_degrees c n) as [out c'] eqn:E.
  exists out, c'. split; [reflexivity |]. intros fuel Hfuel.
  unfold convertWithStylesFuel. rewrite (generateHtmlFuel_enough n fuel 0 None _ Hfuel).
  unfold convertWithStyles in E.
  destruct (generateHtmlWithStyles n 0 None (mkRun (mkConverter ∅ 0) [])) as [h st].
  now rewrite E.
Qed.


End ConversionClaims.

(** * Further properties of the converter *)

(** ** [escapeHtml] *)

Module EscapeFacts.
Import Js JsFacts NumText NumFacts.

Lemma length_append (a b : string) :
  String.length (a +:+ b) = String.length a + String.length b.
Proof. induction a as [|c a IH]; simpl; [reflexivity | now rewrite IH]. Qed.

(** What [escapeHtml] puts for one character. *)
Lemma escapeHtml_cons (c : ascii) (rest : string) :
  escapeHtml (String c rest) =
  (if Ascii.eqb c "&" then "&amp;"
   else if Ascii.eqb c "<" then "&lt;"
   else if Ascii.eqb c ">" then "&gt;"
   else if Ascii.eqb c "034" then "&quot;"
   else if Ascii.eqb c "'" then "&#039;"
   else String c EmptyString) +:+ escapeHtml rest.
Proof. reflexivity. Qed.

(** The case analysis on a character [c] of the text. *)
Ltac escape_cases c :=
  let E := fresh "E" in
  destruct (Ascii.eqb c "&") eqn:E;
  [ apply Ascii.eqb_eq in E
  | let E := fresh "E" in
    destruct (Ascii.eqb c "<") eqn:E;
    [ apply Ascii.eqb_eq in E
    | let E := fresh "E" in
      destruct (Ascii.eqb c ">") eqn:E;
      [ apply Ascii.eqb_eq in E
      | let E := fresh "E" in
        destruct (Ascii.eqb c "034") eqn:E;
        [ apply Ascii.eqb_eq in E
        | let E := fresh "E" in
          destruct (Ascii.eqb c "'") eqn:E;
          [ apply Ascii.eqb_eq in E | ] ] ] ] ].

Ltac use_eqb :=
  repeat match goal with
         | H : Ascii.eqb ?c ?x = false |- context [Ascii.eqb ?c ?x] => rewrite H
         | H : Ascii.eqb ?c ?x = false |- context [Ascii.eqb ?x ?c] =>
             rewrite (Ascii.eqb_sym x c), H
         end.

Lemma escapeHtml_lacks (ch : ascii) (text : string) :
  isSpecial ch = true -> Ascii.eqb ch "&" = false ->
  has_char ch (escapeHtml text) = false.
Proof.
  intros Hs Ha.
  assert (Hch : ch = "<"%char \/ ch = ">"%char \/ ch = "034"%char \/ ch = "'"%char).
  { unfold isSpecial in Hs. rewrite Ha in Hs. cbn [orb] in Hs.
    escape_cases ch; auto; discriminate. }
  induction text as [|c text IH]; [reflexivity |].
  rewrite escapeHtml_cons, has_char_append, IH, orb_false_r.
  destruct Hch as [-> | [-> | [-> | ->]]];
    escape_cases c; try reflexivity; cbn [has_char]; use_eqb; reflexivity.
Qed.

Lemma length_escapeHtml (text : string) :
  String.length text <= String.length (escapeHtml text).
Proof.
  induction text as [|c text IH]; [reflexivity |].
  rewrite escapeHtml_cons, length_append.
  escape_cases c; cbn [String.length]; lia.
Qed.

Lemma escapeHtml_nonempty (c : ascii) (rest : string) :
  exists d s, escapeHtml (String c rest) = String d s.
Proof.
  rewrite escapeHtml_cons. escape_cases c; cbn [String.append]; eauto.
Qed.

(** Two texts with the same escaped text start with the same character. *)
Lemma escapeHtml_head (c d : ascii) (a b : string) :
  escapeHtml (String c a) = escapeHtml (String d b) -> c = d /\ escapeHtml a = escapeHtml b.
Proof.
  rewrite !escapeHtml_cons. intros H.
  escape_cases c; escape_cases d; subst; cbn [String.append] in H;
    try discriminate H; injection H; intros; subst;
    try (split; [reflexivity | assumption]);
    try discriminate.
Qed.

Lemma isSpecial_false (c : ascii) :
  isSpecial c = false ->
  Ascii.eqb c "&" = false /\ Ascii.eqb c "<" = false /\ Ascii.eqb c ">" = false
  /\ Ascii.eqb c "034" = false /\ Ascii.eqb c "'" = false.
Proof.
  unfold isSpecial. intros H.
  destruct (Ascii.eqb c "&"), (Ascii.eqb c "<"), (Ascii.eqb c ">"), (Ascii.eqb c "034"),
    (Ascii.eqb c "'"); try discriminate H; repeat split.
Qed.

Lemma escapeHtml_plain_char (c : ascii) (rest : string) :
  isSpecial c = false -> escapeHtml (String c rest) = String c (escapeHtml rest).
Proof.
  intros H. apply isSpecial_false in H as (H1 & H2 & H3 & H4 & H5).
  rewrite escapeHtml_cons, H1, H2, H3, H4, H5. reflexivity.
Qed.

Lemma escapeHtml_special_char (c : ascii) (rest : string) :
  isSpecial c = true ->
  String.length (String c rest) < String.length (escapeHtml (String c rest)).
Proof.
  intros H. rewrite escapeHtml_cons, length_append.
  pose proof (length_escapeHtml rest).
  unfold isSpecial in H.
  escape_cases c; cbn [String.length]; try lia; discriminate H.
Qed.

End EscapeFacts.

(** X1. The escaped text of an element has none of the characters [<], [>],
    the double quote and the single quote, whatever the text of the node. *)
Theorem escapeHtml_markup_free (text : string) :
  Js.has_char "<" (escapeHtml text) = false
  /\ Js.has_char ">" (escapeHtml text) = false
  /\ Js.has_char "034" (escapeHtml text) = false
  /\ Js.has_char "'" (escapeHtml text) = false.
Proof. repeat split; now apply EscapeFacts.escapeHtml_lacks. Qed.

(** X2. Two texts have the same escaped text only when they are the same
    text: escaping loses nothing. *)
Theorem escapeHtml_injective (a b : string) :
  escapeHtml a = escapeHtml b <-> a = b.
Proof.
  split; [| now intros ->].
  revert b. induction a as [|c a IH]; intros [|d b] H.
  - reflexivity.
  - destruct (EscapeFacts.escapeHtml_nonempty d b) as (x & s & E).
    rewrite E in H. discriminate H.
  - destruct (EscapeFacts.escapeHtml_nonempty c a) as (x & s & E).
    rewrite E in H. discriminate H.
  - apply EscapeFacts.escapeHtml_head in H as [-> H]. f_equal. now apply IH.
Qed.

(** X3. A text is left as it is exactly when it has none of the five
    characters [&], [<], [>], double quote, single quote; so escaping an
    escaped text changes it again as soon as one character was replaced. *)
Theorem escapeHtml_fixed_iff_plain (text : string) :
  escapeHtml text = text <->
  NumText.all_chars (fun c => negb (isSpecial c)) text = true.
Proof.
  induction text as [|c text IH]; [split; reflexivity |].
  cbn [NumText.all_chars]. destruct (isSpecial c) eqn:Ec; cbn [negb andb].
  - split; [| discriminate]. intros H.
    pose proof (EscapeFacts.escapeHtml_special_char c text Ec) as Hlen.
    rewrite H in Hlen. lia.
  - rewrite (EscapeFacts.escapeHtml_plain_char c text Ec), <- IH.
    split; [now intros [= ->] | now intros ->].
Qed.

(** X4. The escaped text of a concatenation is the concatenation of the
    escaped texts. *)
Theorem escapeHtml_append (a b : string) :
  escapeHtml (a +:+ b) = escapeHtml a +:+ escapeHtml b.
Proof.
  induction a as [|c a IH]; [reflexivity |].
  cbn [String.append]. rewrite !EscapeFacts.escapeHtml_cons, IH.
  now rewrite JsFacts.append_assoc.
Qed.

(** ** [getClassName] *)


(** ** More on regular expressions *)

Module MatchFacts.
Import Js JsFacts NumText NumFacts Regex RegexFacts.

Lemma lit_None l s : startsWith l s = false -> lit l s = None.
Proof.
  intros H. destruct (lit l s) as [s'|] eqn:E; [| reflexivity].
  apply lit_startsWith in E. congruence.
Qed.

Lemma lit_inv l s s' : lit l s = Some s' -> s = l +:+ s'.
Proof.
  revert s. induction l as [|a l IH]; intros s H.
  - simpl in H. now injection H as ->.
  - destruct s as [|b s]; [discriminate |]. simpl in H.
    destruct (Ascii.eqb a b) eqn:E; [| discriminate].
    apply Ascii.eqb_eq in E. subst b. simpl. f_equal. now apply IH.
Qed.

Lemma take_append (a b : string) : take (String.length a) (a +:+ b) = a.
Proof. induction a as [|c a IH]; simpl; [now destruct b | now rewrite IH]. Qed.

(** A greedy repetition at the end of the input takes the whole run. *)
Lemma star_run_end p run pos k r :
  all_chars p run = true -> k (pos + String.length run) "" = Some r ->
  star p pos run k = Some r.
Proof.
  revert pos. induction run as [|d run IH]; intros pos Hrun Hk.
  - simpl in *. now rewrite Nat.add_0_r in Hk.
  - simpl in Hrun. apply andb_prop in Hrun as [Hd Hrun].
    simpl. rewrite Hd. rewrite (IH (S pos)); auto.
    simpl in Hk. now rewrite Nat.add_succ_r in Hk.
Qed.

(** What a greedy repetition that succeeds has taken. *)
Lemma star_inv p s pos k r :
  star p pos s k = Some r ->
  exists run rest, s = run +:+ rest /\ all_chars p run = true
                   /\ k (pos + String.length run) rest = Some r.
Proof.
  revert pos. induction s as [|c s IH]; intros pos H.
  - exists "", "". simpl in *. now rewrite Nat.add_0_r.
  - simpl in H. destruct (p c) eqn:Ec.
    + destruct (star p (S pos) s k) as [r'|] eqn:E.
      * injection H as <-. destruct (IH _ E) as (run & rest & -> & Hrun & Hk).
        exists (String c run), rest. simpl. rewrite Ec, Hrun.
        now rewrite Nat.add_succ_r.
      * exists "", (String c s). simpl. now rewrite Nat.add_0_r.
    + exists "", (String c s). simpl. now rewrite Nat.add_0_r.
Qed.

End MatchFacts.

(** ** [extractFileKey] *)

Module IndexFacts.
Import Js JsFacts NumText NumFacts Regex RegexFacts MatchFacts Index.

Lemma group_inv q s caps :
  matchSeq [Grp [Plus alnum]] q s [] found = Some caps ->
  exists c run rest,
    s = String c (run +:+ rest) /\ alnum c = true /\ all_chars alnum run = true
    /\ caps = [String c run].
Proof.
  cbn [matchSeq matchOne]. destruct s as [|c s]; [discriminate |].
  destruct (alnum c) eqn:Ec; [| discriminate].
  intros H. apply star_inv in H as (run & rest & -> & Hrun & Hk).
  exists c, run, rest. repeat split; auto.
  unfold found in Hk. injection Hk as <-. cbn [app]. f_equal.
  match goal with
  | |- context [take ?n _] => replace n with (S (String.length run)) by lia
  end.
  cbn [take]. now rewrite take_append.
Qed.

Lemma group_run q c run rest :
  alnum c = true -> all_chars alnum run = true ->
  match rest with EmptyString => true | String d _ => negb (alnum d) end = true ->
  matchSeq [Grp [Plus alnum]] q (String c (run +:+ rest)) [] found = Some [String c run].
Proof.
  intros Hc Hrun Hrest. cbn [matchSeq matchOne]. rewrite Hc.
  assert (E : [] ++ [take (S q + String.length run - q) (String c (run +:+ rest))]
              = [String c run]).
  { replace (S q + String.length run - q) with (S (String.length run)) by lia.
    cbn [take app]. now rewrite take_append. }
  destruct rest as [|d rest].
  - rewrite append_nil_r in *. apply star_run_end; [exact Hrun |].
    unfold found. now rewrite E.
  - apply star_run; [exact Hrun | now apply negb_true_iff |].
    unfold found. now rewrite E.
Qed.

(** One alternative of the pattern, at one position. *)
Lemma alternative_eq kind pos s :
  matchSeq [Lit "figma.com/"; Lit kind; Lit "/"; Grp [Plus alnum]] pos s [] found =
  match lit "figma.com/" s with
  | Some s1 =>
      match lit kind s1 with
      | Some s2 =>
          match lit "/" s2 with
          | Some s3 =>
              matchSeq [Grp [Plus alnum]]
                (pos + String.length "figma.com/" + String.length kind + String.length "/")
                s3 [] found
          | None => None
          end
      | None => None
      end
  | None => None
  end.
Proof.
  rewrite matchSeq_cons. cbn [matchOne].
  destruct (lit "figma.com/" s) as [s1|]; [| reflexivity].
  rewrite matchSeq_cons. cbn [matchOne].
  destruct (lit kind s1) as [s2|]; [| reflexivity].
  rewrite matchSeq_cons. cbn [matchOne].
  destruct (lit "/" s2) as [s3|]; reflexivity.
Qed.

Lemma matchAlt_eq pos s :
  matchAlt fileUrl pos s =
  match matchSeq [Lit "figma.com/"; Lit "file"; Lit "/"; Grp [Plus alnum]] pos s [] found with
  | Some caps => Some caps
  | None =>
      match matchSeq [Lit "figma.com/"; Lit "design"; Lit "/"; Grp [Plus alnum]] pos s []
              found with
      | Some caps => Some caps
      | None => None
      end
  end.
Proof. reflexivity. Qed.

(** Where the input does not go on with the host, no alternative matches. *)
Lemma matchAlt_no_host pos s : startsWith "figma.com/" s = false -> matchAlt fileUrl pos s = None.
Proof.
  intros H. rewrite matchAlt_eq, !alternative_eq. now rewrite (lit_None _ _ H).
Qed.

(** A match captures one run of letters and digits that is not empty. *)
Lemma matchAlt_inv pos s caps :
  matchAlt fileUrl pos s = Some caps ->
  exists c run, caps = [String c run] /\ alnum c = true /\ all_chars alnum run = true.
Proof.
  rewrite matchAlt_eq, !alternative_eq.
  destruct (lit "figma.com/" s) as [s1|]; [| discriminate].
  assert (H : forall kind r,
             match lit kind s1 with
             | Some s2 =>
                 match lit "/" s2 with
                 | Some s3 =>
                     matchSeq [Grp [Plus alnum]]
                       (pos + String.length "figma.com/" + String.length kind
                        + String.length "/") s3 [] found
                 | None => None
                 end
             | None => None
             end = Some r ->
             exists c run, r = [String c run] /\ alnum c = true /\ all_chars alnum run = true).
  { intros kind r Hr. destruct (lit kind s1) as [s2|]; [| discriminate].
    destruct (lit "/" s2) as [s3|]; [| discriminate].
    apply group_inv in Hr as (c & run & rest & _ & Hc & Hrun & ->). eauto. }
  intros Hm.
  destruct (match lit "file" s1 with Some _ => _ | None => _ end) as [r|] eqn:E1.
  - injection Hm as <-. now apply (H "file").
  - destruct (match lit "design" s1 with Some _ => _ | None => _ end) as [r|] eqn:E2;
      [| discriminate].
    injection Hm as <-. now apply (H "design").
Qed.

Lemma searchAlt_inv s pos caps :
  searchAlt fileUrl pos s = Some caps ->
  exists c run, caps = [String c run] /\ alnum c = true /\ all_chars alnum run = true.
Proof.
  revert pos. induction s as [|x s IH]; intros pos H; cbn [searchAlt] in H.
  - destruct (matchAlt fileUrl pos "") as [r|] eqn:E; [| discriminate].
    injection H as <-. eapply matchAlt_inv; eassumption.
  - destruct (matchAlt fileUrl pos (String x s)) as [r|] eqn:E.
    + injection H as <-. eapply matchAlt_inv; eassumption.
    + eapply IH; eassumption.
Qed.

Lemma searchAlt_no_host s pos :
  includes "figma.com/" s = false -> searchAlt fileUrl pos s = None.
Proof.
  revert pos. induction s as [|x s IH]; intros pos H; cbn [searchAlt includes] in *.
  - destruct (startsWith "figma.com/" "") eqn:E; [discriminate |].
    now rewrite (matchAlt_no_host pos _ E).
  - destruct (startsWith "figma.com/" (String x s)) eqn:E; [discriminate |].
    rewrite (matchAlt_no_host pos _ E). now apply IH.
Qed.

(** An input that does not hold the host is returned as it is. *)
Lemma extractFileKey_no_host input :
  includes "figma.com/" input = false -> extractFileKey input = input.
Proof. intros H. unfold extractFileKey. now rewrite searchAlt_no_host. Qed.

(** The search skips a prefix without the first letter of the host. *)
Lemma searchAlt_skip pre s pos :
  has_char "f" pre = false ->
  searchAlt fileUrl pos (pre +:+ s) = searchAlt fileUrl (pos + String.length pre) s.
Proof.
  revert pos. induction pre as [|x pre IH]; intros pos H.
  - simpl. now rewrite Nat.add_0_r.
  - cbn [has_char] in H. destruct (Ascii.eqb "f" x) eqn:E; [discriminate |].
    cbn [String.append searchAlt].
    rewrite matchAlt_no_host by (cbn [startsWith]; now rewrite E).
    rewrite (IH _ H). cbn [String.length]. f_equal. lia.
Qed.

Lemma searchAlt_found pos s caps :
  matchAlt fileUrl pos s = Some caps -> searchAlt fileUrl pos s = Some caps.
Proof. intros H. destruct s; cbn [searchAlt]; now rewrite H. Qed.

End IndexFacts.

(** X6. An input that does not hold the text [figma.com/], such as a bare
    file key, is returned as it is. *)
Theorem extractFileKey_plain_key (input : string) :
  Js.includes "figma.com/" input = false -> Index.extractFileKey input = input.
Proof. apply IndexFacts.extractFileKey_no_host. Qed.

(** X7. From a URL whose path is [file/KEY] or [design/KEY] the key is
    extracted: the run of letters and digits after the slash, up to the end
    of the input or to the first other character. The text before the host
    is any text without the letter f. *)
Theorem extractFileKey_url (pre kind : string) (k : ascii) (key rest : string) :
  Js.has_char "f" pre = false ->
  kind = "file" \/ kind = "design" ->
  Index.alnum k = true -> NumText.all_chars Index.alnum key = true ->
  match rest with EmptyString => true | String d _ => negb (Index.alnum d) end = true ->
  Index.extractFileKey (pre +:+ "figma.com/" +:+ kind +:+ "/" +:+ String k key +:+ rest)
  = String k key.
Proof.
  intros Hpre Hkind Hk Hkey Hrest. unfold Index.extractFileKey.
  rewrite (IndexFacts.searchAlt_skip _ _ _ Hpre).
  rewrite (IndexFacts.searchAlt_found _ _ [String k key]); [reflexivity |].
  rewrite IndexFacts.matchAlt_eq, !IndexFacts.alternative_eq.
  rewrite RegexFacts.lit_append.
  destruct Hkind as [-> | ->].
  - rewrite RegexFacts.lit_append. rewrite (RegexFacts.lit_append "/").
    cbn [String.append]. now rewrite IndexFacts.group_run.
  - change (Regex.lit "file" ("design" +:+ "/" +:+ String k key +:+ rest)) with (@None string).
    cbv iota.
    rewrite RegexFacts.lit_append. rewrite (RegexFacts.lit_append "/").
    cbn [String.append]. now rewrite IndexFacts.group_run.
Qed.

(** X8. The result of [extractFileKey] is the input itself or a run of
    letters and digits that is not empty, and extracting again from the
    result changes nothing. *)
Theorem extractFileKey_idempotent (input : string) :
  (Index.extractFileKey input = input
   \/ (Index.extractFileKey input <> ""
       /\ NumText.all_chars Index.alnum (Index.extractFileKey input) = true))
  /\ Index.extractFileKey (Index.extractFileKey input) = Index.extractFileKey input.
Proof.
  assert (H : Index.extractFileKey input = input
              \/ (Index.extractFileKey input <> ""
                  /\ NumText.all_chars Index.alnum (Index.extractFileKey input) = true)).
  { unfold Index.extractFileKey.
    destruct (Index.searchAlt Index.fileUrl 0 input) as [caps|] eqn:E; [| now left].
    apply IndexFacts.searchAlt_inv in E as (c & run & -> & Hc & Hrun).
    right. split; [discriminate |]. cbn [NumText.all_chars]. now rewrite Hc, Hrun. }
  split; [exact H |].
  destruct H as [H | [_ H]]; [now rewrite !H |].
  apply IndexFacts.extractFileKey_no_host.
  apply (JsFacts.lacks_char_not_includes "/"); [reflexivity |].
  now apply (NumFacts.all_chars_lacks Index.alnum).
Qed.

(** ** The declarations of a style *)

(** A declaration that the pattern of a border line does not match. *)
Ltac no_border_line :=
  unfold Patterns.borderLine; rewrite RegexFacts.test_bol; reflexivity.

(** A property of declarations that their first characters decide, for each
    declaration a block can add. *)
Ltac line_cases :=
  repeat match goal with
         | |- _ /\ _ => split
         | |- forall _, _ => intro
         | H : TextLine _ |- _ => destruct H
         | H : LayoutLine _ |- _ => destruct H
         | H : FixLine _ |- _ => destruct H
         end;
  try reflexivity; try discriminate; try no_border_line; auto.

(** The declarations of the blocks before "Text styles", case by case. *)
Ltac early_lines tac :=
  unfold linesBeforeText;
  repeat (apply Forall_app; split);
  unfold positionAndSize, backgroundFill, strokeBorders, applyBorderRadius,
    nodeOpacity, effectShadows, clipping, Js.push;
  cbn [not_false]; cbv beta iota;
  destruct_matches; cbn [app];
  repeat constructor; tac.

Lemma has_char_rgba (c : FigmaColor.t) (o : option num) (ch : ascii) :
  NumText.numChar ch = false -> Js.has_char ch "rgba(, )" = false ->
  Js.has_char ch (rgbaToString c o) = false.
Proof.
  intros Hn Hl. unfold rgbaToString.
  assert (H4 : Js.has_char ch "rgba(" = false /\ Js.has_char ch ", " = false
               /\ Js.has_char ch ")" = false /\ Js.has_char ch "rgb(" = false).
  { simpl in Hl |- *.
    destruct (Ascii.eqb ch "r"), (Ascii.eqb ch "g"), (Ascii.eqb ch "b"),
      (Ascii.eqb ch "a"), (Ascii.eqb ch "("), (Ascii.eqb ch ","), (Ascii.eqb ch " "),
      (Ascii.eqb ch ")"); try discriminate; auto. }
  destruct H4 as (Ha & Hb & Hc & Hd).
  destruct (Num.eqb _ Num.one);
    rewrite !JsFacts.has_char_append, ?Ha, ?Hb, ?Hc, ?Hd, !NumFacts.toString_lacks by exact Hn; reflexivity.
Qed.

(** A declaration without the letter k does not include [background-color]. *)
Ltac no_background :=
  apply (JsFacts.lacks_char_not_includes "k"); [reflexivity |];
  unfold px2;
  rewrite ?JsFacts.has_char_append, ?NumFacts.toString_lacks, ?has_char_rgba by reflexivity;
  reflexivity.

Section StyleFacts.
Import Js JsFacts NumText NumFacts Regex RegexFacts RadiusFacts.

Variable atan2_degrees : num -> num -> num.

(** Without a border line the post-processing step changes nothing. *)
Lemma fixDoubleBorders_no_border styles :
  Forall (fun l => Regex.test Patterns.borderLine l = false) styles ->
  fixDoubleBorders styles = styles.
Proof.
  intros H. unfold fixDoubleBorders.
  destruct (find (includes "border-radius:") styles) as [rl|]; [| reflexivity].
  destruct (find (Regex.test Patterns.borderLine) styles) as [bl|] eqn:E; [| reflexivity].
  apply List.find_some in E as [Hin Hb].
  rewrite List.Forall_forall in H. rewrite (H _ Hin) in Hb. discriminate.
Qed.

Lemma in_position n parent l :
  In l (positionAndSize n parent []) -> In l (linesBeforeText atan2_degrees n parent).
Proof. intros H. unfold linesBeforeText. apply in_or_app. now left. Qed.

Lemma in_background n parent l :
  In l (backgroundFill atan2_degrees n []) -> In l (linesBeforeText atan2_degrees n parent).
Proof.
  intros H. unfold linesBeforeText. apply in_or_app. right. apply in_or_app. now left.
Qed.

Lemma in_stroke n parent l :
  In l (strokeBorders n (borderRadius n) []) ->
  In l (linesBeforeText atan2_degrees n parent).
Proof.
  intros H. unfold linesBeforeText.
  apply in_or_app. right. apply in_or_app. right. apply in_or_app. now left.
Qed.

Lemma in_radius n parent l :
  In l (applyBorderRadius (borderRadius n) []) ->
  In l (linesBeforeText atan2_degrees n parent).
Proof.
  intros H. unfold linesBeforeText.
  apply in_or_app. right. apply in_or_app. right. apply in_or_app. right.
  apply in_or_app. now left.
Qed.


(** *** Position and size *)

Lemma positionAndSize_relative n parent box :
  FigmaNode.absoluteBoundingBox n = Some box ->
  match parent with
  | None => true
  | Some p => truthy_str (FigmaNode.layoutMode p)
  end = true ->
  positionAndSize n parent [] =
  [ "  position: relative;";
    "  width: " +:+ px2 (BoundingBox.width box) +:+ "px;";
    (if negb (String.eqb (FigmaNode.type n) "TEXT") then "  height: " else "  min-height: ")
      +:+ px2 (BoundingBox.height box) +:+ "px;" ].
Proof.
  intros Hn Hp. unfold positionAndSize. rewrite Hn.
  destruct parent as [p|]; [rewrite Hp |]; now destruct (negb _).
Qed.

(** X9. A node with a bounding box that has no parent, or whose parent has a
    truthy [layoutMode], is positioned relatively: its style declares
    [position: relative], no other position, and neither [left] nor [top]. *)
Theorem relative_position_without_offsets
    (n : FigmaNode.t) (parent : option FigmaNode.t) (box : BoundingBox.t) :
  FigmaNode.absoluteBoundingBox n = Some box ->
  match parent with
  | None => true
  | Some p => truthy_str (FigmaNode.layoutMode p)
  end = true ->
  let lines := nodeStyleLines atan2_degrees n parent in
  In "  position: relative;" lines
  /\ Forall (fun l =>
               (startsWith "  position:" l = true -> l = "  position: relative;")
               /\ startsWith "  left:" l = false /\ startsWith "  top:" l = false) lines.
Proof.
  intros Hn Hp lines.
  pose proof (positionAndSize_relative n parent box Hn Hp) as Epos.
  split.
  - apply nodeStyleLines_keeps; [| reflexivity | no_border_line].
    apply in_position. rewrite Epos. simpl. auto.
  - apply nodeStyleLines_Forall; try (intros; line_cases; fail).
    + unfold linesBeforeText. rewrite Epos.
      apply Forall_app. split.
      * destruct (negb _); repeat constructor; line_cases.
      * early_lines line_cases.
    + intros _ E. congruence.
    + early_lines line_cases.
    + early_lines line_cases.
Qed.


End StyleFacts.

(** ** Strokes, corner radii and opacity *)

Module BorderFacts.
Import Js JsFacts NumText NumFacts Regex RegexFacts MatchFacts RadiusFacts.

Lemma pow10_pos (e : nat) : (0 < Num.pow10 e)%Z.
Proof. apply Z.pow_pos_nonneg; lia. Qed.

(** A value that is not positive differs from a positive value. *)
Lemma eqb_nonpos_pos (a b : num) :
  (Num.mant a <= 0)%Z -> (0 < Num.mant b)%Z -> Num.eqb a b = false.
Proof.
  intros Ha Hb. unfold Num.eqb, Num.compare.
  pose proof (pow10_pos (Num.dexp a)). pose proof (pow10_pos (Num.dexp b)).
  destruct (Z.compare_spec (Num.mant a * Num.pow10 (Num.dexp b))
                           (Num.mant b * Num.pow10 (Num.dexp a))); try reflexivity; nia.
Qed.

Lemma eqb_pos_nonpos (a b : num) :
  (0 < Num.mant a)%Z -> (Num.mant b <= 0)%Z -> Num.eqb a b = false.
Proof.
  intros Ha Hb. unfold Num.eqb, Num.compare.
  pose proof (pow10_pos (Num.dexp a)). pose proof (pow10_pos (Num.dexp b)).
  destruct (Z.compare_spec (Num.mant a * Num.pow10 (Num.dexp b))
                           (Num.mant b * Num.pow10 (Num.dexp a))); try reflexivity; nia.
Qed.

Lemma gtb_false (x : num) : Num.gtb x Num.zero = false <-> (Num.mant x <= 0)%Z.
Proof.
  destruct (Num.gtb x Num.zero) eqn:E.
  - apply gtb_zero in E. split; [discriminate | lia].
  - split; [| reflexivity]. intros _.
    destruct (Z.lt_ge_cases 0 (Num.mant x)) as [H | H]; [| lia].
    apply gtb_zero in H. congruence.
Qed.

(** A radius string that starts with the digit 0 is not "top only". *)
Lemma topOnly_zero_head (rest : string) :
  test Patterns.topOnly (String "0" rest) = false.
Proof. unfold Patterns.topOnly. rewrite test_bol. reflexivity. Qed.

(** Both patterns need a space in the radius string. *)
Lemma topOnly_space (s : string) :
  test Patterns.topOnly s = true -> has_char " " s = true.
Proof.
  unfold Patterns.topOnly. rewrite test_bol.
  rewrite matchSeq_cons. cbn [matchOne Nat.eqb].
  rewrite matchSeq_cons. cbn [matchOne].
  destruct s as [|c s]; [discriminate |].
  destruct (not_zero c); [| discriminate].
  rewrite matchSeq_cons. cbn [matchOne].
  destruct (star digit_or_dot 1 s _) as [r|] eqn:E; [| discriminate].
  intros _. apply star_inv in E as (run & rest & -> & _ & Hk).
  rewrite matchSeq_cons in Hk. cbn [matchOne] in Hk.
  destruct (lit "px " rest) as [rest'|] eqn:El; [| discriminate].
  apply lit_inv in El. subst rest.
  cbn [has_char]. destruct (Ascii.eqb " " c); [reflexivity |].
  rewrite has_char_append. apply orb_true_intro. right. reflexivity.
Qed.

Lemma bottomOnly_space (s : string) :
  test Patterns.bottomOnly s = true -> has_char " " s = true.
Proof.
  unfold Patterns.bottomOnly. rewrite test_bol.
  rewrite matchSeq_cons. cbn [matchOne Nat.eqb].
  rewrite matchSeq_cons. cbn [matchOne].
  destruct (lit "0px 0px " s) as [rest|] eqn:El; [| discriminate].
  intros _. apply lit_inv in El. subst s. reflexivity.
Qed.

(** The border strategy of a node whose rounded radii are [0, 0, br, bl]
    with [br] or [bl] positive. *)
Lemma borderRadius_bottomRounded (n : FigmaNode.t) (tl tr br bl : num) :
  FigmaNode.rectangleCornerRadii n = Some [tl; tr; br; bl] ->
  Num.eqb (Num.round2 tl) Num.zero = true ->
  Num.eqb (Num.round2 tr) Num.zero = true ->
  Num.gtb (Num.round2 br) Num.zero || Num.gtb (Num.round2 bl) Num.zero = true ->
  borderRadius n =
  mkRadiusInfo false true
    ("0px 0px " +:+ Num.toString (Num.round2 br) +:+ "px " +:+ Num.toString (Num.round2 bl)
       +:+ "px").
Proof.
  intros Hr Htl Htr Hpos. unfold borderRadius. rewrite Hr. cbn [map].
  set (a := Num.round2 tl) in *. set (b := Num.round2 tr) in *.
  set (c := Num.round2 br) in *. set (d := Num.round2 bl) in *.
  assert (Ha : Num.mant a = 0%Z) by now apply eqb_zero.
  assert (Hb : Num.mant b = 0%Z) by now apply eqb_zero.
  assert (Hga : Num.gtb a Num.zero = false) by (apply gtb_false; lia).
  assert (Hgb : Num.gtb b Num.zero = false) by (apply gtb_false; lia).
  assert (Hne : negb (Num.eqb a b) || negb (Num.eqb b c) || negb (Num.eqb c d)
                || negb (Num.eqb a Num.zero) = true).
  { destruct (Num.gtb c Num.zero) eqn:Gc.
    - apply gtb_zero in Gc. rewrite (eqb_nonpos_pos b c) by lia.
      cbn [negb]. now rewrite orb_true_r.
    - cbn [orb] in Hpos. apply gtb_zero in Hpos. apply gtb_false in Gc.
      rewrite (eqb_nonpos_pos c d) by lia. cbn [negb]. now rewrite !orb_true_r. }
  rewrite Hne, Hga, Hgb, Hpos, (toString_zero a Ha), (toString_zero b Hb).
  cbn [orb radiiString String.append].
  rewrite topOnly_zero_head.
  now destruct (test Patterns.bottomOnly _).
Qed.

(** The border strategy of a node with a uniform radius. *)
Lemma borderRadius_uniform (n : FigmaNode.t) (r : num) :
  FigmaNode.rectangleCornerRadii n = None ->
  FigmaNode.cornerRadius n = Some r -> Num.gtb r Num.zero = true ->
  borderRadius n = mkRadiusInfo true true (Num.toString (Num.round2 r) +:+ "px").
Proof.
  intros Hr Hc Hpos. unfold borderRadius. rewrite Hr, Hc, Hpos. cbn [radiiString].
  assert (Hsp : has_char " " (Num.toString (Num.round2 r) +:+ "px") = false).
  { rewrite has_char_append, toString_lacks by reflexivity. reflexivity. }
  destruct (toString_head (Num.round2 r)) as (ch & s & E).
  rewrite E in *. cbn [String.append].
  destruct (test Patterns.topOnly _) eqn:Et.
  { apply topOnly_space in Et. cbn [String.append] in Hsp. congruence. }
  destruct (test Patterns.bottomOnly _) eqn:Eb.
  { apply bottomOnly_space in Eb. cbn [String.append] in Hsp. congruence. }
  reflexivity.
Qed.

(** An array of radii that has not four elements gives no radius. *)
Lemma borderRadius_wrong_length (n : FigmaNode.t) (radii : list num) :
  FigmaNode.rectangleCornerRadii n = Some radii -> length radii <> 4 ->
  borderRadius n = mkRadiusInfo false false "".
Proof.
  intros Hr Hl. unfold borderRadius. rewrite Hr.
  destruct radii as [|a [|b [|c [|d [|e radii]]]]]; cbn [map length] in *;
    try reflexivity.
  contradiction.
Qed.

End BorderFacts.

(** The declarations of the blocks before "Text styles" for a node whose
    border strategy is known. *)
Ltac early_lines_with tac :=
  unfold linesBeforeText;
  repeat (apply Forall_app; split);
  unfold positionAndSize, backgroundFill, strokeBorders, applyBorderRadius,
    nodeOpacity, effectShadows, clipping, Js.push;
  cbn [not_false radiiString hasTopRadius hasBottomRadius]; cbv beta iota;
  destruct_matches; cbn [app];
  repeat constructor; tac.

Section BorderClaims.
Import Js JsFacts NumText NumFacts Regex RegexFacts RadiusFacts BorderFacts.

Variable atan2_degrees : num -> num -> num.

(** The style of a node without a border line is the [styles] array as the
    blocks leave it. *)
Lemma lines_without_border (P : string -> Prop) n parent :
  Forall (fun l => P l /\ Regex.test Patterns.borderLine l = false)
         (stylesBeforeFix atan2_degrees n parent) ->
  nodeStyleLines atan2_degrees n parent = stylesBeforeFix atan2_degrees n parent
  /\ Forall P (nodeStyleLines atan2_degrees n parent).
Proof.
  intros H. unfold nodeStyleLines.
  rewrite fixDoubleBorders_no_border.
  - split; [reflexivity |]. eapply List.Forall_impl; [| exact H]. now intros l [? _].
  - eapply List.Forall_impl; [| exact H]. now intros l [_ ?].
Qed.

Lemma strokeBorders_outside n info stroke more w sc :
  FigmaNode.strokes n = Some (stroke :: more) ->
  FigmaNode.strokeWeight n = Some w -> Num.truthy w = true ->
  not_false (Paint.visible stroke) = true -> Paint.color stroke = Some sc ->
  String.eqb (strokeAlignOrInside n) "INSIDE" = false ->
  String.eqb (strokeAlignOrInside n) "CENTER" = false ->
  strokeBorders n info [] =
  [ "  box-shadow: 0 0 0 " +:+ px2 w +:+ "px " +:+ rgbaToString sc (Paint.opacity stroke) +:+ ";" ].
Proof.
  intros Hs Hw Ht Hv Hc Hi Hce. unfold strokeBorders, truthy_num, or_zero.
  now rewrite Hs, Hw, Ht, Hv, Hc, Hi, Hce.
Qed.

(** X11. A node whose first stroke is visible, has a color and a weight and
    is aligned neither INSIDE nor CENTER (so OUTSIDE) gets a [box-shadow]
    ring of the stroke weight and no border at all: no [border] rule, no
    rule for one side, no [box-sizing]. *)
Theorem outside_stroke_box_shadow
    (n : FigmaNode.t) (parent : option FigmaNode.t) (stroke : Paint.t)
    (more : list Paint.t) (w : num) (sc : FigmaColor.t) :
  FigmaNode.strokes n = Some (stroke :: more) ->
  FigmaNode.strokeWeight n = Some w -> Num.truthy w = true ->
  not_false (Paint.visible stroke) = true -> Paint.color stroke = Some sc ->
  String.eqb (strokeAlignOrInside n) "INSIDE" = false ->
  String.eqb (strokeAlignOrInside n) "CENTER" = false ->
  let lines := nodeStyleLines atan2_degrees n parent in
  In ("  box-shadow: 0 0 0 " +:+ Num.toString (Num.round2 w) +:+ "px "
        +:+ rgbaToString sc (Paint.opacity stroke) +:+ ";") lines
  /\ Forall (fun l => startsWith "  border:" l = false
                      /\ startsWith "  border-left" l = false
                      /\ startsWith "  border-right" l = false
                      /\ startsWith "  border-top" l = false
                      /\ startsWith "  border-bottom" l = false
                      /\ startsWith "  box-sizing" l = false) lines.
Proof.
  intros Hs Hw Ht Hv Hc Hi Hce lines.
  pose proof (strokeBorders_outside n (borderRadius n) stroke more w sc Hs Hw Ht Hv Hc Hi Hce)
    as Estroke.
  match type of Estroke with _ = [?l] => set (rule := l) in * end.
  destruct (lines_without_border
              (fun l => startsWith "  border:" l = false
                        /\ startsWith "  border-left" l = false
                        /\ startsWith "  border-right" l = false
                        /\ startsWith "  border-top" l = false
                        /\ startsWith "  border-bottom" l = false
                        /\ startsWith "  box-sizing" l = false) n parent) as [E HP].
  { apply stylesBeforeFix_Forall; try (intros; line_cases; fail).
    - unfold linesBeforeText. rewrite Estroke. early_lines line_cases.
    - early_lines line_cases.
    - early_lines line_cases. }
  split; [| exact HP].
  unfold lines. rewrite E. apply stylesBeforeFix_keeps.
  - apply in_stroke. rewrite Estroke. simpl. auto.
  - unfold rule. no_background.
Qed.

Lemma strokeBorders_inside_bottom n info stroke more w sc :
  FigmaNode.strokes n = Some (stroke :: more) ->
  FigmaNode.strokeWeight n = Some w -> Num.truthy w = true ->
  not_false (Paint.visible stroke) = true -> Paint.color stroke = Some sc ->
  strokeAlignOrInside n = "INSIDE" ->
  hasTopRadius info = false -> hasBottomRadius info = true ->
  strokeBorders n info [] =
  [ "  box-sizing: border-box;";
    "  border-left: " +:+ px2 w +:+ "px solid " +:+ rgbaToString sc (Paint.opacity stroke) +:+ ";";
    "  border-right: " +:+ px2 w +:+ "px solid " +:+ rgbaToString sc (Paint.opacity stroke) +:+ ";";
    "  border-bottom: " +:+ px2 w +:+ "px solid " +:+ rgbaToString sc (Paint.opacity stroke) +:+ ";" ].
Proof.
  intros Hs Hw Ht Hv Hc Ha Htop Hbot. unfold strokeBorders, truthy_num, or_zero.
  now rewrite Hs, Hw, Ht, Hv, Hc, Ha, Htop, Hbot.
Qed.

(** X12. A node whose first stroke is visible, has a color and a weight and
    is aligned INSIDE, and whose corner radii, rounded to 0.01, are
    [0, 0, br, bl] with [br] or [bl] positive: the style has [box-sizing:
    border-box], [border-left], [border-right] and [border-bottom], no
    [border-top] and no uniform [border], and the radius rule with the four
    values. *)
Theorem inside_stroke_bottom_rounded_sides
    (n : FigmaNode.t) (parent : option FigmaNode.t) (stroke : Paint.t)
    (more : list Paint.t) (w : num) (sc : FigmaColor.t) (tl tr br bl : num) :
  FigmaNode.strokes n = Some (stroke :: more) ->
  FigmaNode.strokeWeight n = Some w -> Num.truthy w = true ->
  not_false (Paint.visible stroke) = true -> Paint.color stroke = Some sc ->
  strokeAlignOrInside n = "INSIDE" ->
  FigmaNode.rectangleCornerRadii n = Some [tl; tr; br; bl] ->
  Num.eqb (Num.round2 tl) Num.zero = true ->
  Num.eqb (Num.round2 tr) Num.zero = true ->
  Num.gtb (Num.round2 br) Num.zero || Num.gtb (Num.round2 bl) Num.zero = true ->
  let side := Num.toString (Num.round2 w) +:+ "px solid "
              +:+ rgbaToString sc (Paint.opacity stroke) +:+ ";" in
  let radii := "0px 0px " +:+ Num.toString (Num.round2 br) +:+ "px "
               +:+ Num.toString (Num.round2 bl) +:+ "px" in
  let lines := nodeStyleLines atan2_degrees n parent in
  In ("  border-left: " +:+ side) lines
  /\ In ("  border-right: " +:+ side) lines
  /\ In ("  border-bottom: " +:+ side) lines
  /\ Forall (fun l => startsWith "  border-top" l = false
                      /\ startsWith "  border:" l = false) lines
  /\ In "  box-sizing: border-box;" lines
  /\ In ("  border-radius: " +:+ radii +:+ ";") lines.
Proof.
  intros Hs Hw Ht Hv Hc Ha Hr Htl Htr Hpos side radii lines.
  pose proof (borderRadius_bottomRounded n tl tr br bl Hr Htl Htr Hpos) as Einfo.
  fold radii in Einfo.
  assert (Htop : hasTopRadius (borderRadius n) = false) by now rewrite Einfo.
  assert (Hbot : hasBottomRadius (borderRadius n) = true) by now rewrite Einfo.
  pose proof (strokeBorders_inside_bottom n (borderRadius n) stroke more w sc
                Hs Hw Ht Hv Hc Ha Htop Hbot) as Estroke.
  unfold px2 in Estroke. fold side in Estroke.
  assert (Eradius : applyBorderRadius (borderRadius n) [] =
                    ["  border-radius: " +:+ radii +:+ ";"]).
  { rewrite Einfo. reflexivity. }
  destruct (lines_without_border
              (fun l => startsWith "  border-top" l = false
                        /\ startsWith "  border:" l = false) n parent) as [E HP].
  { apply stylesBeforeFix_Forall; try (intros; line_cases; fail).
    - unfold linesBeforeText. rewrite Estroke, Eradius. early_lines line_cases.
    - early_lines line_cases.
    - early_lines line_cases. }
  assert (Hk : has_char "k" side = false).
  { unfold side.
    rewrite !has_char_append, toString_lacks, has_char_rgba by reflexivity. reflexivity. }
  assert (Hkeep : forall l, In l (strokeBorders n (borderRadius n) []) ->
                            has_char "k" l = false -> In l lines).
  { intros l Hl Hkl. unfold lines. rewrite E. apply stylesBeforeFix_keeps.
    - now apply in_stroke.
    - now apply (lacks_char_not_includes "k"). }
  repeat split.
  - apply Hkeep; [rewrite Estroke; simpl; auto |].
    rewrite has_char_append, Hk. reflexivity.
  - apply Hkeep; [rewrite Estroke; simpl; auto |].
    rewrite has_char_append, Hk. reflexivity.
  - apply Hkeep; [rewrite Estroke; simpl; auto |].
    rewrite has_char_append, Hk. reflexivity.
  - exact HP.
  - apply Hkeep; [rewrite Estroke; simpl; auto | reflexivity].
  - unfold lines. rewrite E. apply stylesBeforeFix_keeps.
    + apply in_radius. rewrite Eradius. simpl. auto.
    + apply (lacks_char_not_includes "k"); [reflexivity |].
      unfold radii. rewrite !has_char_append, !toString_lacks by reflexivity. reflexivity.
Qed.

(** X13. A node without an array of corner radii and with a positive
    [cornerRadius] gets the rule [border-radius] with that radius, rounded
    to 0.01, once, and no other radius rule. *)
Theorem uniform_corner_radius
    (n : FigmaNode.t) (parent : option FigmaNode.t) (r : num) :
  FigmaNode.rectangleCornerRadii n = None ->
  FigmaNode.cornerRadius n = Some r -> Num.gtb r Num.zero = true ->
  let rule := "  border-radius: " +:+ Num.toString (Num.round2 r) +:+ "px;" in
  let lines := nodeStyleLines atan2_degrees n parent in
  In rule lines /\ Forall (fun l => startsWith "  border-radius:" l = true -> l = rule) lines.
Proof.
  intros Hr Hc Hpos rule lines.
  pose proof (borderRadius_uniform n r Hr Hc Hpos) as Einfo.
  assert (Eradius : applyBorderRadius (borderRadius n) [] = [rule]).
  { rewrite Einfo. unfold applyBorderRadius, push. cbn [radiiString].
    destruct (toString_head (Num.round2 r)) as (ch & s & E).
    unfold rule. rewrite E. cbn [String.append app].
    now rewrite (append_assoc s "px" ";"). }
  split.
  - apply nodeStyleLines_keeps.
    + apply in_radius. rewrite Eradius. simpl. auto.
    + apply (lacks_char_not_includes "k"); [reflexivity |].
      unfold rule. rewrite !has_char_append, !toString_lacks by reflexivity. reflexivity.
    + unfold rule. no_border_line.
  - apply nodeStyleLines_Forall; try (intros; line_cases; fail).
    + unfold linesBeforeText. rewrite Eradius.
      repeat (apply Forall_app; split); try (repeat constructor; line_cases; fail);
        early_lines line_cases.
    + early_lines line_cases.
    + early_lines line_cases.
Qed.

(** X14. An array of corner radii that has not exactly four elements
    suppresses the radius rule, also when [cornerRadius] is set: the array
    is looked at first and the single radius only when there is no array. *)
Theorem corner_radii_of_wrong_length
    (n : FigmaNode.t) (parent : option FigmaNode.t) (radii : list num) :
  FigmaNode.rectangleCornerRadii n = Some radii -> length radii <> 4 ->
  Forall (fun l => startsWith "  border-radius:" l = false)
         (nodeStyleLines atan2_degrees n parent).
Proof.
  intros Hr Hl.
  pose proof (borderRadius_wrong_length n radii Hr Hl) as Einfo.
  apply nodeStyleLines_Forall; try (intros; line_cases; fail).
  - unfold linesBeforeText. rewrite Einfo. early_lines_with line_cases.
  - early_lines line_cases.
  - early_lines line_cases.
Qed.


End BorderClaims.

(** ** The shape of a style *)

Module FormatFacts.
Import Js JsFacts NumText NumFacts.



End FormatFacts.



Section FormatClaims.
Import Js JsFacts NumText NumFacts FormatFacts.

Variable atan2_degrees : num -> num -> num.


End FormatClaims.

(** ** Fills *)

Module FillFacts.
Import Js JsFacts NumText NumFacts.


(** A first fill that is not a solid fill leaves the text block without a
    color and the array as it is. *)
Lemma textColor_other_fill n styles fill more :
  FigmaNode.fills n = Some (fill :: more) ->
  String.eqb (Paint.type fill) "SOLID" = false ->
  textColor n styles = styles.
Proof. intros Hf Hty. unfold textColor. now rewrite Hf, Hty. Qed.

Lemma textStyles_keeps_other_fill n styles fill more l :
  FigmaNode.fills n = Some (fill :: more) ->
  String.eqb (Paint.type fill) "SOLID" = false ->
  In l styles -> In l (textStyles n styles).
Proof.
  intros Hf Hty Hl. unfold textStyles.
  destruct (String.eqb (FigmaNode.type n) "TEXT"); auto.
  destruct (FigmaNode.style n) as [ts|]; auto.
  apply (appends_keeps _ _ _ _ textWrapping_appends).
  rewrite (textColor_other_fill _ _ _ _ Hf Hty).
  apply (appends_keeps _ _ _ _ (textAlignVertical_appends ts)).
  apply (appends_keeps _ _ _ _ (textAlignHorizontal_appends ts)).
  apply (appends_keeps _ _ _ _ (textLineHeight_appends ts)).
  apply (appends_keeps _ _ _ _ (textLetterSpacing_appends ts)).
  now apply (appends_keeps _ _ _ _ (textFont_appends ts)).
Qed.

End FillFacts.

Section FillClaims.
Import Js JsFacts NumText NumFacts FillFacts.

Variable atan2_degrees : num -> num -> num.

(** X17. A node whose first fill is a visible linear gradient with stops
    gets the rule [background] with the text of [generateLinearGradient],
    and no [background-color] rule. *)
Theorem gradient_fill_background
    (n : FigmaNode.t) (parent : option FigmaNode.t) (fill : Paint.t)
    (more : list Paint.t) (stops : list ColorStop.t) :
  FigmaNode.fills n = Some (fill :: more) ->
  not_false (Paint.visible fill) = true ->
  Paint.type fill = "GRADIENT_LINEAR" -> Paint.gradientStops fill = Some stops ->
  let lines := nodeStyleLines atan2_degrees n parent in
  In ("  background: " +:+ generateLinearGradient atan2_degrees fill +:+ ";") lines
  /\ Forall (fun l => startsWith "  background-color" l = false) lines.
Proof.
  intros Hf Hv Hty Hstops lines.
  assert (Ebg : backgroundFill atan2_degrees n [] =
                ["  background: " +:+ generateLinearGradient atan2_degrees fill +:+ ";"]).
  { unfold backgroundFill. rewrite Hf, Hv, Hty, Hstops. reflexivity. }
  assert (Hns : String.eqb (Paint.type fill) "SOLID" = false) by now rewrite Hty.
  split.
  - unfold lines, nodeStyleLines. apply fixDoubleBorders_keeps; [| no_border_line].
    rewrite stylesBeforeFix_eq. apply in_or_app. left. apply autoLayout_keeps.
    apply (textStyles_keeps_other_fill _ _ fill more); [exact Hf | exact Hns |].
    apply in_background. rewrite Ebg. simpl. auto.
  - apply nodeStyleLines_Forall; try (intros; line_cases; fail).
    + unfold linesBeforeText. rewrite Ebg. early_lines line_cases.
    + early_lines line_cases.
    + early_lines line_cases.
Qed.


End FillClaims.

(** ** Text styles *)

Module TextFacts.
Import Js JsFacts NumText NumFacts.

Lemma countLine_app line a b :
  countLine line (a ++ b) = countLine line a + countLine line b.
Proof. unfold countLine. now rewrite List.filter_app, length_app. Qed.

Lemma countLine_none line lines :
  Forall (fun l => String.eqb line l = false) lines -> countLine line lines = 0.
Proof.
  intros H. unfold countLine. induction H as [|l lines Hl _ IH]; [reflexivity |].
  cbn [List.filter]. now rewrite Hl.
Qed.

Lemma countLine_push line l lines :
  countLine line (push l lines) = countLine line lines + (if String.eqb line l then 1 else 0).
Proof.
  unfold push. rewrite countLine_app. unfold countLine at 2. cbn [List.filter].
  now destruct (String.eqb line l).
Qed.

(** Where no declaration includes [display: flex], none is that rule. *)
Lemma hasDisplayFlex_count styles :
  hasDisplayFlex styles = false -> countLine "  display: flex;" styles = 0.
Proof.
  unfold hasDisplayFlex, some. intros H. apply countLine_none.
  induction styles as [|l styles IH]; [constructor |].
  cbn [existsb] in H. apply orb_false_elim in H as [Hl H].
  constructor; [| now apply IH].
  destruct (String.eqb "  display: flex;" l) eqn:E; [| reflexivity].
  apply String.eqb_eq in E. subst l. discriminate Hl.
Qed.

(** The guarded push of [display: flex] keeps the rule single. *)
Lemma flex_guard styles :
  countLine "  display: flex;" styles <= 1 ->
  countLine "  display: flex;"
    (if negb (hasDisplayFlex styles) then push "  display: flex;" styles else styles) <= 1.
Proof.
  intros H. destruct (hasDisplayFlex styles) eqn:E; cbn [negb]; [exact H |].
  rewrite countLine_push, (hasDisplayFlex_count _ E). reflexivity.
Qed.

(** The declarations pushed are compared with the rule by their first
    characters. *)
Ltac other_lines :=
  unfold push; rewrite ?countLine_app; unfold countLine; cbn [List.filter];
  repeat match goal with
         | |- context [String.eqb ?a ?b] =>
             first [ change (String.eqb a b) with false | change (String.eqb a b) with true ]
         end;
  cbv iota; cbn [length]; try lia.

Lemma flex_textFont ts styles :
  countLine "  display: flex;" (textFont ts styles) = countLine "  display: flex;" styles.
Proof. unfold textFont. other_lines. Qed.

Lemma flex_textLetterSpacing ts styles :
  countLine "  display: flex;" (textLetterSpacing ts styles)
  = countLine "  display: flex;" styles.
Proof. unfold textLetterSpacing. destruct (truthy_num _); other_lines. Qed.

Lemma flex_textLineHeight ts styles :
  countLine "  display: flex;" (textLineHeight ts styles) = countLine "  display: flex;" styles.
Proof. unfold textLineHeight. destruct (truthy_num _); [| destruct (truthy_num _)]; other_lines. Qed.

Lemma flex_textAlignHorizontal ts styles :
  countLine "  display: flex;" styles <= 1 ->
  countLine "  display: flex;" (textAlignHorizontal ts styles) <= 1.
Proof.
  intros H. unfold textAlignHorizontal.
  destruct (truthy_str _); [| exact H].
  set (s1 := push _ styles).
  assert (H1 : countLine "  display: flex;" s1 <= 1).
  { unfold s1. rewrite countLine_push.
    change (String.eqb "  display: flex;" _) with false. cbv iota. lia. }
  destruct (String.eqb _ "center"); [| exact H1].
  rewrite countLine_push. change (String.eqb "  display: flex;" _) with false. cbv iota.
  pose proof (flex_guard s1 H1). lia.
Qed.

Lemma flex_textAlignVertical ts styles :
  countLine "  display: flex;" styles <= 1 ->
  countLine "  display: flex;" (textAlignVertical ts styles) <= 1.
Proof.
  intros H. unfold textAlignVertical.
  destruct (truthy_str _); [| exact H].
  pose proof (flex_guard styles H) as H1.
  repeat (destruct (String.eqb _ _); [rewrite countLine_push;
    change (String.eqb "  display: flex;" _) with false; cbv iota; lia |]).
  exact H1.
Qed.

Lemma countLine_delete (p : string -> bool) line styles i :
  findIndex p styles = Some i ->
  countLine line (splice i 1 [] styles) <= countLine line styles.
Proof.
  intros E. apply findIndex_Some in E as (pre & x & post & -> & <- & _ & _).
  rewrite splice_delete_one. cbn [app]. rewrite !countLine_app.
  change (x :: post) with ([x] ++ post). rewrite countLine_app. lia.
Qed.

Lemma flex_textColor n styles :
  countLine "  display: flex;" (textColor n styles) <= countLine "  display: flex;" styles.
Proof.
  unfold textColor.
  destruct (FigmaNode.fills n) as [[|fill fills]|]; try lia.
  destruct (String.eqb (Paint.type fill) "SOLID"); try lia.
  destruct (Paint.color fill) as [c|]; try lia.
  set (s1 := push _ styles).
  assert (H1 : countLine "  display: flex;" s1 = countLine "  display: flex;" styles).
  { unfold s1. rewrite countLine_push.
    change (String.eqb "  display: flex;" _) with false. cbv iota. lia. }
  destruct (findIndex _ s1) as [i|] eqn:E; [| lia].
  pose proof (countLine_delete _ "  display: flex;" _ _ E). lia.
Qed.

Lemma flex_textWrapping styles :
  countLine "  display: flex;" (textWrapping styles) = countLine "  display: flex;" styles.
Proof. unfold textWrapping. other_lines. Qed.

(** The text block keeps [display: flex] single. *)
Lemma flex_textStyles n styles :
  countLine "  display: flex;" styles <= 1 ->
  countLine "  display: flex;" (textStyles n styles) <= 1.
Proof.
  intros H. unfold textStyles.
  destruct (String.eqb (FigmaNode.type n) "TEXT"); [| exact H].
  destruct (FigmaNode.style n) as [ts|]; [| exact H].
  rewrite flex_textWrapping.
  eapply Nat.le_trans; [apply flex_textColor |].
  apply flex_textAlignVertical, flex_textAlignHorizontal.
  now rewrite flex_textLineHeight, flex_textLetterSpacing, flex_textFont.
Qed.

(** The post-processing step neither adds nor removes a [display: flex]. *)
Lemma flex_fixDoubleBorders styles :
  countLine "  display: flex;" (fixDoubleBorders styles) = countLine "  display: flex;" styles.
Proof.
  unfold fixDoubleBorders, find, indexOf.
  destruct (List.find (includes "border-radius:") styles) as [rl|]; [| reflexivity].
  destruct (List.find (Regex.test Patterns.borderLine) styles) as [bl|] eqn:Ebl;
    [| reflexivity].
  destruct (Regex.test Patterns.radiusTopOnly rl); [| reflexivity].
  destruct (Regex.exec Patterns.borderParts bl) as [[|w [|c [|? ?]]]|]; try reflexivity.
  destruct (findIndex (String.eqb bl) styles) as [i|] eqn:E; [| reflexivity].
  apply List.find_some in Ebl as [_ Hbl].
  apply findIndex_Some in E as (pre & x & post & -> & <- & Hx & _).
  apply String.eqb_eq in Hx. subst x.
  rewrite splice_delete_one. rewrite !countLine_app.
  change (bl :: post) with ([bl] ++ post). rewrite !countLine_app.
  assert (Hne : String.eqb "  display: flex;" bl = false).
  { destruct (String.eqb "  display: flex;" bl) eqn:En; [| reflexivity].
    apply String.eqb_eq in En. subst bl. discriminate Hbl. }
  unfold countLine at 2 5. cbn [List.filter]. rewrite Hne.
  repeat match goal with
         | |- context [String.eqb "  display: flex;" (?a +:+ ?b)] =>
             change (String.eqb "  display: flex;" (a +:+ b)) with false
         end.
  reflexivity.
Qed.

(** The first declaration that satisfies [p]. *)
Lemma findIndex_first {A} (p : A -> bool) (pre post : list A) (x : A) :
  Forall (fun y => p y = false) pre -> p x = true ->
  findIndex p (pre ++ x :: post) = Some (length pre).
Proof.
  intros Hpre Hx. induction Hpre as [|y pre Hy _ IH]; cbn [app findIndex length].
  - now rewrite Hx.
  - now rewrite Hy, IH.
Qed.

(** The five statements of the text block before the color only push. *)
Lemma textBeforeColor_appends ts :
  appends TextLine
    (fun styles =>
       textAlignVertical ts (textAlignHorizontal ts (textLineHeight ts
         (textLetterSpacing ts (textFont ts styles))))).
Proof.
  apply (appends_comp _ (fun s => textAlignHorizontal ts (textLineHeight ts
                                    (textLetterSpacing ts (textFont ts s)))));
    [| apply textAlignVertical_appends].
  apply (appends_comp _ (fun s => textLineHeight ts (textLetterSpacing ts (textFont ts s))));
    [| apply textAlignHorizontal_appends].
  apply (appends_comp _ (fun s => textLetterSpacing ts (textFont ts s)));
    [| apply textLineHeight_appends].
  apply (appends_comp _ (textFont ts)); [apply textFont_appends | apply textLetterSpacing_appends].
Qed.

Lemma textLine_no_background l : TextLine l -> startsWith "  background-color" l = false.
Proof. intros H. destruct H; reflexivity. Qed.

End TextFacts.

Section TextClaims.
Import Js JsFacts NumText NumFacts TextFacts.

Variable atan2_degrees : num -> num -> num.

(** X19. A node without a truthy [layoutMode] has the rule [display: flex]
    once at most, however its text is aligned: the text block pushes the
    rule only when no declaration of the array includes it yet. *)
Theorem display_flex_at_most_once (n : FigmaNode.t) (parent : option FigmaNode.t) :
  truthy_str (FigmaNode.layoutMode n) = false ->
  countLine "  display: flex;" (nodeStyleLines atan2_degrees n parent) <= 1.
Proof.
  intros Hm. unfold nodeStyleLines. rewrite flex_fixDoubleBorders, stylesBeforeFix_eq.
  unfold autoLayout. rewrite Hm. rewrite !countLine_app.
  assert (H0 : countLine "  display: flex;" (linesBeforeText atan2_degrees n parent) = 0).
  { apply countLine_none. early_lines ltac:(idtac; reflexivity). }
  assert (H1 : countLine "  display: flex;" (effectShadows n []) = 0).
  { apply countLine_none. early_lines ltac:(idtac; reflexivity). }
  assert (H2 : countLine "  display: flex;" (clipping n []) = 0).
  { apply countLine_none. early_lines ltac:(idtac; reflexivity). }
  pose proof (flex_textStyles n (linesBeforeText atan2_degrees n parent)) as H.
  lia.
Qed.

(** Where a declaration of the [styles] array comes from, the text block
    taken as a whole. *)
Lemma stylesBeforeFix_after_text n parent l :
  In l (stylesBeforeFix atan2_degrees n parent) ->
  In l (textStyles n (linesBeforeText atan2_degrees n parent))
  \/ LayoutLine l \/ l = "  position: absolute;"
  \/ In l (effectShadows n []) \/ In l (clipping n []).
Proof.
  rewrite stylesBeforeFix_eq. intros Hl.
  apply in_app_or in Hl as [Hl | Hl].
  2: { apply in_app_or in Hl as [Hl | Hl]; auto 10. }
  destruct (FigmaNode.absoluteBoundingBox n) as [box|] eqn:Hbox.
  - destruct (position_declared atan2_degrees n parent box Hbox) as (l0 & H0 & Hp & Hbg).
    apply (autoLayout_origin_found _ _ _ l0) in Hl as [Hl | [_ Hl]]; auto.
    now apply textStyles_keeps.
  - apply (autoLayout_origin_nobox _ _ _ _ Hbox) in Hl as [Hl | (_ & [Hl | [_ ->]])]; auto 10.
Qed.

(** The text block of a node whose first fill is solid leaves no
    [background-color] behind. *)
Lemma textStyles_no_background n parent ts fill more c :
  FigmaNode.type n = "TEXT" -> FigmaNode.style n = Some ts ->
  FigmaNode.fills n = Some (fill :: more) ->
  Paint.type fill = "SOLID" -> Paint.color fill = Some c ->
  Forall (fun l => startsWith "  background-color" l = false)
         (textStyles n (linesBeforeText atan2_degrees n parent)).
Proof.
  intros Hty Hst Hf Hfty Hc. unfold textStyles. rewrite Hty, Hst.
  change (String.eqb "TEXT" "TEXT") with true. cbv iota.
  destruct (textWrapping_appends
              (textColor n
                 (textAlignVertical ts (textAlignHorizontal ts (textLineHeight ts
                    (textLetterSpacing ts
                       (textFont ts (linesBeforeText atan2_degrees n parent))))))))
    as (wrap & -> & Hwrap).
  apply Forall_app. split.
  2: { eapply List.Forall_impl; [| exact Hwrap]. apply textLine_no_background. }
  destruct (textBeforeColor_appends ts (linesBeforeText atan2_degrees n parent))
    as (extra & -> & Hextra).
  assert (Qextra : Forall (fun l => startsWith "  background-color" l = false) extra).
  { eapply List.Forall_impl; [| exact Hextra]. apply textLine_no_background. }
  unfold textColor. rewrite Hf, Hfty, Hc.
  change (String.eqb "SOLID" "SOLID") with true. cbv iota.
  set (color := "  color: " +:+ rgbaToString c (Paint.opacity fill) +:+ ";").
  assert (Qpos : Forall (fun l => startsWith "  background-color" l = false
                                  /\ includes "background-color" l = false)
                        (positionAndSize n parent [])).
  { unfold positionAndSize, push. destruct_matches; cbn [app]; repeat constructor;
      first [reflexivity | no_background]. }
  assert (Qpos' : Forall (fun l => startsWith "  background-color" l = false)
                         (positionAndSize n parent [])).
  { eapply List.Forall_impl; [| exact Qpos]. now intros l [? _]. }
  assert (Qstroke : Forall (fun l => startsWith "  background-color" l = false)
                           (strokeBorders n (borderRadius n) [])).
  { unfold strokeBorders, push. destruct_matches; cbn [app]; repeat constructor. }
  assert (Qradius : Forall (fun l => startsWith "  background-color" l = false)
                           (applyBorderRadius (borderRadius n) [])).
  { unfold applyBorderRadius, push. destruct_matches; cbn [app]; repeat constructor. }
  assert (Qopacity : Forall (fun l => startsWith "  background-color" l = false)
                            (nodeOpacity n [])).
  { unfold nodeOpacity, push. destruct_matches; cbn [app]; repeat constructor. }
  unfold linesBeforeText.
  destruct (not_false (Paint.visible fill)) eqn:Hv.
  - assert (Ebg : backgroundFill atan2_degrees n [] =
                  ["  background-color: " +:+ rgbaToString c (Paint.opacity fill) +:+ ";"]).
    { unfold backgroundFill. rewrite Hf, Hv, Hfty, Hc. reflexivity. }
    rewrite Ebg. unfold push. cbn [app]. rewrite <- !app_assoc. cbn [app].
    rewrite (findIndex_first (includes "background-color") (positionAndSize n parent [])).
    + rewrite splice_delete_one. cbn [app]. rewrite <- ?app_assoc.
      repeat (apply Forall_app; split); try assumption. repeat constructor.
    + eapply List.Forall_impl; [| exact Qpos]. now intros l [_ ?].
    + reflexivity.
  - assert (Ebg : backgroundFill atan2_degrees n [] = []).
    { unfold backgroundFill. now rewrite Hf, Hv. }
    rewrite Ebg. cbn [app].
    assert (Qall : Forall (fun l => startsWith "  background-color" l = false)
                     (push color
                        ((positionAndSize n parent []
                          ++ strokeBorders n (borderRadius n) []
                          ++ applyBorderRadius (borderRadius n) [] ++ nodeOpacity n [])
                         ++ extra))).
    { unfold push. repeat (apply Forall_app; split); try assumption.
      repeat constructor. }
    destruct (findIndex _ _) as [i|] eqn:E; [| exact Qall].
    apply List.Forall_forall. intros l Hl.
    apply (delete_found_origin _ _ _ _ E) in Hl.
    rewrite List.Forall_forall in Qall. now apply Qall.
Qed.

(** X20. A text node with a style block whose first fill is a solid fill with
    a color never has a [background-color] rule: the fill is the color of
    the text, and the background rule it gave is taken out again. *)
Theorem text_fill_is_no_background
    (n : FigmaNode.t) (parent : option FigmaNode.t) (ts : TypeStyle.t)
    (fill : Paint.t) (more : list Paint.t) (c : FigmaColor.t) :
  FigmaNode.type n = "TEXT" -> FigmaNode.style n = Some ts ->
  FigmaNode.fills n = Some (fill :: more) ->
  Paint.type fill = "SOLID" -> Paint.color fill = Some c ->
  Forall (fun l => startsWith "  background-color" l = false)
         (nodeStyleLines atan2_degrees n parent).
Proof.
  intros Hty Hst Hf Hfty Hc.
  pose proof (textStyles_no_background n parent ts fill more c Hty Hst Hf Hfty Hc) as Htext.
  rewrite List.Forall_forall in Htext.
  apply List.Forall_forall. intros l Hl. unfold nodeStyleLines in Hl.
  apply fixDoubleBorders_origin in Hl as [Hl | Hl]; [| destruct Hl; reflexivity].
  apply stylesBeforeFix_after_text in Hl as [Hl | [Hl | [-> | [Hl | Hl]]]].
  - now apply Htext.
  - destruct Hl; reflexivity.
  - reflexivity.
  - revert l Hl. apply List.Forall_forall. early_lines ltac:(idtac; reflexivity).
  - revert l Hl. apply List.Forall_forall. early_lines ltac:(idtac; reflexivity).
Qed.

End TextClaims.

(** ** The numbering of the classes *)

Module NumberingFacts.
Import Js JsFacts NumText NumFacts TraversalFacts.

Lemma indexOf_app_found i seen more k :
  indexOf i seen = Some k -> indexOf i (seen ++ more) = Some k.
Proof.
  unfold indexOf. revert k. induction seen as [|x seen IH]; intros k H; [discriminate |].
  cbn [app findIndex] in *. destruct (String.eqb i x); [exact H |].
  destruct (findIndex (String.eqb i) seen) as [j|]; [| discriminate].
  now rewrite (IH j eq_refl).
Qed.

Lemma indexOf_app_new i j seen :
  indexOf i seen = None ->
  indexOf i (seen ++ [j]) = if String.eqb i j then Some (length seen) else None.
Proof.
  unfold indexOf. induction seen as [|x seen IH]; intros H.
  - cbn [app findIndex length]. now destruct (String.eqb i j).
  - cbn [app findIndex length] in *. destruct (String.eqb i x); [discriminate |].
    destruct (findIndex (String.eqb i) seen) as [k|]; [discriminate |].
    rewrite (IH eq_refl). now destruct (String.eqb i j).
Qed.

Lemma numbered_empty : numbered (mkConverter ∅ 0) [].
Proof. split; [reflexivity |]. intros i. cbn [cssClasses]. now rewrite lookup_empty. Qed.

(** A request for a class keeps the numbering, with the id added to the ids
    seen when it is new. *)
Lemma getClassName_numbered n c seen :
  numbered c seen -> numbered (snd (getClassName n c)) (addId seen (FigmaNode.id n)).
Proof.
  intros [Hcount Hnum]. unfold getClassName, addId.
  pose proof (Hnum (FigmaNode.id n)) as Hid.
  destruct (cssClasses c !! FigmaNode.id n) as [cls|] eqn:E.
  - destruct (indexOf (FigmaNode.id n) seen) as [k|]; [| discriminate Hid].
    now split.
  - destruct (indexOf (FigmaNode.id n) seen) as [k|] eqn:Ei; [discriminate Hid |].
    cbn [snd]. split; cbn [classCounter cssClasses].
    + rewrite length_app. cbn [length]. lia.
    + intros i. destruct (decide (FigmaNode.id n = i)) as [<- | Hne].
      * rewrite lookup_insert_eq, (indexOf_app_new _ _ _ Ei), String.eqb_refl.
        cbn [option_map]. now rewrite Hcount.
      * rewrite lookup_insert_ne by exact Hne. rewrite Hnum.
        destruct (indexOf i seen) as [k|] eqn:Ek.
        -- now rewrite (indexOf_app_found _ _ _ _ Ek).
        -- rewrite (indexOf_app_new _ _ _ Ek).
           destruct (String.eqb i (FigmaNode.id n)) eqn:En; [| reflexivity].
           apply String.eqb_eq in En. congruence.
Qed.

Lemma idsOf_app a b : idsOf (a ++ b) = idsOf a ++ idsOf b.
Proof. apply map_app. Qed.

Lemma mapChildren_numbered cs :
  (forall c, In c cs ->
     forall depth parent st seen, numbered (converter st) seen ->
       numbered (converter (snd (generateHtmlWithStyles c depth parent st)))
                (fold_left addId (idsOf (emitted c parent)) seen)) ->
  forall depth parent st seen, numbered (converter st) seen ->
    numbered (converter (snd (mapChildren cs depth parent st)))
             (fold_left addId (idsOf (emittedList cs parent)) seen).
Proof.
  induction cs as [|c cs IH]; intros Hcs depth parent st seen Hn.
  - exact Hn.
  - cbn [mapChildren emittedList]. rewrite idsOf_app, fold_left_app.
    pose proof (Hcs c (or_introl eq_refl) depth parent st seen Hn) as H1.
    destruct (generateHtmlWithStyles c depth parent st) as [h st1]. cbn [snd] in H1.
    pose proof (IH (fun c' Hin => Hcs c' (or_intror Hin)) depth parent st1 _ H1) as H2.
    destruct (mapChildren cs depth parent st1) as [hs st2]. exact H2.
Qed.

Lemma pushStyle_numbered n parent st seen :
  numbered (converter st) seen ->
  numbered (converter (snd (pushStyle n parent st))) (addId seen (FigmaNode.id n)).
Proof.
  intros H. unfold pushStyle.
  pose proof (getClassName_numbered n (converter st) seen H) as H1.
  now destruct (getClassName n (converter st)).
Qed.

(** The traversal keeps the numbering: the ids of the nodes that get an
    element are added to the ids seen, in the order of the traversal. *)
Lemma generateHtmlWithStyles_numbered n :
  forall depth parent st seen, numbered (converter st) seen ->
    numbered (converter (snd (generateHtmlWithStyles n depth parent st)))
             (fold_left addId (idsOf (emitted n parent)) seen).
Proof.
  induction n as [n IH] using node_induction. intros depth parent st seen Hn.
  rewrite generateHtmlWithStyles_eq, emitted_eq. cbv zeta.
  assert (Hmap : forall depth parent st seen, numbered (converter st) seen ->
            numbered
              (converter
                 (snd (match FigmaNode.children n with
                       | Some ((_ :: _) as children) =>
                           let '(hs, st) := mapChildren children depth parent st in
                           (join (String "010" EmptyString) hs, st)
                       | _ => ("", st)
                       end)))
              (fold_left addId
                 (idsOf (match FigmaNode.children n with
                         | Some cs => emittedList cs parent
                         | None => []
                         end)) seen)).
  { intros d p s sn Hs. destruct (FigmaNode.children n) as [[|c cs]|] eqn:E; try exact Hs.
    pose proof (mapChildren_numbered (c :: cs) (fun c' Hin => IH _ c' eq_refl Hin)
                  d p s sn Hs) as H.
    now destruct (mapChildren (c :: cs) d p s). }
  destruct (negb (not_false (FigmaNode.visible n))); [exact Hn |].
  destruct (String.eqb (FigmaNode.type n) "DOCUMENT" || String.eqb (FigmaNode.type n) "CANVAS").
  { now apply Hmap. }
  destruct (String.eqb (FigmaNode.type n) "TEXT").
  { pose proof (pushStyle_numbered n parent st seen Hn) as H.
    now destruct (pushStyle n parent st). }
  destruct (isContainerType (FigmaNode.type n)); [| now apply Hmap].
  pose proof (pushStyle_numbered n parent st seen Hn) as H.
  destruct (pushStyle n parent st) as [cls st1]. cbn [snd] in H.
  cbn [idsOf map fst fold_left].
  specialize (Hmap (S depth) (Some n) st1 _ H).
  destruct (FigmaNode.children n) as [[|c cs]|]; try exact Hmap.
  now destruct (mapChildren (c :: cs) (S depth) (Some n) st1).
Qed.

End NumberingFacts.

Section NumberingClaims.

Variable atan2_degrees : num -> num -> num.

(** X21. The classes of a conversion number the node ids from 0 in the order
    in which the traversal first meets them: an element whose id is the k-th
    distinct id (counting from 0) among the elements has the class
    [figma-node-k], and the counter ends at the number of distinct ids. *)
Theorem classes_numbered_in_order (c : Converter) (n : FigmaNode.t) (e : StyleEntry) :
  In e (collect n) ->
  let distinct := firstSeen (map entryId (collect n)) in
  (exists k, Js.indexOf (entryId e) distinct = Some k
             /\ className e = "figma-node-" +:+ Js.string_of_nat k)
  /\ classCounter (snd (convertWithStyles atan2_degrees c n)) = length distinct.
Proof.
  intros Hin distinct. rewrite convertWithStyles_eq. cbn [snd].
  destruct (TraversalFacts.generateHtmlWithStyles_ok n 0 None (mkRun (mkConverter ∅ 0) []))
    as (_ & _ & He & _ & new & E & Hp & _).
  { apply TraversalFacts.classesOk_empty. }
  { intros e' []. }
  pose proof (NumberingFacts.generateHtmlWithStyles_numbered n 0 None
                (mkRun (mkConverter ∅ 0) []) [] NumberingFacts.numbered_empty) as [Hc Hn].
  assert (Eids : idsOf (emitted n None) = map entryId (collect n)).
  { unfold collect. rewrite E. cbn [nodeStyles app]. rewrite <- Hp.
    unfold idsOf. rewrite map_map. reflexivity. }
  rewrite Eids in Hc, Hn. fold (firstSeen (map entryId (collect n))) in Hc, Hn.
  fold distinct in Hc, Hn. split; [| exact Hc].
  pose proof (He e Hin) as Hl. rewrite Hn in Hl. unfold entryId.
  destruct (Js.indexOf (FigmaNode.id (node e)) distinct) as [k|]; [| discriminate Hl].
  exists k. split; [reflexivity |]. now injection Hl as <-.
Qed.

End NumberingClaims.

(** ** [convert] *)

Module ConvertFacts.
Import Js JsFacts NumText NumFacts TraversalFacts.

Lemma generateHtml_eq n depth c :
  generateHtml n depth c =
  if negb (not_false (FigmaNode.visible n)) then ("", c)
  else
    let indent := Js.repeat "  " depth in
    let '(className, c) := getClassName n c in
    let ty := FigmaNode.type n in
    if String.eqb ty "DOCUMENT" || String.eqb ty "CANVAS" then
      match FigmaNode.children n with
      | Some ((_ :: _) as children) =>
          let '(hs, c) := mapHtml children depth c in
          (Js.join (String "010" EmptyString) hs, c)
      | _ => ("", c)
      end
    else if String.eqb ty "TEXT" then
      let text := default "" (FigmaNode.characters n) in
      (indent +:+ "<div class=" +:+ Js.dquote +:+ className +:+ Js.dquote +:+ ">" +:+ escapeHtml text +:+ "</div>", c)
    else if isContainerType ty then
      let html := indent +:+ "<div class=" +:+ Js.dquote +:+ className +:+ Js.dquote +:+ ">" in
      match FigmaNode.children n with
      | Some ((_ :: _) as children) =>
          let '(hs, c) := mapHtml children (S depth) c in
          (html +:+ String "010" EmptyString
             +:+ Js.join (String "010" EmptyString) hs
             +:+ (String "010" EmptyString +:+ indent) +:+ "</div>", c)
      | _ => (html +:+ "</div>", c)
      end
    else
      match FigmaNode.children n with
      | Some ((_ :: _) as children) =>
          let '(hs, c) := mapHtml children depth c in
          (Js.join (String "010" EmptyString) hs, c)
      | _ => ("", c)
      end.
Proof. destruct n. reflexivity. Qed.

Lemma allEmitted_eq n :
  allEmitted n =
  if negb (not_false (FigmaNode.visible n)) then true
  else
    let ty := FigmaNode.type n in
    if String.eqb ty "DOCUMENT" || String.eqb ty "CANVAS" then false
    else if String.eqb ty "TEXT" then true
    else if isContainerType ty then
      match FigmaNode.children n with
      | Some cs => allEmittedList cs
      | None => true
      end
    else false.
Proof. destruct n. reflexivity. Qed.

Lemma length_emittedList_nil parent : length (emittedList [] parent) = 0.
Proof. reflexivity. Qed.

(** The markup of the children, under [generateHtml]. *)
Lemma mapHtml_ok cs :
  (forall c, In c cs ->
     forall depth parent conv, classesOk conv ->
       closedMarkup (fst (generateHtml c depth conv)) = true
       /\ countElements (fst (generateHtml c depth conv)) = length (emitted c parent)
       /\ classesOk (snd (generateHtml c depth conv))) ->
  forall depth parent conv, classesOk conv ->
    Forall (fun h => closedMarkup h = true) (fst (mapHtml cs depth conv))
    /\ countAll (fst (mapHtml cs depth conv)) = length (emittedList cs parent)
    /\ classesOk (snd (mapHtml cs depth conv)).
Proof.
  induction cs as [|c cs IH]; intros Hcs depth parent conv Hc.
  - cbn [mapHtml emittedList fst snd]. split; [constructor | split; [reflexivity | exact Hc]].
  - cbn [mapHtml emittedList].
    destruct (Hcs c (or_introl eq_refl) depth parent conv Hc) as (Hcl & Hn & Hc1).
    destruct (generateHtml c depth conv) as [h c1]. cbn [fst snd] in *.
    destruct (IH (fun c' Hin => Hcs c' (or_intror Hin)) depth parent c1 Hc1)
      as (Hcls & Hns & Hc2).
    destruct (mapHtml cs depth c1) as [hs c2]. cbn [fst snd] in *.
    split; [now constructor | split; [| exact Hc2]].
    cbn [countAll fold_right]. rewrite length_app. unfold countAll in Hns. lia.
Qed.

(** The markup of [generateHtml]: closed, with one element for each node
    that [emitted] lists. *)
Lemma generateHtml_ok n :
  forall depth parent conv, classesOk conv ->
    closedMarkup (fst (generateHtml n depth conv)) = true
    /\ countElements (fst (generateHtml n depth conv)) = length (emitted n parent)
    /\ classesOk (snd (generateHtml n depth conv)).
Proof.
  induction n as [n IH] using node_induction. intros depth parent conv Hc.
  rewrite generateHtml_eq, emitted_eq. cbv zeta.
  destruct (negb (not_false (FigmaNode.visible n))).
  { split; [reflexivity | split; [reflexivity | exact Hc]]. }
  destruct (getClassName_ok n conv Hc) as (Hc1 & _ & _ & Hplain).
  destruct (getClassName n conv) as [cls c1]. cbn [fst snd] in *.
  assert (Hpass : forall depth parent,
            let r := match FigmaNode.children n with
                     | Some ((_ :: _) as children) =>
                         let '(hs, c) := mapHtml children depth c1 in
                         (join (String "010" EmptyString) hs, c)
                     | _ => ("", c1)
                     end in
            closedMarkup (fst r) = true
            /\ countElements (fst r)
               = length (match FigmaNode.children n with
                         | Some cs => emittedList cs parent
                         | None => []
                         end)
            /\ classesOk (snd r)).
  { intros d p. destruct (FigmaNode.children n) as [[|c cs]|] eqn:E; cbv zeta.
    - split; [reflexivity | split; [reflexivity | exact Hc1]].
    - destruct (mapHtml_ok (c :: cs) (fun c' Hin => IH _ c' eq_refl Hin) d p c1 Hc1)
        as (Hcl & Hn & Hc2).
      destruct (mapHtml (c :: cs) d c1) as [hs c2]. cbn [fst snd] in *.
      split; [now apply join_closed | split; [| exact Hc2]].
      now rewrite join_count.
    - split; [reflexivity | split; [reflexivity | exact Hc1]]. }
  destruct (String.eqb (FigmaNode.type n) "DOCUMENT" || String.eqb (FigmaNode.type n) "CANVAS").
  { apply Hpass. }
  destruct (open_tag (Js.repeat "  " depth) cls (plain_repeat depth) Hplain) as [Ht1 Ht2].
  destruct (String.eqb (FigmaNode.type n) "TEXT").
  { pose proof (leaf_markup _ (escapeHtml (default "" (FigmaNode.characters n)))
                  Ht1 Ht2 (plain_escapeHtml _)) as [Hl1 Hl2].
    rewrite !append_assoc in Hl1, Hl2. cbn [fst snd length].
    split; [exact Hl1 | split; [exact Hl2 | exact Hc1]]. }
  destruct (isContainerType (FigmaNode.type n)); [| apply Hpass].
  destruct (FigmaNode.children n) as [[|c cs]|] eqn:E.
  - pose proof (leaf_markup _ "" Ht1 Ht2 eq_refl) as [Hl1 Hl2].
    change ("" +:+ "</div>") with "</div>" in Hl1, Hl2. cbn [fst snd length emittedList].
    split; [exact Hl1 | split; [exact Hl2 | exact Hc1]].
  - destruct (mapHtml_ok (c :: cs) (fun c' Hin => IH _ c' eq_refl Hin)
                (S depth) (Some n) c1 Hc1) as (Hcl & Hn & Hc2).
    destruct (mapHtml (c :: cs) (S depth) c1) as [hs c2]. cbn [fst snd] in *.
    destruct (container_markup _ hs (Js.repeat "  " depth) Ht1 Ht2 Hcl (plain_repeat depth))
      as [Hm1 Hm2].
    split; [exact Hm1 | split; [| exact Hc2]].
    rewrite Hm2, Hn. reflexivity.
  - pose proof (leaf_markup _ "" Ht1 Ht2 eq_refl) as [Hl1 Hl2].
    change ("" +:+ "</div>") with "</div>" in Hl1, Hl2. cbn [fst snd length].
    split; [exact Hl1 | split; [exact Hl2 | exact Hc1]].
Qed.

(** Where every visited node gets an element, the two traversals ask for the
    same classes in the same order. *)
Lemma mapHtml_same cs :
  (forall c, In c cs -> allEmitted c = true ->
     forall depth parent conv es,
       generateHtml c depth conv =
       (fst (generateHtmlWithStyles c depth parent (mkRun conv es)),
        converter (snd (generateHtmlWithStyles c depth parent (mkRun conv es))))) ->
  allEmittedList cs = true ->
  forall depth parent conv es,
    mapHtml cs depth conv =
    (fst (mapChildren cs depth parent (mkRun conv es)),
     converter (snd (mapChildren cs depth parent (mkRun conv es)))).
Proof.
  induction cs as [|c cs IH]; intros Hcs Hall depth parent conv es; [reflexivity |].
  cbn [allEmittedList] in Hall. apply andb_prop in Hall as [Hc Hall].
  cbn [mapHtml mapChildren].
  rewrite (Hcs c (or_introl eq_refl) Hc depth parent conv es).
  destruct (generateHtmlWithStyles c depth parent (mkRun conv es)) as [h [c1 es1]].
  cbn [fst snd converter].
  rewrite (IH (fun c' Hin => Hcs c' (or_intror Hin)) Hall depth parent c1 es1).
  now destruct (mapChildren cs depth parent (mkRun c1 es1)).
Qed.

Lemma generateHtml_same n :
  allEmitted n = true ->
  forall depth parent conv es,
    generateHtml n depth conv =
    (fst (generateHtmlWithStyles n depth parent (mkRun conv es)),
     converter (snd (generateHtmlWithStyles n depth parent (mkRun conv es)))).
Proof.
  induction n as [n IH] using node_induction. intros Hall depth parent conv es.
  rewrite generateHtml_eq, generateHtmlWithStyles_eq. rewrite allEmitted_eq in Hall.
  cbv zeta in *.
  destruct (negb (not_false (FigmaNode.visible n))); [reflexivity |].
  destruct (String.eqb (FigmaNode.type n) "DOCUMENT" || String.eqb (FigmaNode.type n) "CANVAS");
    [discriminate Hall |].
  unfold pushStyle. cbn [converter nodeStyles].
  destruct (getClassName n conv) as [cls c1].
  destruct (String.eqb (FigmaNode.type n) "TEXT"); [reflexivity |].
  destruct (isContainerType (FigmaNode.type n)); [| discriminate Hall].
  destruct (FigmaNode.children n) as [[|c cs]|] eqn:E; try reflexivity.
  rewrite (mapHtml_same (c :: cs) (fun c' Hin Hc' => IH _ c' eq_refl Hin Hc') Hall
             (S depth) (Some n) c1 (push (mkEntry cls n parent) es)).
  now destruct (mapChildren (c :: cs) (S depth) (Some n) _).
Qed.

End ConvertFacts.

Section ConvertClaims.
Import Js JsFacts TraversalFacts ConvertFacts.

Variable atan2_degrees : num -> num -> num.

(** X22. [convert] gives the same elements as [convertWithStyles], one for
    each visible node of a recognized kind, and a stylesheet that is the
    fixed header whatever the tree: it has no rule for any class. *)
Theorem convert_elements_without_rules (c : Converter) (n : FigmaNode.t) :
  let out := fst (convert c n) in
  css out = generateCss
  /\ countElements (html out) = length (emitted n None)
  /\ countElements (html out)
     = countElements (html (fst (convertWithStyles atan2_degrees c n))).
Proof.
  intros out. unfold out, convert.
  destruct (generateHtml_ok n 0 None (mkConverter ∅ 0) classesOk_empty) as (_ & Hn & _).
  destruct (generateHtml n 0 (mkConverter ∅ 0)) as [h c1]. cbn [fst snd html css] in *.
  split; [reflexivity | split; [exact Hn |]].
  rewrite convertWithStyles_eq. cbn [fst html].
  destruct (collect_ok n) as (_ & _ & _ & Hp & Hcount).
  rewrite Hn, Hcount, <- Hp. now rewrite length_map.
Qed.

(** X23. On a tree where every visible node that the traversal reaches is a
    text or one of the seven container kinds, [convert] and
    [convertWithStyles] give the same markup and leave the same class table;
    a document, a canvas or a node of another kind takes a class number in
    [convert] only. *)
Theorem convert_same_markup (c : Converter) (n : FigmaNode.t) :
  allEmitted n = true ->
  html (fst (convert c n)) = html (fst (convertWithStyles atan2_degrees c n))
  /\ snd (convert c n) = snd (convertWithStyles atan2_degrees c n).
Proof.
  intros Hall. rewrite convertWithStyles_eq. unfold convert.
  rewrite (generateHtml_same n Hall 0 None (mkConverter ∅ 0) []).
  split; reflexivity.
Qed.

End ConvertClaims.

(** ** Opening and closing tags *)

Module TagFacts.
Import Js JsFacts NumText NumFacts RadiusFacts TraversalFacts.

Lemma wholeTags_closed s : wholeTags s = true -> closedMarkup s = true.
Proof.
  induction s as [|c s IH]; [reflexivity |].
  cbn [wholeTags closedMarkup]. intros [Hc Hs]%andb_prop. rewrite (IH Hs), andb_true_r.
  destruct (Ascii.eqb c "<"); [| reflexivity].
  apply orb_prop in Hc as [H | H]; apply orb_true_intro; [now left | right].
  exact (startsWith_prefix "/" "div>" _ H).
Qed.

Lemma wholeTags_append a b :
  wholeTags a = true -> wholeTags b = true -> wholeTags (a +:+ b) = true.
Proof.
  induction a as [|c a IH]; intros Ha Hb; [exact Hb |].
  cbn [wholeTags] in Ha. apply andb_prop in Ha as [Hc Ha].
  cbn [String.append wholeTags]. rewrite (IH Ha Hb), andb_true_r.
  destruct (Ascii.eqb c "<"); [| reflexivity].
  apply orb_prop in Hc as [H | H]; apply orb_true_intro.
  - left. now apply startsWith_app_l.
  - right. now apply startsWith_app_l.
Qed.

Lemma countClosing_cons c s :
  countClosing (String c s) =
  (if startsWith "</div>" (String c s) then 1 else 0) + countClosing s.
Proof. reflexivity. Qed.

Lemma countClosing_append a b :
  wholeTags a = true -> countClosing (a +:+ b) = countClosing a + countClosing b.
Proof.
  induction a as [|c a IH]; intros H.
  - simpl. destruct b; reflexivity.
  - cbn [wholeTags] in H. apply andb_prop in H as [Hc Ha].
    cbn [String.append]. rewrite !countClosing_cons, (IH Ha).
    assert (E : startsWith "</div>" (String c (a +:+ b)) = startsWith "</div>" (String c a));
      [| rewrite E; lia].
    change (startsWith "</div>" (String c (a +:+ b)))
      with (if Ascii.eqb "<" c then startsWith "/div>" (a +:+ b) else false).
    change (startsWith "</div>" (String c a))
      with (if Ascii.eqb "<" c then startsWith "/div>" a else false).
    destruct (Ascii.eqb "<" c) eqn:Ec; [| reflexivity].
    apply Ascii.eqb_eq in Ec. subst c. change (Ascii.eqb "<" "<") with true in Hc.
    cbv iota in Hc. apply orb_prop in Hc as [Hd | Hs].
    + destruct a as [|d a]; [discriminate |]. simpl in Hd.
      destruct (Ascii.eqb "d" d) eqn:Ed; [| discriminate].
      apply Ascii.eqb_eq in Ed. subst d. reflexivity.
    + rewrite Hs. now rewrite (startsWith_app_l _ _ b Hs).
Qed.

Lemma plain_whole s : has_char "<" s = false -> wholeTags s = true.
Proof.
  induction s as [|c s IH]; intros H; [reflexivity |].
  simpl in H. rewrite Ascii.eqb_sym in H. cbn [wholeTags].
  destruct (Ascii.eqb c "<"); [discriminate |]. now rewrite IH.
Qed.

Lemma plain_closing s : has_char "<" s = false -> countClosing s = 0.
Proof.
  induction s as [|c s IH]; intros H; [reflexivity |].
  simpl in H. rewrite countClosing_cons.
  change (startsWith "</div>" (String c s))
    with (if Ascii.eqb "<" c then startsWith "/div>" s else false).
  destruct (Ascii.eqb "<" c); [discriminate |]. now rewrite IH.
Qed.

Lemma balanced_plain s : has_char "<" s = false -> balanced s.
Proof.
  intros H. split; [now apply plain_whole |].
  now rewrite plain_closing, plain_count.
Qed.

Lemma balanced_append a b : balanced a -> balanced b -> balanced (a +:+ b).
Proof.
  intros [Ha1 Ha2] [Hb1 Hb2]. split; [now apply wholeTags_append |].
  rewrite countClosing_append by exact Ha1.
  rewrite countElements_append by now apply wholeTags_closed. lia.
Qed.

Lemma balanced_join sep parts :
  has_char "<" sep = false -> Forall balanced parts -> balanced (join sep parts).
Proof.
  intros Hsep H. unfold join. induction H as [|h parts Hh Hparts IH].
  - now apply balanced_plain.
  - cbn [String.concat]. destruct parts as [|h' parts]; [exact Hh |].
    apply balanced_append; [exact Hh |].
    apply balanced_append; [now apply balanced_plain | exact IH].
Qed.

(** An element: its opening tag, a balanced content, its closing tag. *)
Lemma balanced_element indent cls content :
  has_char "<" indent = false -> has_char "<" cls = false -> balanced content ->
  balanced ((indent +:+ "<div class=" +:+ Js.dquote +:+ cls +:+ Js.dquote +:+ ">")
              +:+ content +:+ "</div>").
Proof.
  intros Hi Hc [Hw Hn].
  assert (Hp : has_char "<" (Js.dquote +:+ cls +:+ Js.dquote +:+ ">") = false).
  { rewrite !has_char_append, Hc. reflexivity. }
  assert (Ho : wholeTags ("<div class=" +:+ Js.dquote +:+ cls +:+ Js.dquote +:+ ">") = true).
  { apply (wholeTags_append "<div class="); [reflexivity | now apply plain_whole]. }
  assert (Ht : wholeTags (indent +:+ "<div class=" +:+ Js.dquote +:+ cls +:+ Js.dquote +:+ ">")
               = true).
  { apply wholeTags_append; [now apply plain_whole | exact Ho]. }
  destruct (open_tag indent cls Hi Hc) as [_ Hone].
  split.
  - apply wholeTags_append; [exact Ht |].
    apply wholeTags_append; [exact Hw | reflexivity].
  - rewrite (countClosing_append _ _ Ht), (countClosing_append _ _ Hw).
    rewrite (countElements_append _ _ (wholeTags_closed _ Ht)).
    rewrite (countElements_append _ _ (wholeTags_closed _ Hw)).
    rewrite Hone, Hn.
    rewrite (countClosing_append _ _ (plain_whole _ Hi)), (plain_closing _ Hi).
    rewrite (countClosing_append "<div class=") by reflexivity.
    rewrite (plain_closing _ Hp).
    change (countClosing "<div class=") with 0.
    change (countClosing "</div>") with 1.
    change (countElements "</div>") with 0. lia.
Qed.

Lemma mapChildren_balanced cs :
  (forall c, In c cs ->
     forall depth parent st, classesOk (converter st) -> entriesOk st ->
       balanced (fst (generateHtmlWithStyles c depth parent st))) ->
  forall depth parent st, classesOk (converter st) -> entriesOk st ->
    Forall balanced (fst (mapChildren cs depth parent st)).
Proof.
  induction cs as [|c cs IH]; intros Hcs depth parent st Hc He; [constructor |].
  cbn [mapChildren].
  pose proof (Hcs c (or_introl eq_refl) depth parent st Hc He) as Hb.
  destruct (generateHtmlWithStyles_ok c depth parent st Hc He) as (_ & Hc1 & He1 & _).
  destruct (generateHtmlWithStyles c depth parent st) as [h st1]. cbn [fst snd] in *.
  pose proof (IH (fun c' Hin => Hcs c' (or_intror Hin)) depth parent st1 Hc1 He1) as Hbs.
  destruct (mapChildren cs depth parent st1) as [hs st2]. cbn [fst] in *.
  now constructor.
Qed.

(** The markup of a tree has whole tags, as many closing as opening. *)
Lemma generateHtmlWithStyles_balanced n :
  forall depth parent st, classesOk (converter st) -> entriesOk st ->
    balanced (fst (generateHtmlWithStyles n depth parent st)).
Proof.
  induction n as [n IH] using node_induction. intros depth parent st Hc He.
  rewrite generateHtmlWithStyles_eq. cbv zeta.
  assert (Hpass : forall depth parent st, classesOk (converter st) -> entriesOk st ->
            balanced (fst (match FigmaNode.children n with
                           | Some ((_ :: _) as children) =>
                               let '(hs, st) := mapChildren children depth parent st in
                               (join (String "010" EmptyString) hs, st)
                           | _ => ("", st)
                           end))).
  { intros d p s Hcs Hes. destruct (FigmaNode.children n) as [[|c cs]|] eqn:E;
      try (now apply balanced_plain).
    pose proof (mapChildren_balanced (c :: cs) (fun c' Hin => IH _ c' eq_refl Hin)
                  d p s Hcs Hes) as H.
    destruct (mapChildren (c :: cs) d p s) as [hs s']. cbn [fst] in *.
    now apply balanced_join. }
  destruct (negb (not_false (FigmaNode.visible n))); [now apply balanced_plain |].
  destruct (String.eqb (FigmaNode.type n) "DOCUMENT" || String.eqb (FigmaNode.type n) "CANVAS").
  { now apply Hpass. }
  destruct (String.eqb (FigmaNode.type n) "TEXT").
  { destruct (pushStyle_ok n parent st Hc He) as [_ Hplain].
    destruct (pushStyle n parent st) as [cls st1]. cbn [fst snd] in *.
    pose proof (balanced_element (Js.repeat "  " depth) cls
                  (escapeHtml (default "" (FigmaNode.characters n)))
                  (plain_repeat depth) Hplain (balanced_plain _ (plain_escapeHtml _))) as H.
    now rewrite !append_assoc in H. }
  destruct (isContainerType (FigmaNode.type n)); [| now apply Hpass].
  destruct (pushStyle_ok n parent st Hc He) as [Hstep Hplain].
  destruct (pushStyle n parent st) as [cls st1]. cbn [fst snd] in *.
  assert (Hok1 : classesOk (converter st1) /\ entriesOk st1).
  { destruct Hstep as (? & ? & _). now split. }
  destruct (FigmaNode.children n) as [[|c cs]|] eqn:E.
  - cbn [fst].
    exact (balanced_element (Js.repeat "  " depth) cls "" (plain_repeat depth) Hplain
             (balanced_plain "" eq_refl)).
  - pose proof (mapChildren_balanced (c :: cs) (fun c' Hin => IH _ c' eq_refl Hin)
                  (S depth) (Some n) st1 (proj1 Hok1) (proj2 Hok1)) as Hbs.
    destruct (mapChildren (c :: cs) (S depth) (Some n) st1) as [hs st2]. cbn [fst] in *.
    pose proof (balanced_element (Js.repeat "  " depth) cls
                  (String "010" EmptyString +:+ join (String "010" EmptyString) hs
                     +:+ (String "010" EmptyString +:+ Js.repeat "  " depth))
                  (plain_repeat depth) Hplain) as H.
    rewrite !append_assoc in H. rewrite !append_assoc. apply H.
    apply (balanced_append (String "010" EmptyString)); [now apply balanced_plain |].
    apply balanced_append; [now apply balanced_join |].
    apply balanced_plain. cbn [String.append has_char]. apply plain_repeat.
  - cbn [fst].
    exact (balanced_element (Js.repeat "  " depth) cls "" (plain_repeat depth) Hplain
             (balanced_plain "" eq_refl)).
Qed.

End TagFacts.

Section TagClaims.
Import Js JsFacts TraversalFacts TagFacts.

Variable atan2_degrees : num -> num -> num.

(** X24. The markup of a conversion has as many closing tags as opening
    tags, and every [<] in it starts one of them: the text of a node adds
    no tag of its own. *)
Theorem markup_tags_balanced (c : Converter) (n : FigmaNode.t) :
  let markup := html (fst (convertWithStyles atan2_degrees c n)) in
  wholeTags markup = true /\ countClosing markup = countElements markup.
Proof.
  intros markup. unfold markup. rewrite convertWithStyles_eq. cbn [fst html].
  apply generateHtmlWithStyles_balanced.
  - apply classesOk_empty.
  - intros e [].
Qed.

End TagClaims.

(** ** Auto-layout *)

Section LayoutClaims.
Import Js JsFacts NumText NumFacts.

Variable atan2_degrees : num -> num -> num.

(** A declaration that the layout block has pushed stays in the style. *)
Lemma layout_line_kept n parent l :
  truthy_str (FigmaNode.layoutMode n) = true ->
  (forall styles,
     In l (flexAlignment n (flexPadding n (flexGap n
             (flexDirection (default "" (FigmaNode.layoutMode n)) styles))))) ->
  Regex.test Patterns.borderLine l = false ->
  In l (nodeStyleLines atan2_degrees n parent).
Proof.
  intros Hm Hl Hb. unfold nodeStyleLines. apply fixDoubleBorders_keeps; [| exact Hb].
  rewrite stylesBeforeFix_eq. apply in_or_app. left.
  unfold autoLayout. rewrite Hm. apply positioningContext_keeps. apply Hl.
Qed.

Lemma in_push {A} (x : A) (xs : list A) : In x (push x xs).
Proof. unfold push. apply in_or_app. right. now left. Qed.

(** X25. A node with a truthy [layoutMode] is a flex container: its style
    has [display: flex], the direction row for HORIZONTAL and column for
    VERTICAL, the gap of a spacing that is not zero, and, when one padding
    at least is not zero, the four paddings in the order top, right, bottom,
    left with 0 for the others. A node without a truthy [layoutMode] has no
    direction, gap or padding rule, whatever its spacing and paddings. *)
Theorem auto_layout_rules (n : FigmaNode.t) (parent : option FigmaNode.t) :
  let lines := nodeStyleLines atan2_degrees n parent in
  if truthy_str (FigmaNode.layoutMode n) then
    In "  display: flex;" lines
    /\ (FigmaNode.layoutMode n = Some "HORIZONTAL" -> In "  flex-direction: row;" lines)
    /\ (FigmaNode.layoutMode n = Some "VERTICAL" -> In "  flex-direction: column;" lines)
    /\ (forall gap, FigmaNode.itemSpacing n = Some gap -> Num.truthy gap = true ->
        In ("  gap: " +:+ Num.toString (Num.round2 gap) +:+ "px;") lines)
    /\ (truthy_num (FigmaNode.paddingLeft n) || truthy_num (FigmaNode.paddingRight n)
        || truthy_num (FigmaNode.paddingTop n) || truthy_num (FigmaNode.paddingBottom n) = true ->
        In ("  padding: " +:+ px2 (or_zero (FigmaNode.paddingTop n)) +:+ "px "
              +:+ px2 (or_zero (FigmaNode.paddingRight n)) +:+ "px "
              +:+ px2 (or_zero (FigmaNode.paddingBottom n)) +:+ "px "
              +:+ px2 (or_zero (FigmaNode.paddingLeft n)) +:+ "px;") lines)
  else
    Forall (fun l => startsWith "  flex-direction" l = false
                     /\ startsWith "  gap:" l = false
                     /\ startsWith "  padding:" l = false) lines.
Proof.
  intros lines. destruct (truthy_str (FigmaNode.layoutMode n)) eqn:Hm.
  - repeat split.
    + apply layout_line_kept; [exact Hm | | no_border_line].
      intros styles.
      apply (appends_keeps _ _ _ _ (flexAlignment_appends n)).
      apply (appends_keeps _ _ _ _ (flexPadding_appends n)).
      apply (appends_keeps _ _ _ _ (flexGap_appends n)).
      unfold flexDirection.
      repeat match goal with |- context [if ?b then _ else _] => destruct b end;
        unfold push; rewrite ?in_app_iff; cbn [In]; tauto.
    + intros E. apply layout_line_kept; [exact Hm | | no_border_line].
      intros styles. rewrite E. cbn [default].
      apply (appends_keeps _ _ _ _ (flexAlignment_appends n)).
      apply (appends_keeps _ _ _ _ (flexPadding_appends n)).
      apply (appends_keeps _ _ _ _ (flexGap_appends n)).
      unfold flexDirection. change (String.eqb "HORIZONTAL" "HORIZONTAL") with true.
      cbv iota. apply in_push.
    + intros E. apply layout_line_kept; [exact Hm | | no_border_line].
      intros styles. rewrite E. cbn [default].
      apply (appends_keeps _ _ _ _ (flexAlignment_appends n)).
      apply (appends_keeps _ _ _ _ (flexPadding_appends n)).
      apply (appends_keeps _ _ _ _ (flexGap_appends n)).
      unfold flexDirection. change (String.eqb "VERTICAL" "HORIZONTAL") with false.
      change (String.eqb "VERTICAL" "VERTICAL") with true.
      cbv iota. apply in_push.
    + intros gap Eg Hg. apply layout_line_kept; [exact Hm | | no_border_line].
      intros styles.
      apply (appends_keeps _ _ _ _ (flexAlignment_appends n)).
      apply (appends_keeps _ _ _ _ (flexPadding_appends n)).
      unfold flexGap, truthy_num, or_zero, px2. rewrite Eg, Hg. apply in_push.
    + intros Hp. apply layout_line_kept; [exact Hm | | no_border_line].
      intros styles.
      apply (appends_keeps _ _ _ _ (flexAlignment_appends n)).
      unfold flexPadding. rewrite Hp. apply in_push.
  - apply nodeStyleLines_Forall; try (intros; line_cases; fail).
    + early_lines line_cases.
    + intros E. congruence.
    + early_lines line_cases.
    + early_lines line_cases.
Qed.

End LayoutClaims.

(** ** Effects *)

Module EffectFacts.
Import Js JsFacts.

Lemma shadowOf_app e shadows : shadowOf e shadows = shadows ++ shadowOf e [].
Proof.
  unfold shadowOf, push. destruct_matches; rewrite ?app_nil_r; reflexivity.
Qed.

(** The loop over the effects puts the shadow of each after the others. *)
Lemma shadows_flat_map effs shadows :
  fold_left (fun shadows effect => shadowOf effect shadows) effs shadows
  = shadows ++ flat_map (fun e => shadowOf e []) effs.
Proof.
  revert shadows. induction effs as [|e effs IH]; intros shadows; cbn [fold_left flat_map].
  - now rewrite app_nil_r.
  - rewrite IH, (shadowOf_app e shadows). now rewrite <- app_assoc.
Qed.

Lemma noShadow_nil e : noShadow e -> shadowOf e [] = [].
Proof.
  unfold noShadow, shadowOf. intros [H | [H | [H | [H1 H2]]]].
  - now rewrite H.
  - rewrite H. now destruct (not_false _).
  - rewrite H. destruct (not_false _); [| reflexivity]. now destruct (Effect.offset e).
  - apply String.eqb_neq in H1, H2. rewrite H1, H2. now destruct_matches.
Qed.

Lemma effectShadows_eq n effs styles :
  FigmaNode.effects n = Some effs ->
  effectShadows n styles =
  match flat_map (fun e => shadowOf e []) effs with
  | [] => styles
  | shadows => push ("  box-shadow: " +:+ join ", " shadows +:+ ";") styles
  end.
Proof.
  intros E. unfold effectShadows. rewrite E.
  destruct effs as [|e effs]; [reflexivity |].
  rewrite shadows_flat_map. cbn [app].
  now destruct (flat_map (fun e => shadowOf e []) (e :: effs)).
Qed.

(** The other blocks do not read the effects. *)
Ltac same_block f :=
  unfold f;
  cbn [withEffects FigmaNode.absoluteBoundingBox FigmaNode.type FigmaNode.fills
       FigmaNode.strokes FigmaNode.strokeWeight FigmaNode.strokeAlign FigmaNode.cornerRadius
       FigmaNode.rectangleCornerRadii FigmaNode.style FigmaNode.opacity FigmaNode.layoutMode
       FigmaNode.itemSpacing FigmaNode.paddingLeft FigmaNode.paddingRight
       FigmaNode.paddingTop FigmaNode.paddingBottom FigmaNode.primaryAxisAlignItems
       FigmaNode.counterAxisAlignItems FigmaNode.clipsContent];
  reflexivity.

Lemma positionAndSize_withEffects n effs parent styles :
  positionAndSize (withEffects n effs) parent styles = positionAndSize n parent styles.
Proof. same_block positionAndSize. Qed.

Lemma borderRadius_withEffects n effs : borderRadius (withEffects n effs) = borderRadius n.
Proof. same_block borderRadius. Qed.

Lemma strokeBorders_withEffects n effs info styles :
  strokeBorders (withEffects n effs) info styles = strokeBorders n info styles.
Proof. unfold strokeBorders, strokeAlignOrInside. same_block strokeBorders. Qed.

Lemma nodeOpacity_withEffects n effs styles :
  nodeOpacity (withEffects n effs) styles = nodeOpacity n styles.
Proof. same_block nodeOpacity. Qed.

Lemma textStyles_withEffects n effs styles :
  textStyles (withEffects n effs) styles = textStyles n styles.
Proof. unfold textStyles, textColor. same_block textStyles. Qed.

Lemma autoLayout_withEffects n effs parent styles :
  autoLayout (withEffects n effs) parent styles = autoLayout n parent styles.
Proof.
  unfold autoLayout, flexGap, flexPadding, flexAlignment, positioningContext.
  same_block autoLayout.
Qed.

Lemma clipping_withEffects n effs styles :
  clipping (withEffects n effs) styles = clipping n styles.
Proof. same_block clipping. Qed.

End EffectFacts.

Section EffectClaims.
Import Js JsFacts EffectFacts.

Variable atan2_degrees : num -> num -> num.

(** X26. The shadows of the effects are one [box-shadow] rule that lists,
    in the order of the effects, the shadow of each effect that gives one;
    an effect that gives none (hidden, without offset or color, or of
    another type) can be taken out of the list, or put anywhere in it,
    without any change to the style. *)
Theorem effects_box_shadow
    (n : FigmaNode.t) (parent : option FigmaNode.t) (before after : list Effect.t)
    (e : Effect.t) :
  noShadow e ->
  generateNodeStyles atan2_degrees (withEffects n (before ++ e :: after)) parent
  = generateNodeStyles atan2_degrees (withEffects n (before ++ after)) parent
  /\ (forall effs shadow shadows,
        FigmaNode.effects n = Some effs ->
        flat_map (fun e => shadowOf e []) effs = shadow :: shadows ->
        In ("  box-shadow: " +:+ join ", " (shadow :: shadows) +:+ ";")
           (nodeStyleLines atan2_degrees n parent)).
Proof.
  intros He. split.
  - assert (Hback : forall effs styles,
               backgroundFill atan2_degrees (withEffects n effs) styles
               = backgroundFill atan2_degrees n styles) by reflexivity.
    assert (Hsh : forall styles,
               effectShadows (withEffects n (before ++ e :: after)) styles
               = effectShadows (withEffects n (before ++ after)) styles).
    { intros styles.
      rewrite (effectShadows_eq _ (before ++ e :: after)) by reflexivity.
      rewrite (effectShadows_eq _ (before ++ after)) by reflexivity.
      rewrite !flat_map_app. cbn [flat_map]. now rewrite (noShadow_nil e He). }
    unfold generateNodeStyles, nodeStyleLines, stylesBeforeFix.
    rewrite !clipping_withEffects, Hsh, !autoLayout_withEffects, !textStyles_withEffects,
      !nodeOpacity_withEffects, !borderRadius_withEffects, !strokeBorders_withEffects,
      !Hback, !positionAndSize_withEffects.
    reflexivity.
  - intros effs shadow shadows E Hs. unfold nodeStyleLines.
    apply fixDoubleBorders_keeps; [| no_border_line].
    rewrite stylesBeforeFix_eq. apply in_or_app. right. apply in_or_app. left.
    rewrite (effectShadows_eq n effs [] E), Hs. unfold push. simpl. auto.
Qed.

End EffectClaims.

(** ** The properties on the sample inputs *)

Module Examples.
Import Js Sample.

(** The style of the sample rectangle with an INSIDE stroke in the frame. *)
Example roundedTop_inside_style :
  generateNodeStyles atan2_degrees (roundedTop "INSIDE") (Some frame) =
  join (String "010" EmptyString)
    [ "  position: absolute;"; "  left: 5px;"; "  top: 20px;"; "  width: 100px;";
      "  height: 40px;"; "  background-color: rgb(255, 255, 255);";
      "  box-sizing: border-box;"; "  border-left: 1px solid rgb(0, 0, 0);";
      "  border-right: 1px solid rgb(0, 0, 0);"; "  border-top: 1px solid rgb(0, 0, 0);";
      "  border-radius: 8px 8px 0px 0px;" ].
Proof. vm_compute. reflexivity. Qed.

(** Nearest 0.01: 10.004 gives 10 and 10.005 gives 10.01; a color with alpha
    1 and one with alpha 0.5. *)
Example rounding_and_colors :
  px2 (Num.decimal 10004 3) = "10" /\ px2 (Num.decimal 10005 3) = "10.01"
  /\ rgbaToString white None = "rgb(255, 255, 255)"
  /\ rgbaToString black (Some (Num.decimal 5 1)) = "rgba(0, 0, 0, 0.5)".
Proof. vm_compute. repeat split. Qed.

(** A gradient from (0,0) to (1,1) with stops at 0 and 1. *)
Example gradient_135 :
  generateLinearGradient atan2_degrees
    (Paint.mk "GRADIENT_LINEAR" None None None
       (Some [Vector.mk Num.zero Num.zero; Vector.mk Num.one Num.one]) (Some twoStops))
  = "linear-gradient(135deg, rgb(0, 0, 0) 0%, rgb(255, 255, 255) 100%)".
Proof. vm_compute. reflexivity. Qed.

(** The conversion of the sample document. *)
Example document_markup :
  html (fst (convertWithStyles atan2_degrees newConverter document)) =
  join (String "010" EmptyString)
    [ tag "figma-node-0";
      "  " +:+ tag "figma-node-1" +:+ "</div>";
      "  " +:+ tag "figma-node-2" +:+ "a&lt;b</div>";
      "";
      "</div>" ].
Proof. vm_compute. reflexivity. Qed.

(** *** C1 *)

(** A frame without any optional field gets an element and no rule. *)
Lemma bare_frame_element_without_rule :
  let out := fst (convertWithStyles atan2_degrees newConverter (FigmaNode.bare "1:5" "FRAME")) in
  html out = tag "figma-node-0" +:+ "</div>"
  /\ countElements (html out) = 1
  /\ css out = cssPreamble
  /\ includes "figma-node-0" (css out) = false
  /\ length (List.filter (hasStyle atan2_degrees) (collect (FigmaNode.bare "1:5" "FRAME"))) = 0.
Proof. vm_compute. repeat split. Qed.

Lemma one_entry_per_element_witness :
  forallb (hasStyle atan2_degrees) (collect document) = true
  /\ length (List.filter (hasStyle atan2_degrees) (collect document))
     = countElements (html (fst (convertWithStyles atan2_degrees newConverter document))).
Proof.
  split; [vm_compute; reflexivity |].
  apply (one_entry_per_element_one_rule_per_style atan2_degrees newConverter document).
  vm_compute. reflexivity.
Defined.

(** *** C2 *)


(** *** C3 *)


(** *** C4 *)



(** *** C5 *)


(** *** C6 *)



(** *** C7 *)

Lemma invisible_node_witness :
  FigmaNode.visible hidden = Some false
  /\ generateHtmlWithStyles hidden 1 (Some frame) (mkRun newConverter [])
     = ("", mkRun newConverter []).
Proof.
  split; [reflexivity |].
  apply (invisible_node_contributes_nothing atan2_degrees hidden 1 (Some frame)
           (mkRun newConverter []) eq_refl).
Defined.

(** *** C8 *)

Lemma classes_unique_witness :
  List.NoDup (map (fun e => FigmaNode.id (node e)) (collect document))
  /\ List.NoDup (map className (collect document)).
Proof.
  assert (H : List.NoDup (map (fun e => FigmaNode.id (node e)) (collect document))).
  { vm_compute. repeat constructor; intros H;
      repeat (destruct H as [H | H]; [discriminate H |]); exact H. }
  split; [exact H |].
  destruct (conversion_deterministic_classes_unique atan2_degrees) as (_ & _ & _ & Hnodup).
  exact (Hnodup document H).
Defined.

(** *** C9 *)

Lemma terminates_witness :
  FigmaNode.depth document < 5
  /\ convertWithStylesFuel atan2_degrees 5 newConverter document
     = Some (convertWithStyles atan2_degrees newConverter document).
Proof.
  assert (H : FigmaNode.depth document < 5) by (vm_compute; lia).
  split; [exact H |].
  destruct (convertWithStyles_terminates atan2_degrees newConverter document)
    as (out & c' & E & Hfuel).
  rewrite E. exact (Hfuel 5 H).
Defined.

(** *** C10 *)

(** A text node without a style block gets no color rule from its fill. *)
Lemma text_without_style_has_no_color :
  let lines := nodeStyleLines atan2_degrees (label (solid white) None) (Some frame) in
  FigmaNode.type (label (solid white) None) = "TEXT"
  /\ FigmaNode.fills (label (solid white) None) = Some [solid white]
  /\ lines =
     [ "  position: absolute;"; "  left: 5px;"; "  top: 70px;"; "  width: 100px;";
       "  min-height: 40px;"; "  background-color: rgb(255, 255, 255);" ]
  /\ ~ In ("  color: " +:+ rgbaToString white None +:+ ";") lines.
Proof.
  vm_compute. repeat split; try reflexivity.
  intros H. repeat (destruct H as [H | H]; [discriminate H |]). exact H.
Qed.

Lemma text_color_witness :
  FigmaNode.type (label (hiddenSolid white) (Some inter)) = "TEXT"
  /\ FigmaNode.style (label (hiddenSolid white) (Some inter)) = Some inter
  /\ FigmaNode.fills (label (hiddenSolid white) (Some inter)) = Some [hiddenSolid white]
  /\ Paint.visible (hiddenSolid white) = Some false
  /\ In "  color: rgb(255, 255, 255);"
        (nodeStyleLines atan2_degrees (label (hiddenSolid white) (Some inter)) (Some frame))
  /\ Forall (fun l => startsWith "  background-color" l = false)
        (nodeStyleLines atan2_degrees (label (hiddenSolid white) (Some inter)) (Some frame)).
Proof.
  repeat (split; [reflexivity |]).
  pose proof (text_color_ignores_fill_visibility atan2_degrees
                (label (hiddenSolid white) (Some inter)) (Some frame) inter
                (hiddenSolid white) [] white eq_refl eq_refl eq_refl eq_refl eq_refl) as H.
  cbv zeta in H. destruct H as [Hcolor Hbg].
  split; [exact Hcolor | exact (Hbg eq_refl)].
Defined.

End Examples.

(** ** The further properties on the sample inputs *)

Module MoreExamples.
Import Js Sample Fixture.

(** The unstyled conversion of the sample document numbers its frame 2: the
    document and the canvas have taken 0 and 1. *)
Example convert_document :
  html (fst (convert newConverter document)) =
  join (String "010" EmptyString)
    [ tag "figma-node-2";
      "  " +:+ tag "figma-node-3" +:+ "</div>";
      "  " +:+ tag "figma-node-4" +:+ "a&lt;b</div>";
      "";
      "</div>" ].
Proof. vm_compute. reflexivity. Qed.

(** A horizontal auto-layout frame in the sample frame. *)
Example row_style :
  nodeStyleLines atan2_degrees row (Some frame) =
  [ "  position: absolute;"; "  left: -15px;"; "  top: -10px;"; "  width: 300px;";
    "  height: 40px;"; "  display: flex;"; "  flex-direction: row;"; "  gap: 8px;";
    "  padding: 0px 0px 0px 16px;" ].
Proof. vm_compute. reflexivity. Qed.


Lemma extractFileKey_plain_key_witness :
  includes "figma.com/" "ABC123" = false /\ Index.extractFileKey "ABC123" = "ABC123".
Proof.
  split; [reflexivity |]. apply (extractFileKey_plain_key "ABC123"). reflexivity.
Defined.

Lemma extractFileKey_url_witness :
  has_char "f" "https://www." = false
  /\ Index.alnum "A" = true /\ NumText.all_chars Index.alnum "BC123" = true
  /\ Index.extractFileKey "https://www.figma.com/file/ABC123/My-Design" = "ABC123".
Proof.
  repeat (split; [reflexivity |]).
  apply (extractFileKey_url "https://www." "file" "A" "BC123" "/My-Design");
    first [reflexivity | left; reflexivity].
Defined.

Lemma relative_position_witness :
  FigmaNode.absoluteBoundingBox (roundedTop "INSIDE") = Some (box 20 30 100 40)
  /\ In "  position: relative;" (nodeStyleLines atan2_degrees (roundedTop "INSIDE") None).
Proof.
  split; [reflexivity |].
  pose proof (relative_position_without_offsets atan2_degrees (roundedTop "INSIDE") None
                (box 20 30 100 40) eq_refl eq_refl) as H.
  cbv zeta in H. exact (proj1 H).
Defined.


Lemma outside_stroke_witness :
  FigmaNode.strokes (roundedTop "OUTSIDE") = Some [solid black]
  /\ FigmaNode.strokeWeight (roundedTop "OUTSIDE") = Some Num.one
  /\ strokeAlignOrInside (roundedTop "OUTSIDE") = "OUTSIDE"
  /\ In "  box-shadow: 0 0 0 1px rgb(0, 0, 0);"
        (nodeStyleLines atan2_degrees (roundedTop "OUTSIDE") (Some frame)).
Proof.
  repeat (split; [reflexivity |]).
  pose proof (outside_stroke_box_shadow atan2_degrees (roundedTop "OUTSIDE") (Some frame)
                (solid black) [] Num.one black eq_refl eq_refl eq_refl eq_refl eq_refl
                eq_refl eq_refl) as H.
  cbv zeta in H. exact (proj1 H).
Defined.

Lemma inside_stroke_bottom_rounded_witness :
  FigmaNode.strokes roundedBottom = Some [solid black]
  /\ FigmaNode.strokeWeight roundedBottom = Some Num.one
  /\ strokeAlignOrInside roundedBottom = "INSIDE"
  /\ FigmaNode.rectangleCornerRadii roundedBottom
     = Some [Num.zero; Num.zero; Num.of_Z 8; Num.of_Z 8]
  /\ In "  border-bottom: 1px solid rgb(0, 0, 0);"
        (nodeStyleLines atan2_degrees roundedBottom (Some frame))
  /\ In "  border-radius: 0px 0px 8px 8px;"
        (nodeStyleLines atan2_degrees roundedBottom (Some frame))
  /\ Forall (fun l => startsWith "  border-top" l = false /\ startsWith "  border:" l = false)
        (nodeStyleLines atan2_degrees roundedBottom (Some frame)).
Proof.
  repeat (split; [reflexivity |]).
  pose proof (inside_stroke_bottom_rounded_sides atan2_degrees roundedBottom (Some frame)
                (solid black) [] Num.one black Num.zero Num.zero (Num.of_Z 8) (Num.of_Z 8)
                eq_refl eq_refl eq_refl eq_refl eq_refl eq_refl eq_refl
                eq_refl eq_refl eq_refl) as H.
  cbv zeta in H. destruct H as (_ & _ & Hbottom & Hnone & _ & Hradius).
  split; [exact Hbottom | split; [exact Hradius | exact Hnone]].
Defined.

Lemma uniform_corner_radius_witness :
  FigmaNode.rectangleCornerRadii outlined = None
  /\ FigmaNode.cornerRadius outlined = Some (Num.of_Z 4)
  /\ Num.gtb (Num.of_Z 4) Num.zero = true
  /\ In "  border-radius: 4px;" (nodeStyleLines atan2_degrees outlined (Some frame)).
Proof.
  repeat (split; [reflexivity |]).
  pose proof (uniform_corner_radius atan2_degrees outlined (Some frame) (Num.of_Z 4)
                eq_refl eq_refl eq_refl) as H.
  cbv zeta in H. exact (proj1 H).
Defined.

Lemma corner_radii_of_wrong_length_witness :
  FigmaNode.rectangleCornerRadii twoRadii = Some [Num.of_Z 8; Num.of_Z 8]
  /\ FigmaNode.cornerRadius twoRadii = Some (Num.of_Z 4)
  /\ Forall (fun l => startsWith "  border-radius:" l = false)
        (nodeStyleLines atan2_degrees twoRadii None).
Proof.
  repeat (split; [reflexivity |]).
  assert (H : length [Num.of_Z 8; Num.of_Z 8] <> 4) by (cbn [length]; lia).
  exact (corner_radii_of_wrong_length atan2_degrees twoRadii None [Num.of_Z 8; Num.of_Z 8]
           eq_refl H).
Defined.

Lemma gradient_fill_witness :
  FigmaNode.fills (gradientRect (Some twoStops) (Some diagonal)) = Some [blackToWhite]
  /\ In "  background: linear-gradient(135deg, rgb(0, 0, 0) 0%, rgb(255, 255, 255) 100%);"
        (nodeStyleLines atan2_degrees (gradientRect (Some twoStops) (Some diagonal)) None).
Proof.
  split; [reflexivity |].
  pose proof (gradient_fill_background atan2_degrees
                (gradientRect (Some twoStops) (Some diagonal)) None blackToWhite [] twoStops
                eq_refl eq_refl eq_refl eq_refl) as H.
  cbv zeta in H. exact (proj1 H).
Defined.


Lemma display_flex_witness :
  truthy_str (FigmaNode.layoutMode (label (solid white) (Some inter))) = false
  /\ countLine "  display: flex;"
       (nodeStyleLines atan2_degrees (label (solid white) (Some inter)) (Some frame)) <= 1.
Proof.
  split; [reflexivity |].
  exact (display_flex_at_most_once atan2_degrees (label (solid white) (Some inter))
           (Some frame) eq_refl).
Defined.

Lemma text_fill_witness :
  FigmaNode.type (label (solid white) (Some inter)) = "TEXT"
  /\ FigmaNode.fills (label (solid white) (Some inter)) = Some [solid white]
  /\ not_false (Paint.visible (solid white)) = true
  /\ Forall (fun l => startsWith "  background-color" l = false)
        (nodeStyleLines atan2_degrees (label (solid white) (Some inter)) (Some frame)).
Proof.
  repeat (split; [reflexivity |]).
  exact (text_fill_is_no_background atan2_degrees (label (solid white) (Some inter))
           (Some frame) inter (solid white) [] white eq_refl eq_refl eq_refl eq_refl eq_refl).
Defined.

Lemma classes_numbered_witness :
  In (mkEntry "figma-node-1" (roundedTop "INSIDE") (Some card)) (collect document)
  /\ firstSeen (map entryId (collect document)) = ["1:2"; "1:3"; "1:4"]
  /\ classCounter (snd (convertWithStyles atan2_degrees newConverter document)) = 3.
Proof.
  assert (H : In (mkEntry "figma-node-1" (roundedTop "INSIDE") (Some card))
                 (collect document)).
  { vm_compute. right. left. reflexivity. }
  split; [exact H | split; [vm_compute; reflexivity |]].
  pose proof (classes_numbered_in_order atan2_degrees newConverter document _ H) as Hn.
  cbv zeta in Hn. destruct Hn as [_ Hn]. rewrite Hn. vm_compute. reflexivity.
Defined.

Lemma convert_same_markup_witness :
  allEmitted card = true
  /\ html (fst (convert newConverter card))
     = html (fst (convertWithStyles atan2_degrees newConverter card)).
Proof.
  split; [vm_compute; reflexivity |].
  assert (H : allEmitted card = true) by (vm_compute; reflexivity).
  exact (proj1 (convert_same_markup atan2_degrees newConverter card H)).
Defined.

Lemma effects_witness :
  noShadow hiddenShadow
  /\ generateNodeStyles atan2_degrees (withEffects outlined [dropShadow; hiddenShadow])
       (Some frame)
     = generateNodeStyles atan2_degrees (withEffects outlined [dropShadow]) (Some frame).
Proof.
  assert (H : noShadow hiddenShadow) by (left; reflexivity).
  split; [exact H |].
  exact (proj1 (effects_box_shadow atan2_degrees outlined (Some frame) [dropShadow] []
                  hiddenShadow H)).
Defined.

End MoreExamples.
